(** * reprobate: budget-controlled repr for Python objects

    A shallow embedding of [reprobate/core.py] and [reprobate/registry.py]:
    the recursive budget-allocating renderer, its dispatcher, the cycle
    guard and the per-call session state.

    - Python [str] values are lists of Unicode code points ([pystr]), so
      that [len] counts what Python counts.
    - Python [int] budgets are [Z]; [//] is [Z.div] (floor division).
    - Every Python value is a reference ([oid], what [id(obj)] returns)
      into an object store (a [gmap oid object]); an object is its type
      together with the data the renderer can observe on it.
    - The two context variables [_seen] and [_policy] are an explicit
      state ([ctx]) threaded through a state-and-exception monad [M].
    - Custom formatters ([__budget_repr__] hooks and registry renderers)
      are interaction trees over the public entry points ([prog]); the
      optional renderers of [ext_numpy.py], [ext_torch.py],
      [ext_arrow.py], [ext_pandas.py], [ext_polars.py] and
      [ext_pydantic.py] are such formatters.
    - What the code reads off a value and may raise on
      ([factory.__name__], [obj.most_common()], [getattr] of a dataclass
      field) is data of the value, with the exception when it raises. *)

From Stdlib Require Import ZArith String Ascii List Lia.
From stdpp Require Import base decidable option list gmap.

Local Open Scope Z_scope.

(** ** Text *)

Abbreviation pystr := (list N).

Definition lit (s : string) : pystr :=
  List.map N_of_ascii (list_ascii_of_string s).
Arguments lit s%_string.

(** [len(s)] *)
Definition len {A} (s : list A) : Z := Z.of_nat (length s).

(** [s[:n]], for a possibly negative [n] *)
Definition slice_to {A} (s : list A) (n : Z) : list A :=
  if 0 <=? n then take (Z.to_nat n) s
  else take (length s - Z.to_nat (- n)) s.

(** [sep.join(parts)] *)
Fixpoint join (sep : pystr) (parts : list pystr) : pystr :=
  match parts with
  | [] => []
  | [p] => p
  | p :: rest => p ++ sep ++ join sep rest
  end.

(** [s.startswith(p)] *)
Fixpoint startswith (p s : pystr) : bool :=
  match p, s with
  | [], _ => true
  | _ :: _, [] => false
  | a :: p', b :: s' => (a =? b)%N && startswith p' s'
  end.

(** [p in s] for strings: some suffix of [s] starts with [p] *)
Fixpoint contains (p s : pystr) : bool :=
  startswith p s ||
  match s with
  | [] => false
  | _ :: s' => contains p s'
  end.

(** [str(n)] for an integer: decimal digits, most significant first *)
Fixpoint digits_from (fuel : nat) (n : N) (acc : pystr) : pystr :=
  match fuel with
  | O => acc
  | S fuel' =>
      let acc' := (48 + n mod 10)%N :: acc in
      if (n / 10 =? 0)%N then acc' else digits_from fuel' (n / 10)%N acc'
  end.

Definition str_of_N (n : N) : pystr :=
  digits_from (S (N.to_nat (N.log2 n))) n [].

Definition str_of_Z (z : Z) : pystr :=
  if z <? 0 then lit "-" ++ str_of_N (Z.to_N (- z)) else str_of_N (Z.to_N z).

(** Two lower-case hexadecimal digits, as in a [\xNN] escape *)
Definition hex_digit (d : N) : N :=
  (if d <? 10 then 48 + d else 87 + d)%N.

Definition hex_escape (c : N) : pystr :=
  lit "\x" ++ [hex_digit (c / 16 mod 16); hex_digit (c mod 16)]%N.

(** The quote [repr] picks: a single quote, unless the text holds a
    single quote and no double quote. *)
Definition repr_quote (s : list N) : N :=
  if bool_decide (39%N ∈ s) && negb (bool_decide (34%N ∈ s)) then 34%N else 39%N.

(** The digits of a [\uXXXX] and of a [\UXXXXXXXX] escape *)
Fixpoint hex_digits (width : nat) (c : N) : pystr :=
  match width with
  | O => []
  | S w => hex_digits w (c / 16)%N ++ [hex_digit (c mod 16)]
  end.

(** The code points from 128 on that are not printable, as inclusive
    ranges: the categories Cc, Cf, Cs, Co, Cn, Zl, Zp and Zs of the
    Unicode database 14.0.0, the one of CPython 3.11. *)
Definition nonprintable : list (N * N) :=
  [(128, 160); (173, 173); (888, 889); (896, 899); (907, 907); (909, 909);
   (930, 930); (1328, 1328); (1367, 1368); (1419, 1420); (1424, 1424);
   (1480, 1487); (1515, 1518); (1525, 1541); (1564, 1564); (1757, 1757);
   (1806, 1807); (1867, 1868); (1970, 1983); (2043, 2044); (2094, 2095);
   (2111, 2111); (2140, 2141); (2143, 2143); (2155, 2159); (2191, 2199);
   (2274, 2274); (2436, 2436); (2445, 2446); (2449, 2450); (2473, 2473);
   (2481, 2481); (2483, 2485); (2490, 2491); (2501, 2502); (2505, 2506);
   (2511, 2518); (2520, 2523); (2526, 2526); (2532, 2533); (2559, 2560);
   (2564, 2564); (2571, 2574); (2577, 2578); (2601, 2601); (2609, 2609);
   (2612, 2612); (2615, 2615); (2618, 2619); (2621, 2621); (2627, 2630);
   (2633, 2634); (2638, 2640); (2642, 2648); (2653, 2653); (2655, 2661);
   (2679, 2688); (2692, 2692); (2702, 2702); (2706, 2706); (2729, 2729);
   (2737, 2737); (2740, 2740); (2746, 2747); (2758, 2758); (2762, 2762);
   (2766, 2767); (2769, 2783); (2788, 2789); (2802, 2808); (2816, 2816);
   (2820, 2820); (2829, 2830); (2833, 2834); (2857, 2857); (2865, 2865);
   (2868, 2868); (2874, 2875); (2885, 2886); (2889, 2890); (2894, 2900);
   (2904, 2907); (2910, 2910); (2916, 2917); (2936, 2945); (2948, 2948);
   (2955, 2957); (2961, 2961); (2966, 2968); (2971, 2971); (2973, 2973);
   (2976, 2978); (2981, 2983); (2987, 2989); (3002, 3005); (3011, 3013);
   (3017, 3017); (3022, 3023); (3025, 3030); (3032, 3045); (3067, 3071);
   (3085, 3085); (3089, 3089); (3113, 3113); (3130, 3131); (3141, 3141);
   (3145, 3145); (3150, 3156); (3159, 3159); (3163, 3164); (3166, 3167);
   (3172, 3173); (3184, 3190); (3213, 3213); (3217, 3217); (3241, 3241);
   (3252, 3252); (3258, 3259); (3269, 3269); (3273, 3273); (3278, 3284);
   (3287, 3292); (3295, 3295); (3300, 3301); (3312, 3312); (3315, 3327);
   (3341, 3341); (3345, 3345); (3397, 3397); (3401, 3401); (3408, 3411);
   (3428, 3429); (3456, 3456); (3460, 3460); (3479, 3481); (3506, 3506);
   (3516, 3516); (3518, 3519); (3527, 3529); (3531, 3534); (3541, 3541);
   (3543, 3543); (3552, 3557); (3568, 3569); (3573, 3584); (3643, 3646);
   (3676, 3712); (3715, 3715); (3717, 3717); (3723, 3723); (3748, 3748);
   (3750, 3750); (3774, 3775); (3781, 3781); (3783, 3783); (3790, 3791);
   (3802, 3803); (3808, 3839); (3912, 3912); (3949, 3952); (3992, 3992);
   (4029, 4029); (4045, 4045); (4059, 4095); (4294, 4294); (4296, 4300);
   (4302, 4303); (4681, 4681); (4686, 4687); (4695, 4695); (4697, 4697);
   (4702, 4703); (4745, 4745); (4750, 4751); (4785, 4785); (4790, 4791);
   (4799, 4799); (4801, 4801); (4806, 4807); (4823, 4823); (4881, 4881);
   (4886, 4887); (4955, 4956); (4989, 4991); (5018, 5023); (5110, 5111);
   (5118, 5119); (5760, 5760); (5789, 5791); (5881, 5887); (5910, 5918);
   (5943, 5951); (5972, 5983); (5997, 5997); (6001, 6001); (6004, 6015);
   (6110, 6111); (6122, 6127); (6138, 6143); (6158, 6158); (6170, 6175);
   (6265, 6271); (6315, 6319); (6390, 6399); (6431, 6431); (6444, 6447);
   (6460, 6463); (6465, 6467); (6510, 6511); (6517, 6527); (6572, 6575);
   (6602, 6607); (6619, 6621); (6684, 6685); (6751, 6751); (6781, 6782);
   (6794, 6799); (6810, 6815); (6830, 6831); (6863, 6911); (6989, 6991);
   (7039, 7039); (7156, 7163); (7224, 7226); (7242, 7244); (7305, 7311);
   (7355, 7356); (7368, 7375); (7419, 7423); (7958, 7959); (7966, 7967);
   (8006, 8007); (8014, 8015); (8024, 8024); (8026, 8026); (8028, 8028);
   (8030, 8030); (8062, 8063); (8117, 8117); (8133, 8133); (8148, 8149);
   (8156, 8156); (8176, 8177); (8181, 8181); (8191, 8207); (8232, 8239);
   (8287, 8303); (8306, 8307); (8335, 8335); (8349, 8351); (8385, 8399);
   (8433, 8447); (8588, 8591); (9255, 9279); (9291, 9311); (11124, 11125);
   (11158, 11158); (11508, 11512); (11558, 11558); (11560, 11564);
   (11566, 11567); (11624, 11630); (11633, 11646); (11671, 11679);
   (11687, 11687); (11695, 11695); (11703, 11703); (11711, 11711);
   (11719, 11719); (11727, 11727); (11735, 11735); (11743, 11743);
   (11870, 11903); (11930, 11930); (12020, 12031); (12246, 12271);
   (12284, 12288); (12352, 12352); (12439, 12440); (12544, 12548);
   (12592, 12592); (12687, 12687); (12772, 12783); (12831, 12831);
   (42125, 42127); (42183, 42191); (42540, 42559); (42744, 42751);
   (42955, 42959); (42962, 42962); (42964, 42964); (42970, 42993);
   (43053, 43055); (43066, 43071); (43128, 43135); (43206, 43213);
   (43226, 43231); (43348, 43358); (43389, 43391); (43470, 43470);
   (43482, 43485); (43519, 43519); (43575, 43583); (43598, 43599);
   (43610, 43611); (43715, 43738); (43767, 43776); (43783, 43784);
   (43791, 43792); (43799, 43807); (43815, 43815); (43823, 43823);
   (43884, 43887); (44014, 44015); (44026, 44031); (55204, 55215);
   (55239, 55242); (55292, 63743); (64110, 64111); (64218, 64255);
   (64263, 64274); (64280, 64284); (64311, 64311); (64317, 64317);
   (64319, 64319); (64322, 64322); (64325, 64325); (64451, 64466);
   (64912, 64913); (64968, 64974); (64976, 65007); (65050, 65055);
   (65107, 65107); (65127, 65127); (65132, 65135); (65141, 65141);
   (65277, 65280); (65471, 65473); (65480, 65481); (65488, 65489);
   (65496, 65497); (65501, 65503); (65511, 65511); (65519, 65531);
   (65534, 65535); (65548, 65548); (65575, 65575); (65595, 65595);
   (65598, 65598); (65614, 65615); (65630, 65663); (65787, 65791);
   (65795, 65798); (65844, 65846); (65935, 65935); (65949, 65951);
   (65953, 65999); (66046, 66175); (66205, 66207); (66257, 66271);
   (66300, 66303); (66340, 66348); (66379, 66383); (66427, 66431);
   (66462, 66462); (66500, 66503); (66518, 66559); (66718, 66719);
   (66730, 66735); (66772, 66775); (66812, 66815); (66856, 66863);
   (66916, 66926); (66939, 66939); (66955, 66955); (66963, 66963);
   (66966, 66966); (66978, 66978); (66994, 66994); (67002, 67002);
   (67005, 67071); (67383, 67391); (67414, 67423); (67432, 67455);
   (67462, 67462); (67505, 67505); (67515, 67583); (67590, 67591);
   (67593, 67593); (67638, 67638); (67641, 67643); (67645, 67646);
   (67670, 67670); (67743, 67750); (67760, 67807); (67827, 67827);
   (67830, 67834); (67868, 67870); (67898, 67902); (67904, 67967);
   (68024, 68027); (68048, 68049); (68100, 68100); (68103, 68107);
   (68116, 68116); (68120, 68120); (68150, 68151); (68155, 68158);
   (68169, 68175); (68185, 68191); (68256, 68287); (68327, 68330);
   (68343, 68351); (68406, 68408); (68438, 68439); (68467, 68471);
   (68498, 68504); (68509, 68520); (68528, 68607); (68681, 68735);
   (68787, 68799); (68851, 68857); (68904, 68911); (68922, 69215);
   (69247, 69247); (69290, 69290); (69294, 69295); (69298, 69375);
   (69416, 69423); (69466, 69487); (69514, 69551); (69580, 69599);
   (69623, 69631); (69710, 69713); (69750, 69758); (69821, 69821);
   (69827, 69839); (69865, 69871); (69882, 69887); (69941, 69941);
   (69960, 69967); (70007, 70015); (70112, 70112); (70133, 70143);
   (70162, 70162); (70207, 70271); (70279, 70279); (70281, 70281);
   (70286, 70286); (70302, 70302); (70314, 70319); (70379, 70383);
   (70394, 70399); (70404, 70404); (70413, 70414); (70417, 70418);
   (70441, 70441); (70449, 70449); (70452, 70452); (70458, 70458);
   (70469, 70470); (70473, 70474); (70478, 70479); (70481, 70486);
   (70488, 70492); (70500, 70501); (70509, 70511); (70517, 70655);
   (70748, 70748); (70754, 70783); (70856, 70863); (70874, 71039);
   (71094, 71095); (71134, 71167); (71237, 71247); (71258, 71263);
   (71277, 71295); (71354, 71359); (71370, 71423); (71451, 71452);
   (71468, 71471); (71495, 71679); (71740, 71839); (71923, 71934);
   (71943, 71944); (71946, 71947); (71956, 71956); (71959, 71959);
   (71990, 71990); (71993, 71994); (72007, 72015); (72026, 72095);
   (72104, 72105); (72152, 72153); (72165, 72191); (72264, 72271);
   (72355, 72367); (72441, 72703); (72713, 72713); (72759, 72759);
   (72774, 72783); (72813, 72815); (72848, 72849); (72872, 72872);
   (72887, 72959); (72967, 72967); (72970, 72970); (73015, 73017);
   (73019, 73019); (73022, 73022); (73032, 73039); (73050, 73055);
   (73062, 73062); (73065, 73065); (73103, 73103); (73106, 73106);
   (73113, 73119); (73130, 73439); (73465, 73647); (73649, 73663);
   (73714, 73726); (74650, 74751); (74863, 74863); (74869, 74879);
   (75076, 77711); (77811, 77823); (78895, 82943); (83527, 92159);
   (92729, 92735); (92767, 92767); (92778, 92781); (92863, 92863);
   (92874, 92879); (92910, 92911); (92918, 92927); (92998, 93007);
   (93018, 93018); (93026, 93026); (93048, 93052); (93072, 93759);
   (93851, 93951); (94027, 94030); (94088, 94094); (94112, 94175);
   (94181, 94191); (94194, 94207); (100344, 100351); (101590, 101631);
   (101641, 110575); (110580, 110580); (110588, 110588); (110591, 110591);
   (110883, 110927); (110931, 110947); (110952, 110959); (111356, 113663);
   (113771, 113775); (113789, 113791); (113801, 113807); (113818, 113819);
   (113824, 118527); (118574, 118575); (118599, 118607); (118724, 118783);
   (119030, 119039); (119079, 119080); (119155, 119162); (119275, 119295);
   (119366, 119519); (119540, 119551); (119639, 119647); (119673, 119807);
   (119893, 119893); (119965, 119965); (119968, 119969); (119971, 119972);
   (119975, 119976); (119981, 119981); (119994, 119994); (119996, 119996);
   (120004, 120004); (120070, 120070); (120075, 120076); (120085, 120085);
   (120093, 120093); (120122, 120122); (120127, 120127); (120133, 120133);
   (120135, 120137); (120145, 120145); (120486, 120487); (120780, 120781);
   (121484, 121498); (121504, 121504); (121520, 122623); (122655, 122879);
   (122887, 122887); (122905, 122906); (122914, 122914); (122917, 122917);
   (122923, 123135); (123181, 123183); (123198, 123199); (123210, 123213);
   (123216, 123535); (123567, 123583); (123642, 123646); (123648, 124895);
   (124903, 124903); (124908, 124908); (124911, 124911); (124927, 124927);
   (125125, 125126); (125143, 125183); (125260, 125263); (125274, 125277);
   (125280, 126064); (126133, 126208); (126270, 126463); (126468, 126468);
   (126496, 126496); (126499, 126499); (126501, 126502); (126504, 126504);
   (126515, 126515); (126520, 126520); (126522, 126522); (126524, 126529);
   (126531, 126534); (126536, 126536); (126538, 126538); (126540, 126540);
   (126544, 126544); (126547, 126547); (126549, 126550); (126552, 126552);
   (126554, 126554); (126556, 126556); (126558, 126558); (126560, 126560);
   (126563, 126563); (126565, 126566); (126571, 126571); (126579, 126579);
   (126584, 126584); (126589, 126589); (126591, 126591); (126602, 126602);
   (126620, 126624); (126628, 126628); (126634, 126634); (126652, 126703);
   (126706, 126975); (127020, 127023); (127124, 127135); (127151, 127152);
   (127168, 127168); (127184, 127184); (127222, 127231); (127406, 127461);
   (127491, 127503); (127548, 127551); (127561, 127567); (127570, 127583);
   (127590, 127743); (128728, 128732); (128749, 128751); (128765, 128767);
   (128884, 128895); (128985, 128991); (129004, 129007); (129009, 129023);
   (129036, 129039); (129096, 129103); (129114, 129119); (129160, 129167);
   (129198, 129199); (129202, 129279); (129620, 129631); (129646, 129647);
   (129653, 129655); (129661, 129663); (129671, 129679); (129709, 129711);
   (129723, 129727); (129734, 129743); (129754, 129759); (129768, 129775);
   (129783, 129791); (129939, 129939); (129995, 130031); (130042, 131071);
   (173792, 173823); (177977, 177983); (178206, 178207); (183970, 183983);
   (191457, 194559); (195102, 196607); (201547, 917759); (918000, 1114111)]%N.

(** [Py_UNICODE_ISPRINTABLE(ch)], asked for [ch >= 0x7f] only *)
Definition isprintable (c : N) : bool :=
  negb (existsb (fun r : N * N => (r.1 <=? c)%N && (c <=? r.2)%N) nonprintable).

(** [repr(s)] of a [str], one character at a time, as [unicode_repr]
    does: the chosen quote and the backslash escaped, [\t], [\n] and
    [\r], [\xNN] for the other ASCII controls, ASCII as it is, and past
    ASCII the printable code points as they are and the others as
    [\xNN], [\uNNNN] or [\UNNNNNNNN] by their size. *)
Definition repr_str_char (q c : N) : pystr :=
  if (c =? q)%N || (c =? 92)%N then [92%N; c]
  else if (c =? 9)%N then lit "\t"
  else if (c =? 10)%N then lit "\n"
  else if (c =? 13)%N then lit "\r"
  else if (c <? 32)%N || (c =? 127)%N then hex_escape c
  else if (c <? 127)%N then [c]
  else if isprintable c then [c]
  else if (c <=? 255)%N then hex_escape c
  else if (c <=? 65535)%N then lit "\u" ++ hex_digits 4 c
  else lit "\U" ++ hex_digits 8 c.

Definition repr_str (s : pystr) : pystr :=
  let q := repr_quote s in
  [q] ++ concat (List.map (repr_str_char q) s) ++ [q].

(** [repr(b)] of a [bytes]: every byte outside printable ASCII is escaped. *)
Definition repr_bytes_char (q c : N) : pystr :=
  if (c =? q)%N || (c =? 92)%N then [92%N; c]
  else if (c =? 9)%N then lit "\t"
  else if (c =? 10)%N then lit "\n"
  else if (c =? 13)%N then lit "\r"
  else if (c <? 32)%N || (127 <=? c)%N then hex_escape c
  else [c].

Definition repr_bytes (b : list N) : pystr :=
  let q := repr_quote b in
  lit "b" ++ [q] ++ concat (List.map (repr_bytes_char q) b) ++ [q].

(** [b.decode('ascii', errors='replace')]: one character per byte *)
Definition decode_ascii_replace (b : list N) : pystr :=
  List.map (fun c => if (c <? 128)%N then c else 65533%N) b.

(** ** Session state and the render monad *)

Definition oid := N.
Definition cid := N.

Inductive Policy := greedy | even.

Inductive exn :=
  | RuntimeError (msg : string)
  | IndexError
  | AttributeError
  | TypeError
  | UserError (code : N).

(** Outcome of a call: a value, a Python exception, or the recursion
    depth of the model exhausted. *)
Inductive res (A : Type) :=
  | Ok (a : A)
  | Exc (e : exn)
  | OutOfFuel.
Arguments Ok {A} a.
Arguments Exc {A} e.
Arguments OutOfFuel {A}.

(** The two context variables. [_seen] has no default ([None]: unset);
    [_policy] defaults to ["greedy"]. *)
Record ctx := Ctx {
  _seen : option (gset oid);
  _policy : Policy
}.

Definition ctx0 : ctx := {| _seen := None; _policy := greedy |}.

Definition M (A : Type) : Type := ctx -> res A * ctx.

Definition ret {A} (a : A) : M A := fun c => (Ok a, c).

Definition raise {A} (e : exn) : M A := fun c => (Exc e, c).

Definition out_of_fuel {A} : M A := fun c => (OutOfFuel, c).

Definition bind {A B} (m : M A) (k : A -> M B) : M B :=
  fun c =>
    match m c with
    | (Ok a, c') => k a c'
    | (Exc e, c') => (Exc e, c')
    | (OutOfFuel, c') => (OutOfFuel, c')
    end.

Declare Scope render_scope.
Delimit Scope render_scope with render.
Notation "x <- m ;; k" := (bind m (fun x => k))
  (at level 100, m at next level, right associativity) : render_scope.
Notation "m ;;; k" := (bind m (fun _ => k))
  (at level 100, right associativity) : render_scope.
Local Open Scope render_scope.

(** A value, or the exception raised in computing it *)
Definition of_sum {A} (r : A + exn) : M A :=
  match r with
  | inl a => ret a
  | inr e => raise e
  end.

(** [try: body finally: fin] *)
Definition try_finally {A} (body : M A) (fin : M unit) : M A :=
  fun c =>
    let '(r, c1) := body c in
    match fin c1 with
    | (Ok _, c2) => (r, c2)
    | (Exc e, c2) => (Exc e, c2)
    | (OutOfFuel, c2) => (OutOfFuel, c2)
    end.

(** [_seen.get()], with the [LookupError] turned into the usage error *)
Definition usage_error : exn :=
  RuntimeError "render_child() must be called within render(). Use render() as the top-level entry point.".

Definition _seen_get : M (gset oid) :=
  fun c =>
    match _seen c with
    | Some s => (Ok s, c)
    | None => (Exc usage_error, c)
    end.

(** [seen.add(obj_id)] and [seen.discard(obj_id)] mutate the set the
    context variable is bound to. *)
Definition seen_add (i : oid) : M unit :=
  fun c => (Ok tt, {| _seen := (fun s => s ∪ {[i]}) <$> _seen c; _policy := _policy c |}).

Definition seen_discard (i : oid) : M unit :=
  fun c => (Ok tt, {| _seen := (fun s => s ∖ {[i]}) <$> _seen c; _policy := _policy c |}).

(** [ContextVar.set] returns a token holding the previous binding;
    [ContextVar.reset] restores it. *)
Definition _seen_set (s : gset oid) : M (option (gset oid)) :=
  fun c => (Ok (_seen c), {| _seen := Some s; _policy := _policy c |}).

Definition _seen_reset (token : option (gset oid)) : M unit :=
  fun c => (Ok tt, {| _seen := token; _policy := _policy c |}).

Definition _policy_set (p : Policy) : M Policy :=
  fun c => (Ok (_policy c), {| _seen := _seen c; _policy := p |}).

Definition _policy_reset (token : Policy) : M unit :=
  fun c => (Ok tt, {| _seen := _seen c; _policy := token |}).

Definition _policy_get : M Policy := fun c => (Ok (_policy c), c).

(** ** Objects *)

(** What a formatter may do: return text, raise, or call back into the
    public entry points [render_child], [render_attrs] and [render] and
    go on from the outcome (text, or the exception it may catch). *)
Inductive prog :=
  | Return (s : pystr)
  | Raise (e : exn)
  | CallRenderChild (obj : oid) (budget : Z) (k : pystr + exn -> prog)
  | CallRenderAttrs (attrs : list (pystr * oid)) (type_name : pystr)
      (budget : Z) (k : pystr + exn -> prog)
  | CallRender (obj : oid) (budget : Z) (policy : Policy)
      (k : pystr + exn -> prog).

(** [Renderer = Callable[[Any, int], str]] *)
Definition Renderer := oid -> Z -> prog.

(** What the renderer reads off [type(obj)]. *)
Record pytype := PyType {
  ty_id : cid;
  ty_name : pystr;                       (* type(obj).__name__ *)
  ty_mro : list cid;                     (* type(obj).__mro__, the type first *)
  ty_budget_repr : option Renderer;      (* getattr(type(obj), PROTOCOL_METHOD, None) *)
  ty_fields : option (list pystr)        (* type(obj)._fields, when it exists *)
}.

(** An instance reaching [_render_object]. *)
Record instance := Instance {
  o_repr : option pystr;                 (* repr(obj); None: it raises *)
  o_is_dataclass : bool;                 (* dataclasses.is_dataclass(obj) *)
  o_is_type : bool;                      (* isinstance(obj, type) *)
  o_fields : list (pystr * bool * (oid + exn));
                                         (* dataclasses.fields: name, repr flag and
                                            what getattr(obj, name) returns or raises *)
  o_dict : option (list (pystr * oid));  (* vars(obj), when obj has a __dict__ *)
  o_slots : option (list (pystr * option oid)); (* __slots__, with the values that are set *)
  o_len : option Z                       (* len(obj), when it has __len__ and it does not raise *)
}.

(** [obj.default_factory] of a [defaultdict]: [None], or a callable by
    what [factory.__name__] returns or raises ([AttributeError] for a
    [functools.partial] or a callable instance, which have no
    [__name__]). *)
Inductive default_factory :=
  | NoFactory
  | Factory (name : pystr + exn).

(** The data of an object; its constructor decides every [isinstance]
    test of [_render_generic]. *)
Inductive payload :=
  | PNone
  | PBool (b : bool)
  | PInt (z : Z)
  | PFloat (r : pystr)                   (* a float, by its repr *)
  | PStr (s : pystr)
  | PBytes (b : list N)
  | PDefaultDict (factory : default_factory) (items : list (oid * oid))
  | PCounter (entries : list (oid * oid)) (unordered : option exn)
      (* the entries, in the order of obj.most_common() when it returns;
         unordered = Some e: the counts cannot be compared and it raises e *)
  | PDict (items : list (oid * oid))
  | PTuple (items : list oid)
  | PList (items : list oid)
  | PSet (items : list oid)
  | PFrozenSet (items : list oid)
  | PDeque (items : list oid)
  | PObject (o : instance).

Record object := Object {
  ob_type : pytype;
  ob_payload : payload
}.

Definition builtin (i : cid) (name : string) (mro : list cid) : pytype :=
  {| ty_id := i; ty_name := lit name; ty_mro := i :: mro;
     ty_budget_repr := None; ty_fields := None |}.

Definition cid_object : cid := 0%N.
Definition ty_NoneType := builtin 1%N "NoneType" [cid_object].
Definition ty_int := builtin 3%N "int" [cid_object].
Definition ty_bool := builtin 2%N "bool" [3%N; cid_object].
Definition ty_float := builtin 4%N "float" [cid_object].
Definition ty_str := builtin 5%N "str" [cid_object].
Definition ty_bytes := builtin 6%N "bytes" [cid_object].
Definition ty_dict := builtin 7%N "dict" [cid_object].
Definition ty_list := builtin 8%N "list" [cid_object].
Definition ty_tuple := builtin 9%N "tuple" [cid_object].
Definition ty_set := builtin 10%N "set" [cid_object].
Definition ty_frozenset := builtin 11%N "frozenset" [cid_object].
Definition ty_deque := builtin 12%N "deque" [cid_object].
Definition ty_defaultdict := builtin 13%N "defaultdict" [7%N; cid_object].
Definition ty_Counter := builtin 14%N "Counter" [7%N; cid_object].

Definition None_ : object := Object ty_NoneType PNone.
Definition bool_ (b : bool) : object := Object ty_bool (PBool b).
Definition int_ (z : Z) : object := Object ty_int (PInt z).
Definition str_ (s : string) : object := Object ty_str (PStr (lit s)).
Definition bytes_ (s : string) : object := Object ty_bytes (PBytes (lit s)).
Definition dict_ (items : list (oid * oid)) : object := Object ty_dict (PDict items).
Definition list_ (items : list oid) : object := Object ty_list (PList items).
Definition tuple_ (items : list oid) : object := Object ty_tuple (PTuple items).
Definition set_ (items : list oid) : object := Object ty_set (PSet items).

(** The object store. An identity outside the store denotes [None]. *)
Definition deref (h : gmap oid object) (i : oid) : object :=
  default None_ (h !! i).

(** [isinstance(obj, (type(None), bool, int, float, str, bytes))] *)
Definition is_exempt (o : object) : bool :=
  match ob_payload o with
  | PNone | PBool _ | PInt _ | PFloat _ | PStr _ | PBytes _ => true
  | _ => false
  end.

(** [len(val)] where [val] has a [__len__] that does not raise *)
Definition py_len (o : object) : option Z :=
  match ob_payload o with
  | PNone | PBool _ | PInt _ | PFloat _ => None
  | PStr s => Some (len s)
  | PBytes b => Some (len b)
  | PDefaultDict _ items | PCounter items _ | PDict items => Some (len items)
  | PTuple items | PList items | PSet items | PFrozenSet items
  | PDeque items => Some (len items)
  | PObject o => o_len o
  end.

(** [dict(pairs)]: a later value for a key already present replaces the
    earlier one in place. *)
Fixpoint dict_set {V} (k : pystr) (v : V) (d : list (pystr * V)) : list (pystr * V) :=
  match d with
  | [] => [(k, v)]
  | (k', v') :: d' =>
      if decide (k = k') then (k, v) :: d' else (k', v') :: dict_set k v d'
  end.

Definition py_dict {V} (pairs : list (pystr * V)) : list (pystr * V) :=
  fold_left (fun d kv => dict_set kv.1 kv.2 d) pairs [].

(** ** registry.py *)

(** [register(cls)(fn)]: [_registry[cls] = fn] *)
Definition register (cls : cid) (fn : Renderer)
    (_registry : gmap cid Renderer) : gmap cid Renderer :=
  <[cls := fn]> _registry.

(** [get_renderer(cls)]: the first class of [cls.__mro__] in the registry *)
Fixpoint get_renderer_mro (_registry : gmap cid Renderer) (mro : list cid)
    : option Renderer :=
  match mro with
  | [] => None
  | klass :: rest =>
      match _registry !! klass with
      | Some fn => Some fn
      | None => get_renderer_mro _registry rest
      end
  end.

Definition get_renderer (_registry : gmap cid Renderer) (cls : pytype)
    : option Renderer :=
  get_renderer_mro _registry (ty_mro cls).

(** ** core.py: constants and leaf formatters *)

Definition MIN_BUDGET : Z := 5.
Definition MIN_CHILD_BUDGET : Z := 15.
Definition CIRCULAR : pystr := lit "<...>".
Definition ELLIPSIS : pystr := [8230%N].   (* "\u2026" *)

(** [repr(obj)] of [None], a [bool], an [int] or a [float] *)
Definition repr_primitive (p : payload) : pystr :=
  match p with
  | PBool true => lit "True"
  | PBool false => lit "False"
  | PInt z => str_of_Z z
  | PFloat r => r
  | _ => lit "None"
  end.

Definition _render_primitive (p : payload) (budget : Z) : pystr :=
  let r := repr_primitive p in
  if len r <=? budget then r
  else slice_to r (budget - 1) ++ ELLIPSIS.

Definition _render_str (obj : pystr) (budget : Z) : pystr :=
  let r := repr_str obj in
  if len r <=? budget then r
  else if budget <? 6 then slice_to r budget
  else
    let quote := take 1 r in   (* r[0]: a repr is never empty *)
    let inner := budget - 5 in
    quote ++ slice_to obj inner ++ lit "..." ++ quote.

Definition _render_bytes (obj : list N) (budget : Z) : pystr :=
  let r := repr_bytes obj in
  if len r <=? budget then r
  else if budget <? 6 then slice_to r budget
  else
    let inner := budget - 5 in
    lit "b'" ++ decode_ascii_replace (slice_to obj inner) ++ lit "...'".

(** ** core.py: the budget allocator and the dispatcher *)

(** [f"...{k} more"] *)
Definition more (k : Z) : pystr := lit "..." ++ str_of_Z k ++ lit " more".

(** [2 if parts else 0] *)
Definition sep_cost_of (parts : list pystr) : Z :=
  match parts with [] => 0 | _ => 2 end.

(** [len(f", ...{omitted - 1} more") if omitted > 1 else 0] *)
Definition reserve_of (omitted : Z) : Z :=
  if 1 <? omitted then len (lit ", " ++ more (omitted - 1)) else 0.

(** What a container renderer decided to show: the entries rendered from
    the front, the number of entries left out, the entries rendered from
    the back. *)
Record layout := Layout {
  head_parts : list pystr;
  omitted : Z;
  tail_parts : list pystr
}.

(** [head_parts + ([mid] if mid else []) + tail_parts], with
    [mid = f"...{omitted} more" if omitted > 0 else None] *)
Definition all_parts (l : layout) : list pystr :=
  head_parts l ++ (if 0 <? omitted l then [more (omitted l)] else []) ++ tail_parts l.

(** [_type_stub(val)] *)
Definition _type_stub (val : object) : pystr :=
  let type_name := ty_name (ob_type val) in
  match py_len val with
  | Some n => lit "<" ++ type_name ++ lit "(" ++ str_of_Z n ++ lit ")>"
  | None => lit "<" ++ type_name ++ lit ">"
  end.

Section Render.

Variable h : gmap oid object.
Variable _registry : gmap cid Renderer.

Section Allocator.

(** The recursive entry point, as seen from the allocator. *)
Variable rc : oid -> Z -> M pystr.

(** *** [_render_dict] *)

(** The [for key, value in obj.items()] loop; returns [parts] and
    [shown]. *)
Fixpoint _render_dict_loop (n : Z) (items : list (oid * oid))
    (remaining : Z) (parts : list pystr) (shown : Z)
    : M (list pystr * Z) :=
  match items with
  | [] => ret (parts, shown)
  | (key, value) :: items' =>
      let sep_cost := sep_cost_of parts in
      let omitted := n - shown in
      let reserve := reserve_of omitted in
      let available := remaining - sep_cost - reserve in
      key_r <- rc key (Z.min (available / 2) 40) ;;
      let prefix := key_r ++ lit ": " in
      let val_budget := available - len prefix in
      if val_budget <? MIN_CHILD_BUDGET then ret (parts, shown)
      else
        val_r <- rc value val_budget ;;
        let part := prefix ++ val_r in
        _render_dict_loop n items' (remaining - (len part + sep_cost))
          (parts ++ [part]) (shown + 1)
  end.

(** The entries shown and the count left out, [omitted = n - shown]. *)
Definition _render_dict_layout (obj : list (oid * oid)) (budget : Z) : M layout :=
  let n := len obj in
  ps <- _render_dict_loop n obj (budget - 2) [] 0 ;;
  ret {| head_parts := ps.1; omitted := n - ps.2; tail_parts := [] |}.

Definition _render_dict (obj : list (oid * oid)) (budget : Z) : M pystr :=
  match obj with
  | [] => ret (lit "{}")
  | _ =>
      let n := len obj in
      let tag := lit "{..." ++ str_of_Z n ++ lit " items}" in
      if budget <? len tag then
        ret (if 2 <=? budget then slice_to (lit "{...}") budget
             else slice_to (lit "{") budget)
      else if budget <=? len tag then ret tag
      else
        l <- _render_dict_layout obj budget ;;
        ret (lit "{" ++ join (lit ", ") (all_parts l) ++ lit "}")
  end.

(** *** [_render_sequence] *)

(** The [while head_idx < n] loop over [obj[head_idx:]]; returns
    [remaining], [head_parts] and [head_idx]. *)
Fixpoint _render_sequence_head (n : Z) (items : list oid)
    (remaining : Z) (head_parts : list pystr) (head_idx : Z)
    : M (Z * list pystr * Z) :=
  match items with
  | [] => ret (remaining, head_parts, head_idx)
  | item :: items' =>
      let sep_cost := sep_cost_of head_parts in
      let omitted := n - head_idx - 0 in   (* tail_parts is still empty *)
      let reserve := reserve_of omitted in
      let available := remaining - sep_cost - reserve in
      if available <? MIN_CHILD_BUDGET then ret (remaining, head_parts, head_idx)
      else
        part <- rc item available ;;
        _render_sequence_head n items' (remaining - (len part + sep_cost))
          (head_parts ++ [part]) (head_idx + 1)
  end.

Definition _render_sequence_layout (obj : list oid) (budget : Z) : M layout :=
  let n := len obj in
  hd <- _render_sequence_head n obj (budget - 2) [] 0 ;;
  let remaining := hd.1.1 in
  let head_parts := hd.1.2 in
  let head_idx := hd.2 in
  let omitted := n - head_idx in
  if (1 <? omitted) && (MIN_CHILD_BUDGET + 15 <? remaining) then
    let tail_budget :=
      Z.min (remaining - len (lit ", " ++ more (omitted - 1) ++ lit ", "))
            (remaining / 3) in
    if MIN_CHILD_BUDGET <=? tail_budget then
      match last obj with
      | Some item =>
          tail_r <- rc item tail_budget ;;
          ret {| head_parts := head_parts; omitted := omitted - 1;
                 tail_parts := [tail_r] |}
      | None => raise IndexError
      end
    else ret {| head_parts := head_parts; omitted := omitted; tail_parts := [] |}
  else ret {| head_parts := head_parts; omitted := omitted; tail_parts := [] |}.

Definition _render_sequence (is_tuple : bool) (obj : list oid) (budget : Z)
    : M pystr :=
  let open_b := if is_tuple then lit "(" else lit "[" in
  let close_b := if is_tuple then lit ")" else lit "]" in
  match obj with
  | [] => ret (open_b ++ close_b)
  | _ =>
      let n := len obj in
      let tag := open_b ++ lit "..." ++ str_of_Z n ++ lit " items" ++ close_b in
      if budget <=? len tag then ret (slice_to tag budget)
      else
        l <- _render_sequence_layout obj budget ;;
        ret (open_b ++ join (lit ", ") (all_parts l) ++ close_b)
  end.

(** *** [_render_set] *)

Fixpoint _render_set_loop (n : Z) (items : list oid)
    (remaining : Z) (parts : list pystr) (shown : Z)
    : M (list pystr * Z) :=
  match items with
  | [] => ret (parts, shown)
  | item :: items' =>
      let sep_cost := sep_cost_of parts in
      let omitted := n - shown in
      let reserve := reserve_of omitted in
      let available := remaining - sep_cost - reserve in
      if available <? MIN_CHILD_BUDGET then ret (parts, shown)
      else
        part <- rc item available ;;
        _render_set_loop n items' (remaining - (len part + sep_cost))
          (parts ++ [part]) (shown + 1)
  end.

Definition _render_set_layout (open_b close_b : pystr) (obj : list oid)
    (budget : Z) : M layout :=
  let n := len obj in
  ps <- _render_set_loop n obj (budget - len open_b - len close_b) [] 0 ;;
  ret {| head_parts := ps.1; omitted := n - ps.2; tail_parts := [] |}.

Definition _render_set (is_frozenset : bool) (obj : list oid) (budget : Z)
    : M pystr :=
  let prefix := if is_frozenset then lit "frozenset(" else [] in
  let suffix := if is_frozenset then lit ")" else [] in
  let open_b := prefix ++ lit "{" in
  let close_b := lit "}" ++ suffix in
  match obj with
  | [] =>
      if is_frozenset then ret (slice_to (lit "frozenset()") budget)
      else ret (slice_to (lit "set()") budget)
  | _ =>
      let n := len obj in
      let tag := open_b ++ lit "..." ++ str_of_Z n ++ lit " items" ++ close_b in
      if budget <=? len tag then ret (slice_to tag budget)
      else
        l <- _render_set_layout open_b close_b obj budget ;;
        ret (open_b ++ join (lit ", ") (all_parts l) ++ close_b)
  end.

(** *** [render_attrs] *)

(** Phase 1, over [attr_items[idx:]]; returns [remaining], [parts]
    and the attributes not rendered. *)
Fixpoint render_attrs_full (is_even : bool) (items : list (pystr * oid))
    (remaining : Z) (parts : list pystr)
    : M (Z * list pystr * list (pystr * oid)) :=
  match items with
  | [] => ret (remaining, parts, [])
  | (attr_name, attr_val) :: items' =>
      let sep_cost := sep_cost_of parts in
      let rest := len items in
      let reserve := reserve_of rest in
      let available := remaining - sep_cost - reserve in
      let available :=
        if is_even && (1 <? rest) then
          let per_attr := (remaining - (rest - 1) * 2) / rest in
          Z.min available per_attr
        else available in
      let prefix := attr_name ++ lit "=" in
      let val_budget := available - len prefix in
      if val_budget <? MIN_CHILD_BUDGET then ret (remaining, parts, items)
      else
        val_r <- rc attr_val val_budget ;;
        let part := prefix ++ val_r in
        render_attrs_full is_even items' (remaining - (len part + sep_cost))
          (parts ++ [part])
  end.

(** Phase 2, over the attributes phase 1 left; returns [parts] and
    the attributes not even stubbed. *)
Fixpoint render_attrs_stubs (items : list (pystr * oid))
    (remaining : Z) (parts : list pystr)
    : list pystr * list (pystr * oid) :=
  match items with
  | [] => (parts, [])
  | (attr_name, attr_val) :: items' =>
      let stub := _type_stub (deref h attr_val) in
      let part := attr_name ++ lit "=" ++ stub in
      let sep_cost := sep_cost_of parts in
      let rest := len items' in
      let reserve := if 0 <? rest then len (lit ", " ++ more rest) else 0 in
      if remaining <? len part + sep_cost + reserve then (parts, items)
      else
        render_attrs_stubs items' (remaining - (len part + sep_cost))
          (parts ++ [part])
  end.

Definition render_attrs (attrs : list (pystr * oid)) (type_name : pystr)
    (budget : Z) : M pystr :=
  let tag := lit "<" ++ type_name ++ lit ">" in
  match attrs with
  | [] => ret (slice_to tag budget)
  | _ =>
      let shell := type_name ++ lit "()" in
      if budget <=? len shell then ret (slice_to tag budget)
      else
        let remaining := budget - len type_name - 2 in
        policy <- _policy_get ;;
        let is_even := match policy with even => true | greedy => false end in
        p1 <- render_attrs_full is_even attrs remaining [] ;;
        let p2 := render_attrs_stubs p1.2 p1.1.1 p1.1.2 in
        let omitted := len p2.2 in
        let parts := if 0 <? omitted then p2.1 ++ [more omitted] else p2.1 in
        let result := type_name ++ lit "(" ++ join (lit ", ") parts ++ lit ")" in
        if budget <? len result then ret (slice_to tag budget)
        else ret result
  end.

(** *** The remaining generic renderers *)

Definition _render_namedtuple (ty : pytype) (fields : list pystr)
    (obj : list oid) (budget : Z) : M pystr :=
  let type_name := ty_name ty in
  let attrs := py_dict (zip fields obj) in
  render_attrs attrs type_name budget.

(** [factory.__name__ if factory is not None else "None"] *)
Definition factory_name (factory : default_factory) : pystr + exn :=
  match factory with
  | NoFactory => inl (lit "None")
  | Factory name => name
  end.

Definition _render_defaultdict (factory : default_factory)
    (obj : list (oid * oid)) (budget : Z) : M pystr :=
  factory_name <- of_sum (factory_name factory) ;;
  let prefix := lit "defaultdict(" ++ factory_name ++ lit ", " in
  let suffix := lit ")" in
  let shell := lit "defaultdict(" ++ factory_name ++ lit ")" in
  if budget <=? len shell then ret (slice_to shell budget)
  else
    let inner_budget := budget - len prefix - len suffix in
    if inner_budget <? MIN_BUDGET then ret (slice_to shell budget)
    else
      inner <- _render_dict obj inner_budget ;;
      ret (prefix ++ inner ++ suffix).

(** [obj.most_common()] *)
Definition most_common (entries : list (oid * oid)) (unordered : option exn)
    : list (oid * oid) + exn :=
  match unordered with
  | None => inl entries
  | Some e => inr e
  end.

Definition _render_counter (entries : list (oid * oid)) (unordered : option exn)
    (budget : Z) : M pystr :=
  let prefix := lit "Counter(" in
  let suffix := lit ")" in
  match entries with
  | [] => ret (slice_to (lit "Counter()") budget)
  | _ =>
      let shell := lit "Counter()" in
      if budget <=? len shell then ret (slice_to shell budget)
      else
        let inner_budget := budget - len prefix - len suffix in
        if inner_budget <? MIN_BUDGET then ret (slice_to shell budget)
        else
          pairs <- of_sum (most_common entries unordered) ;;
          inner <- _render_dict pairs inner_budget ;;
          ret (prefix ++ inner ++ suffix)
  end.

Definition _render_deque (obj : list oid) (budget : Z) : M pystr :=
  match obj with
  | [] => ret (slice_to (lit "deque()") budget)
  | _ =>
      let prefix := lit "deque(" in
      let suffix := lit ")" in
      let shell := prefix ++ suffix in
      if budget <=? len shell then ret (slice_to shell budget)
      else
        let inner_budget := budget - len prefix - len suffix in
        if inner_budget <? MIN_BUDGET then ret (slice_to shell budget)
        else
          inner <- _render_sequence false obj inner_budget ;;
          ret (prefix ++ inner ++ suffix)
  end.

(** Attribute discovery of [_render_object] *)
Definition is_private (name : pystr) : bool := startswith (lit "_") name.

(** [(f.name, getattr(obj, f.name))] for the fields with [f.repr], in
    their order, up to the first [getattr] that raises. *)
Fixpoint dataclass_items (fields : list (pystr * bool * (oid + exn)))
    : list (pystr * oid) + exn :=
  match fields with
  | [] => inl []
  | (name, true, inl value) :: fields' =>
      match dataclass_items fields' with
      | inl items => inl ((name, value) :: items)
      | inr e => inr e
      end
  | (name, true, inr e) :: _ => inr e
  | (_, false, _) :: fields' => dataclass_items fields'
  end.

Definition discover_attrs (o : instance) : list (pystr * oid) + exn :=
  if o_is_dataclass o && negb (o_is_type o) then
    match dataclass_items (o_fields o) with
    | inl items => inl (py_dict items)
    | inr e => inr e
    end
  else
    match o_dict o with
    | Some vars =>
        inl (py_dict (List.filter (fun kv : pystr * oid => negb (is_private kv.1)) vars))
    | None =>
        match o_slots o with
        | Some slots =>
            inl (py_dict (omap (fun s : pystr * option oid =>
                            if negb (is_private s.1) then (fun v => (s.1, v)) <$> s.2
                            else None) slots))
        | None => inl []
        end
    end.

(** The custom [__repr__], when it is tried, is not the default
    one, does not raise and fits. *)
Definition fitting_repr (o : instance) (budget : Z) : option pystr :=
  if negb (o_is_dataclass o) then
    match o_repr o with
    | Some r =>
        let is_default :=
          startswith (lit "<") r && contains (lit " object at 0x") r in
        if negb is_default && (len r <=? budget) then Some r else None
    | None => None
    end
  else None.

Definition _render_object (ty : pytype) (o : instance) (budget : Z) : M pystr :=
  let type_name := ty_name ty in
  match fitting_repr o budget with
  | Some r => ret r
  | None =>
      attrs <- of_sum (discover_attrs o) ;;
      render_attrs attrs type_name budget
  end.

Definition _render_generic (obj : oid) (budget : Z) : M pystr :=
  let o := deref h obj in
  match ob_payload o with
  | PNone | PBool _ | PInt _ | PFloat _ =>
      ret (_render_primitive (ob_payload o) budget)
  | PStr s => ret (_render_str s budget)
  | PBytes b => ret (_render_bytes b budget)
  | PDefaultDict factory items => _render_defaultdict factory items budget
  | PCounter entries unordered => _render_counter entries unordered budget
  | PDict items => _render_dict items budget
  | PTuple items =>
      match ty_fields (ob_type o) with
      | Some fields => _render_namedtuple (ob_type o) fields items budget
      | None => _render_sequence true items budget
      end
  | PList items => _render_sequence false items budget
  | PSet items => _render_set false items budget
  | PFrozenSet items => _render_set true items budget
  | PDeque items => _render_deque items budget
  | PObject o' => _render_object (ob_type o) o' budget
  end.

(** *** Running a formatter *)

(** [render(obj, budget, policy)] around the recursive entry point *)
Definition render_session (obj : oid) (budget : Z) (policy : Policy) : M pystr :=
  policy_token <- _policy_set policy ;;
  seen_token <- _seen_set ∅ ;;
  try_finally (rc obj budget)
    (_seen_reset seen_token ;;; _policy_reset policy_token).

(** A formatter sees the outcome of a callback, unless the model ran
    out of depth. *)
Definition resume (run : prog -> M pystr) (call : M pystr)
    (k : pystr + exn -> prog) : M pystr :=
  fun c =>
    match call c with
    | (Ok s, c') => run (k (inl s)) c'
    | (Exc e, c') => run (k (inr e)) c'
    | (OutOfFuel, c') => (OutOfFuel, c')
    end.

Fixpoint run_prog (p : prog) : M pystr :=
  match p with
  | Return s => ret s
  | Raise e => raise e
  | CallRenderChild obj budget k => resume run_prog (rc obj budget) k
  | CallRenderAttrs attrs type_name budget k =>
      resume run_prog (render_attrs attrs type_name budget) k
  | CallRender obj budget policy k =>
      resume run_prog (render_session obj budget policy) k
  end.

(** *** [_render_inner] *)

Definition _render_inner (obj : oid) (budget : Z) : M pystr :=
  let ty := ob_type (deref h obj) in
  match ty_budget_repr ty with
  | Some method =>
      s <- run_prog (method obj budget) ;;
      ret (slice_to s budget)
  | None =>
      match get_renderer _registry ty with
      | Some renderer =>
          s <- run_prog (renderer obj budget) ;;
          ret (slice_to s budget)
      | None => _render_generic obj budget
      end
  end.

(** [render_child] past the budget floor *)
Definition render_child_guarded (obj : oid) (budget : Z) : M pystr :=
  if negb (is_exempt (deref h obj)) then
    seen <- _seen_get ;;
    if bool_decide (obj ∈ seen) then ret (slice_to CIRCULAR budget)
    else
      seen_add obj ;;;
      try_finally (_render_inner obj budget) (seen_discard obj)
  else _render_inner obj budget.

End Allocator.

(** [render_child(obj, budget)]; [fuel] bounds the nesting of calls. *)
Fixpoint render_child (fuel : nat) (obj : oid) (budget : Z) {struct fuel}
    : M pystr :=
  if budget <? MIN_BUDGET then ret (slice_to (lit "...") budget)
  else
    match fuel with
    | O => out_of_fuel
    | S fuel' => render_child_guarded (render_child fuel') obj budget
    end.

(** [render(obj, budget, policy)] *)
Definition render (fuel : nat) (obj : oid) (budget : Z) (policy : Policy)
    : M pystr :=
  render_session (render_child fuel) obj budget policy.

End Render.

(** ** The optional renderers: ext_numpy.py, ext_torch.py, ext_arrow.py,
    ext_pandas.py, ext_polars.py, ext_pydantic.py

    The values of the third-party libraries are taken by what the
    renderers read off them. *)

(** A formatter that does not catch what a callback raises. *)
Definition or_raise (k : pystr -> prog) (r : pystr + exn) : prog :=
  match r with
  | inl s => k s
  | inr e => Raise e
  end.

(** [s.removeprefix(p)] *)
Definition removeprefix (p s : pystr) : pystr :=
  if startswith p s then drop (length p) s else s.

(** ["x".join(str(d) for d in obj.shape)] *)
Definition shape_text (shape : list Z) : pystr :=
  join (lit "x") (List.map str_of_Z shape).

(** [try: r = repr(obj); if len(r) <= budget: return r; except Exception: pass],
    with [None] for a repr that raises *)
Definition repr_if_fits (r : option pystr) (budget : Z) : option pystr :=
  match r with
  | Some r => if len r <=? budget then Some r else None
  | None => None
  end.

(** The preview loop, the same text in the six renderers that have one:
    [for i in range(limit)] over the values with [avail < 5] in
    [render_ndarray], [render_tensor] and [render_array],
    [for i, name in enumerate(col_names)] with [avail < 3] in the two
    [render_dataframe] and [render_table]. [items] are the values still to
    visit, [finish] the code after the loop. *)
Fixpoint peek_loop (min_avail : Z) (n : Z) (items : list oid) (i : Z)
    (remaining used : Z) (peek_parts : list pystr)
    (finish : list pystr -> prog) : prog :=
  match items with
  | [] => finish peek_parts
  | item :: items' =>
      let sep := sep_cost_of peek_parts in
      let omitted := n - i - 1 in
      let reserve := if 0 <? omitted then len (lit ", " ++ more omitted) else 0 in
      let avail := remaining - used - sep - reserve in
      CallRenderChild item avail (or_raise (fun r =>
        if (avail <? len r) || (avail <? min_avail) then finish peek_parts
        else
          peek_loop min_avail n items' (i + 1) remaining (used + (len r + sep))
            (peek_parts ++ [r]) finish))
  end.

(** The code after the loop *)
Definition peek_finish (header : pystr) (n : Z) (peek_parts : list pystr) : prog :=
  let omitted := n - len peek_parts in
  let peek_parts :=
    if 0 <? omitted then peek_parts ++ [more omitted] else peek_parts in
  Return (header ++ lit ", [" ++ join (lit ", ") peek_parts ++ lit "])").

(** A [numpy.ndarray]: [obj.shape], [str(obj.dtype)] and [obj.flat];
    [obj.size] is [len(obj.flat)]. *)
Record ndarray := NDArray {
  nd_shape : list Z;
  nd_dtype : pystr;
  nd_flat : list oid
}.

Definition render_ndarray (obj : ndarray) (budget : Z) : prog :=
  let shape := shape_text (nd_shape obj) in
  let dtype := nd_dtype obj in
  let header := lit "ndarray(" ++ shape ++ lit ", " ++ dtype in
  if budget <=? len header + 1 then
    Return (slice_to (lit "ndarray(" ++ shape ++ lit ")") budget)
  else
    let remaining := budget - len header - 2 in
    if remaining <? 5 then Return (slice_to (header ++ lit ")") budget)
    else
      let flat := nd_flat obj in
      let n := len flat in
      let limit := Z.min n 20 in
      peek_loop 5 n (take (Z.to_nat limit) flat) 0 remaining 0 []
        (peek_finish header n).

(** A [torch.Tensor]: [obj.shape], [str(obj.dtype)], [str(obj.device)]
    and the numbers [flat[i].item()]; [flat.numel()] is their count. *)
Record tensor := Tensor {
  t_shape : list Z;
  t_dtype : pystr;
  t_device : pystr;
  t_flat : list oid
}.

Definition tensor_header (obj : tensor) : pystr :=
  let shape := shape_text (t_shape obj) in
  let dtype := removeprefix (lit "torch.") (t_dtype obj) in
  let device := t_device obj in
  if bool_decide (device = lit "cpu") then
    lit "Tensor(" ++ shape ++ lit ", " ++ dtype
  else
    lit "Tensor(" ++ shape ++ lit ", " ++ dtype ++ lit ", " ++ device.

Definition render_tensor (obj : tensor) (budget : Z) : prog :=
  let shape := shape_text (t_shape obj) in
  let header := tensor_header obj in
  if budget <=? len header + 1 then
    Return (slice_to (lit "Tensor(" ++ shape ++ lit ")") budget)
  else
    let remaining := budget - len header - 2 in
    if remaining <? 5 then Return (slice_to (header ++ lit ")") budget)
    else
      let flat := t_flat obj in
      let n := len flat in
      let limit := Z.min n 20 in
      peek_loop 5 n (take (Z.to_nat limit) flat) 0 remaining 0 []
        (peek_finish header n).

(** A [pyarrow.Array]: [str(obj.type)] and the values [obj[i].as_py()];
    [len(obj)] is their count. *)
Record arrow_array := ArrowArray {
  aa_type : pystr;
  aa_values : list oid
}.

Definition render_array (obj : arrow_array) (budget : Z) : prog :=
  let dtype := aa_type obj in
  let n := len (aa_values obj) in
  let header := lit "Array(" ++ str_of_Z n ++ lit ", " ++ dtype in
  if budget <=? len header + 1 then
    Return (slice_to (lit "Array(" ++ str_of_Z n ++ lit ", " ++ dtype ++ lit ")") budget)
  else
    let remaining := budget - len header - 5 in
    if remaining <? 5 then Return (slice_to (header ++ lit ")") budget)
    else
      let limit := Z.min n 20 in
      peek_loop 5 n (take (Z.to_nat limit) (aa_values obj)) 0 remaining 0 []
        (peek_finish header n).

(** A [pandas.DataFrame], a [polars.DataFrame] or a [pyarrow.Table]:
    [repr(obj)] when it does not raise, [obj.shape] and the column
    names. *)
Record frame := Frame {
  f_repr : option pystr;
  f_rows : Z;
  f_cols : Z;
  f_columns : list oid
}.

(** [render_dataframe] of ext_pandas.py *)
Definition render_dataframe_pandas (obj : frame) (budget : Z) : prog :=
  match repr_if_fits (f_repr obj) budget with
  | Some r => Return r
  | None =>
      let col_names := f_columns obj in
      let header :=
        lit "DataFrame(" ++ str_of_Z (f_rows obj) ++ lit "x" ++ str_of_Z (f_cols obj) in
      if budget <=? len header + 1 then
        Return (slice_to
                  (lit "DataFrame(" ++ str_of_Z (f_rows obj) ++ lit "x"
                     ++ str_of_Z (f_cols obj) ++ lit ")") budget)
      else
        let remaining := budget - len header - 2 in
        if remaining <? 5 then Return (slice_to (header ++ lit ")") budget)
        else
          peek_loop 3 (len col_names) col_names 0 remaining 2 []
            (peek_finish header (len col_names))
  end.

(** [render_dataframe] of ext_polars.py ([name = "DataFrame"]) and
    [render_table] of ext_arrow.py ([name = "Table"]) *)
Definition render_table_named (name : pystr) (obj : frame) (budget : Z) : prog :=
  match repr_if_fits (f_repr obj) budget with
  | Some r => Return r
  | None =>
      let col_names := f_columns obj in
      let header :=
        name ++ lit "(" ++ str_of_Z (f_rows obj) ++ lit "x" ++ str_of_Z (f_cols obj) in
      if budget <=? len header + 1 then
        Return (slice_to
                  (name ++ lit "(" ++ str_of_Z (f_rows obj) ++ lit "x"
                     ++ str_of_Z (f_cols obj) ++ lit ")") budget)
      else
        let remaining := budget - len header - 5 in
        if remaining <? 5 then Return (slice_to (header ++ lit ")") budget)
        else
          peek_loop 3 (len col_names) col_names 0 remaining 0 []
            (peek_finish header (len col_names))
  end.

Definition render_dataframe_polars : frame -> Z -> prog :=
  render_table_named (lit "DataFrame").

Definition render_table : frame -> Z -> prog :=
  render_table_named (lit "Table").

(** [render_basemodel] of ext_pydantic.py; [model_fields] pairs the
    names of [type(obj).model_fields] with [getattr(obj, name)]. *)
Definition render_basemodel (type_name : pystr)
    (model_fields : list (pystr * oid)) (budget : Z) : prog :=
  let attrs := py_dict model_fields in
  CallRenderAttrs attrs type_name budget (or_raise Return).

(** * Vocabulary of the statements *)

(** Dispatch reaches the generic fallback: the type of [obj] has no
    [__budget_repr__] and no class of its MRO is registered. *)
Definition generic (h : gmap oid object) (_registry : gmap cid Renderer)
    (obj : oid) : Prop :=
  ty_budget_repr (ob_type (deref h obj)) = None /\
  get_renderer _registry (ob_type (deref h obj)) = None.

(** A computation that leaves the session state as it found it, whatever
    its outcome. *)
Definition preserves {A} (m : M A) : Prop := forall c, (m c).2 = c.


(** The callee answers every call below the budget [B], inside a
    session, and hands the session back. *)
Definition answers (rc : oid -> Z -> M pystr) (B : Z) : Prop :=
  forall obj b c, b < B -> _seen c <> None -> exists s, rc obj b c = (Ok s, c).

(** What closing the list costs after [parts]: the separator and the
    marker for [k] entries left out, when there are any. *)
Definition closing (parts : list pystr) (k : Z) : Z :=
  if 0 <? k then sep_cost_of parts + len (more k) else 0.

(** The callee keeps every non-negative budget. *)
Definition within (rc : oid -> Z -> M pystr) : Prop :=
  forall obj b c s c', 0 <= b -> rc obj b c = (Ok s, c') -> len s <= b.

(** The store holds no [bytes] value. *)
Definition bytes_free (h : gmap oid object) : Prop :=
  forall obj b, ob_payload (deref h obj) <> PBytes b.

(** The lengths of the attribute names, added up. *)
Definition names_total {V} (attrs : list (pystr * V)) : Z :=
  fold_right (fun kv a => len kv.1 + a) 0 attrs.

(** The attributes and the factory name the renderer reads, when reading
    them does not raise. *)
Definition attrs_of (o : instance) : list (pystr * oid) :=
  match discover_attrs o with
  | inl attrs => attrs
  | inr _ => []
  end.

Definition factory_text (factory : default_factory) : pystr :=
  match factory_name factory with
  | inl name => name
  | inr _ => []
  end.

(** Nothing the generic fallback reads off a value of the store raises:
    every [default_factory] is [None] or has a [__name__], the counts of
    every Counter can be ordered, and every [repr] field of a dataclass
    instance is set. *)
Definition readable_b (o : object) : bool :=
  match ob_payload o with
  | PDefaultDict factory _ =>
      match factory_name factory with inl _ => true | inr _ => false end
  | PCounter entries unordered =>
      match most_common entries unordered with inl _ => true | inr _ => false end
  | PObject i =>
      match discover_attrs i with inl _ => true | inr _ => false end
  | _ => true
  end.

Definition readable (h : gmap oid object) : Prop :=
  forall obj, readable_b (deref h obj) = true.

(** Sizes of what a container of [n] entries, an attribute bag and an
    object can render to, given a bound [X] on a part, [L] on the text
    of any child and [S] on any type stub. *)
Definition seq_bound (n X : Z) : Z := 50 + n + X + n * (X + 2).

Definition attrs_bound (type_name : pystr) (attrs : list (pystr * oid))
    (L S : Z) : Z :=
  len type_name + 20 + len attrs
    + len attrs * (names_total attrs + 1 + L + S + 2).

Definition obj_bound (L S : Z) (o : object) : Z :=
  match ob_payload o with
  | PNone | PBool _ | PInt _ | PFloat _ => len (repr_primitive (ob_payload o))
  | PStr s => len (repr_str s)
  | PBytes b => len (repr_bytes b)
  | PDefaultDict factory items =>
      20 + len (factory_text factory) + seq_bound (len items) (2 * L + 2)
  | PCounter items _ => 20 + seq_bound (len items) (2 * L + 2)
  | PDict items => seq_bound (len items) (2 * L + 2)
  | PTuple items =>
      match ty_fields (ob_type o) with
      | Some fields =>
          attrs_bound (ty_name (ob_type o)) (py_dict (zip fields items)) L S
      | None => seq_bound (len items) L
      end
  | PList items | PSet items | PFrozenSet items => seq_bound (len items) L
  | PDeque items => 20 + seq_bound (len items) L
  | PObject i =>
      Z.max (match o_repr i with Some r => len r | None => 0 end)
            (attrs_bound (ty_name (ob_type o)) (attrs_of i) L S)
  end.

(** How many objects of the store are not yet on the render stack. *)
Definition depth_left (h : gmap oid object) (c : ctx) : nat :=
  match _seen c with
  | Some s0 => size (dom h ∖ s0)
  | None => 0
  end.

(** Some part holds the circular marker. *)
Definition marked (parts : list pystr) : Prop :=
  exists p, p ∈ parts /\ contains CIRCULAR p = true.

(** [r.startswith("<") and " object at 0x" in r] *)
Definition is_default_repr (r : pystr) : bool :=
  startswith (lit "<") r && contains (lit " object at 0x") r.

(** An instance that [_render_object] decomposes at every budget: a
    dataclass, or one whose [repr] raises or is the default one. *)
Definition decomposed (o : instance) : bool :=
  o_is_dataclass o
  || match o_repr o with Some r => is_default_repr r | None => true end.

(** The values a container shows in full when it has the room: the
    entries of a list, tuple, set, frozenset or deque, the values of a
    dict, defaultdict or Counter, the fields of a named tuple and the
    attributes of a decomposed object. *)
Definition shown_children (h : gmap oid object) (obj : oid) : list oid :=
  let o := deref h obj in
  match ob_payload o with
  | PDefaultDict _ items | PCounter items _ | PDict items => items.*2
  | PTuple items =>
      match ty_fields (ob_type o) with
      | Some fields => (py_dict (zip fields items)).*2
      | None => items
      end
  | PList items | PSet items | PFrozenSet items | PDeque items => items
  | PObject i => if decomposed i then (attrs_of i).*2 else []
  | _ => []
  end.

(** [obj] lies on a reference cycle through such entries. *)
Definition on_cycle (h : gmap oid object) (obj : oid) : Prop :=
  tc (fun a b => b ∈ shown_children h a) obj obj.


(** The budget from which an attribute bag shows all its values with a
    budget of [R] or more each, when no child renders to more than [L]
    characters; the same for a container. *)
Definition attrs_enough (type_name : pystr) (attrs : list (pystr * oid))
    (L R : Z) : Z :=
  len type_name + len attrs * (names_total attrs + L + 20 + R) + len attrs + 40.


(** The type of [o] exposes no [__budget_repr__]. *)
Definition hook_free_b (o : object) : bool :=
  match ty_budget_repr (ob_type o) with None => true | Some _ => false end.

(** [obj is None or isinstance(obj, (bool, int, float))] *)
Definition is_primitive (p : payload) : bool :=
  match p with
  | PNone | PBool _ | PInt _ | PFloat _ => true
  | _ => false
  end.

(** A byte [repr] shows as itself: printable ASCII other than the single
    quote and the backslash. *)
Definition plain_byte (c : N) : Prop :=
  (32 <= c)%N /\ (c < 127)%N /\ c <> 39%N /\ c <> 92%N.

(** [text] is what the entry point returned for [item] on some call with
    a budget of at least [floor]. *)
Definition rendered_as (rc : oid -> Z -> M pystr) (floor : Z) (item : oid)
    (text : pystr) : Prop :=
  exists b c1 c2, floor <= b /\ rc item b c1 = (Ok text, c2).

(** [f"{name}={val_r}"] for an attribute rendered in full *)
Definition full_part (rc : oid -> Z -> M pystr) (kv : pystr * oid)
    (part : pystr) : Prop :=
  exists val_r, rendered_as rc MIN_CHILD_BUDGET kv.2 val_r
                /\ part = kv.1 ++ lit "=" ++ val_r.

(** [f"{attr_name}={stub}"] *)
Definition stub_part (h : gmap oid object) (kv : pystr * oid) : pystr :=
  kv.1 ++ lit "=" ++ _type_stub (deref h kv.2).

(** [f"{open_b}...{n} items{close_b}"] *)
Definition count_tag (open_b close_b : pystr) (n : Z) : pystr :=
  open_b ++ lit "..." ++ str_of_Z n ++ lit " items" ++ close_b.

(** [f"{key_r}: {val_r}"] for a dict entry: the key rendered with a
    budget of at most 40, the value with one of at least 15. *)
Definition entry_part (rc : oid -> Z -> M pystr) (kv : oid * oid)
    (part : pystr) : Prop :=
  exists key_r val_r bk c1 c2,
    bk <= 40 /\ rc kv.1 bk c1 = (Ok key_r, c2)
    /\ rendered_as rc MIN_CHILD_BUDGET kv.2 val_r
    /\ part = key_r ++ lit ": " ++ val_r.

(** [repr(obj)] of an exempt scalar *)
Definition repr_scalar (o : object) : option pystr :=
  match ob_payload o with
  | PNone | PBool _ | PInt _ | PFloat _ => Some (repr_primitive (ob_payload o))
  | PStr s => Some (repr_str s)
  | PBytes b => Some (repr_bytes b)
  | _ => None
  end.

(** What is to come of a flat container: the separator after [parts]
    and the joined reprs, when there are any. *)
Definition joined_cost (parts reprs : list pystr) : Z :=
  match reprs with
  | [] => 0
  | _ => sep_cost_of parts + len (join (lit ", ") reprs)
  end.

(** The callee overruns a non-negative budget by one character at
    most. *)
Definition within_one (rc : oid -> Z -> M pystr) : Prop :=
  forall obj b c s c', 0 <= b -> rc obj b c = (Ok s, c') -> len s <= b + 1.

(** The outcome of a computation does not depend on the policy in
    force. *)
Definition policy_blind {A} (m : M A) : Prop :=
  forall s p1 p2,
    (m {| _seen := s; _policy := p1 |}).1 = (m {| _seen := s; _policy := p2 |}).1.

(** No value of the store is decomposed into attributes: there is no
    object past the built-in containers and no named tuple. *)
Definition attr_free_b (o : object) : bool :=
  match ob_payload o with
  | PObject _ => false
  | PTuple _ => match ty_fields (ob_type o) with None => true | Some _ => false end
  | _ => true
  end.

Definition attr_free (h : gmap oid object) : Prop :=
  forall obj, attr_free_b (deref h obj) = true.

(** [f"{name}={val_r}"] where the value was rendered with a budget of at
    least [share] less the name, the [=] and two characters. *)
Definition shared_part (rc : oid -> Z -> M pystr) (share : Z)
    (kv : pystr * oid) (part : pystr) : Prop :=
  exists val_r, rendered_as rc (share - len kv.1 - 3) kv.2 val_r
                /\ part = kv.1 ++ lit "=" ++ val_r.

(** A value the preview shows: [render_child] answered [text] for it on
    a budget of at least [min_avail], and the text fits that budget. *)
Definition peeked (rc : oid -> Z -> M pystr) (min_avail : Z) (item : oid)
    (text : pystr) : Prop :=
  exists b c1 c2, min_avail <= b /\ rc item b c1 = (Ok text, c2) /\ len text <= b.

(** [header, [v1, ..., vk, ...K more])]: the first [k] values, [k] at most
    [cap], and the count of the rest when there is one. *)
Definition preview (rc : oid -> Z -> M pystr) (min_avail : Z) (cap : nat)
    (header : pystr) (items : list oid) (s : pystr) : Prop :=
  exists parts,
    (length parts <= cap)%nat /\ (length parts <= length items)%nat
    /\ Forall2 (peeked rc min_avail) (take (length parts) items) parts
    /\ s = header ++ lit ", ["
             ++ join (lit ", ")
                  (parts ++ (if (length parts <? length items)%nat
                             then [more (len items - len parts)] else []))
             ++ lit "])".

(** [len(f", ...{omitted} more") if omitted > 0 else 0] *)
Definition peek_reserve (omitted : Z) : Z :=
  if 0 <? omitted then len (lit ", " ++ more omitted) else 0.

(** The preview that shows no value: the header and the count alone. *)
Definition nothing_shown (header : pystr) (items : list oid) (s : pystr) : Prop :=
  s = header ++ lit ", ["
        ++ join (lit ", ") (if 0 <? len items then [more (len items)] else [])
        ++ lit "])".

(** * Example stores *)

(** An object with the default repr and neither [__dict__] nor
    [__slots__]. *)
Definition bare_instance : instance :=
  {| o_repr := Some (lit "<Foo object at 0x7f00>"); o_is_dataclass := false;
     o_is_type := false; o_fields := []; o_dict := None; o_slots := None;
     o_len := None |}.

Definition ty_Foo : pytype :=
  {| ty_id := 100%N; ty_name := lit "Foo"; ty_mro := [100%N; cid_object];
     ty_budget_repr := None; ty_fields := None |}.

(** [Point = namedtuple("Point", ["x", "y"])] and [Point(1, 2)] *)
Definition ty_Point : pytype :=
  {| ty_id := 101%N; ty_name := lit "Point"; ty_mro := [101%N; 9%N; cid_object];
     ty_budget_repr := None; ty_fields := Some [lit "x"; lit "y"] |}.

Definition heap_point : gmap oid object :=
  {[ 0%N := Object ty_Point (PTuple [1%N; 2%N]);
     1%N := int_ 1; 2%N := int_ 2;
     3%N := tuple_ [1%N; 2%N] ]}.

(** A base class with a registered renderer, a subclass without one, and
    a class with the hook. *)
Definition ty_Base : pytype :=
  {| ty_id := 200%N; ty_name := lit "Base"; ty_mro := [200%N; cid_object];
     ty_budget_repr := None; ty_fields := None |}.

Definition ty_Derived : pytype :=
  {| ty_id := 201%N; ty_name := lit "Derived"; ty_mro := [201%N; 200%N; cid_object];
     ty_budget_repr := None; ty_fields := None |}.

Definition ty_WithProtocol : pytype :=
  {| ty_id := 202%N; ty_name := lit "WithProtocol";
     ty_mro := [202%N; 200%N; cid_object];
     ty_budget_repr := Some (fun _ budget =>
       Return (lit "proto(" ++ str_of_Z budget ++ lit ")"));
     ty_fields := None |}.

Definition render_base : Renderer := fun _ _ => Return (lit "custom base renderer").

Definition registry_base : gmap cid Renderer := register 200%N render_base ∅.

Definition heap_classes : gmap oid object :=
  {[ 0%N := Object ty_Derived (PObject bare_instance);
     1%N := Object ty_WithProtocol (PObject bare_instance) ]}.

(** [shared = [1, 2, 3]; obj = [shared, shared]] *)
Definition heap_dag : gmap oid object :=
  {[ 0%N := list_ [1%N; 1%N]; 1%N := list_ [2%N; 3%N; 4%N];
     2%N := int_ 1; 3%N := int_ 2; 4%N := int_ 3 ]}.

(** A list holding an object whose hook raises. *)
Definition ty_Raises : pytype :=
  {| ty_id := 203%N; ty_name := lit "Raises"; ty_mro := [203%N; cid_object];
     ty_budget_repr := Some (fun _ _ => Raise (UserError 7));
     ty_fields := None |}.

Definition heap_raises : gmap oid object :=
  {[ 0%N := list_ [1%N]; 1%N := Object ty_Raises (PObject bare_instance) ]}.

(** [render(list(range(10)), 40)] shows five entries from the front and
    counts the five it leaves out. *)
Definition heap_range10 : gmap oid object :=
  list_to_map
    ((100%N, list_ (List.map N.of_nat (seq 0 10)))
       :: List.map (fun i => (N.of_nat i, int_ (Z.of_nat i))) (seq 0 10)).

(** [b"aaaa"] *)
Definition heap_bytes : gmap oid object := {[ 0%N := bytes_ "aaaa" ]}.

(** [a = []; a.append(a); a.append(b"a" * 40)] *)
Definition heap_cycle_bytes : gmap oid object :=
  {[ 0%N := list_ [0%N; 1%N];
     1%N := bytes_ "aaaaaaaaaaaaaaaaaaaaaaaaaaaaaaaaaaaaaaaa" ]}.

(** [a = [1, 2]; a.append(a)], [d = {}; d["self"] = d] and
    [n = Node(); n.child = n] *)
Definition ty_Node : pytype :=
  {| ty_id := 204%N; ty_name := lit "Node"; ty_mro := [204%N; cid_object];
     ty_budget_repr := None; ty_fields := None |}.

Definition heap_cycles : gmap oid object :=
  {[ 0%N := list_ [1%N; 2%N; 0%N]; 1%N := int_ 1; 2%N := int_ 2;
     3%N := dict_ [(4%N, 3%N)]; 4%N := str_ "self";
     5%N := Object ty_Node (PObject
              {| o_repr := Some (lit "<Node object at 0x7f3a>");
                 o_is_dataclass := false; o_is_type := false; o_fields := [];
                 o_dict := Some [(lit "child", 5%N)]; o_slots := None;
                 o_len := None |});
     6%N := list_ [7%N]; 7%N := list_ [6%N] ]}.

(** [Money(5, "USD")] with a custom [__repr__], a public and a private
    attribute; an object with private state only. *)
Definition ty_Money : pytype :=
  {| ty_id := 205%N; ty_name := lit "Money"; ty_mro := [205%N; cid_object];
     ty_budget_repr := None; ty_fields := None |}.

Definition ty_Vault : pytype :=
  {| ty_id := 206%N; ty_name := lit "Vault"; ty_mro := [206%N; cid_object];
     ty_budget_repr := None; ty_fields := None |}.

Definition heap_money : gmap oid object :=
  {[ 0%N := Object ty_Money (PObject
              {| o_repr := Some (lit "Money(5 USD)");
                 o_is_dataclass := false; o_is_type := false; o_fields := [];
                 o_dict := Some [(lit "amount", 1%N); (lit "_cache", 2%N);
                                 (lit "currency", 3%N)];
                 o_slots := None; o_len := None |});
     1%N := int_ 5; 2%N := int_ 0; 3%N := str_ "USD";
     4%N := Object ty_Vault (PObject
              {| o_repr := Some (lit "<Vault object at 0x7f3a>");
                 o_is_dataclass := false; o_is_type := false; o_fields := [];
                 o_dict := Some [(lit "_key", 1%N); (lit "__salt", 2%N)];
                 o_slots := None; o_len := None |}) ]}.

(** [{"a": 1, "b": 2}] *)
Definition heap_ages : gmap oid object :=
  {[ 0%N := dict_ [(1%N, 2%N); (3%N, 4%N)];
     1%N := str_ "a"; 2%N := int_ 1; 3%N := str_ "b"; 4%N := int_ 2 ]}.

(** [Pair(left="a" * 40, right="b" * 40)] *)
Definition ty_Pair : pytype :=
  {| ty_id := 207%N; ty_name := lit "Pair"; ty_mro := [207%N; cid_object];
     ty_budget_repr := None; ty_fields := None |}.

Definition heap_pair : gmap oid object :=
  {[ 0%N := Object ty_Pair (PObject
              {| o_repr := Some (lit "<Pair object at 0x7f3a>");
                 o_is_dataclass := false; o_is_type := false; o_fields := [];
                 o_dict := Some [(lit "left", 1%N); (lit "right", 2%N)];
                 o_slots := None; o_len := None |});
     1%N := str_ "aaaaaaaaaaaaaaaaaaaaaaaaaaaaaaaaaaaaaaaa";
     2%N := str_ "bbbbbbbbbbbbbbbbbbbbbbbbbbbbbbbbbbbbbbbb" ]}.

(** [np.arange(30.0)], a frame of three columns, and a pydantic model
    with a [__repr__] of its own kept in the store as an object *)
Definition example_array : ndarray :=
  {| nd_shape := [30]; nd_dtype := lit "float64";
     nd_flat := List.map N.of_nat (seq 0 30) |}.

Definition heap_floats : gmap oid object :=
  list_to_map
    (List.map (fun i => (N.of_nat i,
                         Object ty_float (PFloat (str_of_Z (Z.of_nat i) ++ lit ".0"))))
       (seq 0 30)).

Definition example_frame : frame :=
  {| f_repr := None; f_rows := 1000; f_cols := 3;
     f_columns := [1%N; 2%N; 3%N] |}.

Definition heap_columns : gmap oid object :=
  {[ 1%N := str_ "id"; 2%N := str_ "name"; 3%N := str_ "score" ]}.

Definition cid_BaseModel : cid := 300%N.

Definition ty_User : pytype :=
  {| ty_id := 301%N; ty_name := lit "User";
     ty_mro := [301%N; cid_BaseModel; cid_object];
     ty_budget_repr := None; ty_fields := None |}.

Definition heap_user : gmap oid object :=
  {[ 0%N := Object ty_User (PObject
              {| o_repr := Some (lit "User(id=7, name='ann')");
                 o_is_dataclass := false; o_is_type := false; o_fields := [];
                 o_dict := Some [(lit "id", 1%N); (lit "name", 2%N)];
                 o_slots := None; o_len := None |});
     1%N := int_ 7; 2%N := str_ "ann" ]}.

Definition user_fields (obj : oid) : list (pystr * oid) :=
  [(lit "id", 1%N); (lit "name", 2%N)].

Definition registry_pydantic : gmap cid Renderer :=
  register cid_BaseModel
    (fun obj budget =>
       render_basemodel (ty_name (ob_type (deref heap_user obj))) (user_fields obj) budget)
    ∅.

(** An [ndarray] in the store, with [render_ndarray] registered for its
    class. *)
Definition ty_ndarray : pytype :=
  {| ty_id := 400%N; ty_name := lit "ndarray"; ty_mro := [400%N; cid_object];
     ty_budget_repr := None; ty_fields := None |}.

Definition heap_numpy : gmap oid object :=
  <[ 1000%N := Object ty_ndarray (PObject bare_instance) ]> heap_floats.

Definition registry_numpy : gmap cid Renderer :=
  register 400%N (fun _ budget => render_ndarray example_array budget) ∅.








(** A deque, a defaultdict and a Counter that hold themselves, and a
    set holding an object (whose [repr] raises) that holds the set *)
Definition heap_wrapped : gmap oid object :=
  {[ 0%N := Object ty_deque (PDeque [0%N]);
     1%N := Object ty_defaultdict
              (PDefaultDict (Factory (inl (lit "list"))) [(2%N, 1%N)]);
     2%N := str_ "k";
     3%N := Object ty_Counter (PCounter [(2%N, 3%N)] None);
     4%N := set_ [5%N];
     5%N := Object ty_Node (PObject
              {| o_repr := None;
                 o_is_dataclass := false; o_is_type := false; o_fields := [];
                 o_dict := Some [(lit "members", 4%N)]; o_slots := None;
                 o_len := None |}) ]}.

(** [defaultdict(list)], [Counter()], [frozenset()], [deque()] and
    the one value of [namedtuple("Empty", [])] *)
Definition ty_Empty : pytype :=
  {| ty_id := 210%N; ty_name := lit "Empty"; ty_mro := [210%N; 9%N; cid_object];
     ty_budget_repr := None; ty_fields := Some [] |}.

Definition heap_empties : gmap oid object :=
  {[ 0%N := Object ty_defaultdict (PDefaultDict (Factory (inl (lit "list"))) []);
     1%N := Object ty_Counter (PCounter [] None);
     2%N := Object ty_frozenset (PFrozenSet []);
     3%N := Object ty_deque (PDeque []);
     4%N := Object ty_Empty (PTuple []) ]}.

(** * Properties *)

(** ** Text *)

Lemma len_app {A} (a b : list A) : len (a ++ b) = len a + len b.
Proof. unfold len. rewrite length_app. lia. Qed.

Lemma len_nonneg {A} (a : list A) : 0 <= len a.
Proof. unfold len. lia. Qed.

Lemma len_nil (A : Type) : len (@nil A) = 0.
Proof. reflexivity. Qed.

Lemma len_cons {A} (x : A) (a : list A) : len (x :: a) = 1 + len a.
Proof. unfold len. simpl length. lia. Qed.

Lemma slice_to_take {A} (s : list A) (n : Z) : exists k, slice_to s n = take k s.
Proof. unfold slice_to. destruct (0 <=? n); eauto. Qed.

Lemma len_slice_to {A} (s : list A) (n : Z) :
  0 <= n -> len (slice_to s n) <= n.
Proof.
  intros Hn. unfold slice_to, len.
  destruct (Z.leb_spec 0 n); [|lia].
  rewrite length_take. lia.
Qed.

Lemma len_slice_to_le {A} (s : list A) (n : Z) : len (slice_to s n) <= len s.
Proof.
  destruct (slice_to_take s n) as [k ->]. unfold len. rewrite length_take. lia.
Qed.

Lemma slice_to_all {A} (s : list A) (n : Z) : len s <= n -> slice_to s n = s.
Proof.
  unfold slice_to, len. intros Hn.
  destruct (Z.leb_spec 0 n); [|lia].
  apply take_ge. lia.
Qed.

Lemma slice_to_exact {A} (s : list A) (n : Z) :
  0 <= n <= len s -> len (slice_to s n) = n.
Proof.
  unfold slice_to, len. intros Hn.
  destruct (Z.leb_spec 0 n); [|lia].
  rewrite length_take. lia.
Qed.

(** Lengths of concatenations of literals, as sums of numbers. *)
Ltac len_norm :=
  rewrite ?len_app, ?len_cons, ?len_nil in *;
  repeat match goal with
    | |- context [len (lit ?s)] =>
        let v := eval vm_compute in (len (lit s)) in
        change (len (lit s)) with v in *
    | H : context [len (lit ?s)] |- _ =>
        let v := eval vm_compute in (len (lit s)) in
        change (len (lit s)) with v in *
    end.

(** ** The monad *)

Lemma bind_ret_l {A B} (a : A) (k : A -> M B) c : bind (ret a) k c = k a c.
Proof. reflexivity. Qed.

Lemma bind_ok {A B} (m : M A) (k : A -> M B) c a c' :
  m c = (Ok a, c') -> bind m k c = k a c'.
Proof. unfold bind. intros ->. reflexivity. Qed.

Lemma bind_inv_ok {A B} (m : M A) (k : A -> M B) c b c' :
  bind m k c = (Ok b, c') ->
  exists a c1, m c = (Ok a, c1) /\ k a c1 = (Ok b, c').
Proof.
  unfold bind. destruct (m c) as [[a|e|] c1]; intros H; try discriminate; eauto.
Qed.

Lemma bind_assoc_at {A B C} (m : M A) (k1 : A -> M B) (k2 : B -> M C) c :
  bind (bind m k1) k2 c = bind m (fun x => bind (k1 x) k2) c.
Proof. unfold bind. destruct (m c) as [[a|e|] c1]; reflexivity. Qed.

Lemma of_sum_bind_inv {A B} (r : A + exn) (k : A -> M B) c b c' :
  bind (of_sum r) k c = (Ok b, c') -> exists a, r = inl a /\ k a c = (Ok b, c').
Proof. destruct r as [a|e]; [|discriminate]. intros H. by exists a. Qed.

Lemma ret_inv {A} (a b : A) c c' : ret a c = (Ok b, c') -> b = a /\ c' = c.
Proof. unfold ret. intros [= -> ->]. split; reflexivity. Qed.

Lemma _render_inner_generic h reg rc obj budget :
  generic h reg obj ->
  _render_inner h reg rc obj budget = _render_generic h rc obj budget.
Proof. intros [H1 H2]. unfold _render_inner. rewrite H1, H2. reflexivity. Qed.

Lemma ctx_eta c : {| _seen := _seen c; _policy := _policy c |} = c.
Proof. destruct c; reflexivity. Qed.

(** ** C7: the budget floor *)

(** C7. For every value and every budget [0 <= budget < 5],
    [render_child] returns ["..."[:budget]] whatever the object store,
    the registry, the session state (even none) and the remaining depth
    are: the value, its type, the registry and the cycle guard are not
    consulted and nothing recurses. *)
Theorem C7_floor_placeholder :
  forall h reg fuel obj budget c,
    0 <= budget < MIN_BUDGET ->
    render_child h reg fuel obj budget c
      = (Ok (take (Z.to_nat budget) (lit "...")), c).
Proof.
  intros h reg fuel obj budget c [H0 H5].
  destruct fuel; simpl;
    (destruct (Z.ltb_spec budget MIN_BUDGET); [|lia]);
    unfold ret, slice_to; (destruct (Z.leb_spec 0 budget); [|lia]); reflexivity.
Qed.

Lemma C7_floor_placeholder_witness :
  0 <= 2 < MIN_BUDGET /\
  render_child ∅ ∅ 0 7%N 2 ctx0 = (Ok (lit ".."), ctx0).
Proof.
  assert (H : 0 <= 2 < MIN_BUDGET) by (unfold MIN_BUDGET; lia).
  split; [exact H | exact (C7_floor_placeholder ∅ ∅ 0%nat 7%N 2 ctx0 H)].
Defined.

(** ** C9: an empty attribute bag *)

Lemma tag_not_shell (type_name : pystr) (budget : Z) :
  slice_to (lit "<" ++ type_name ++ lit ">") budget <> type_name ++ lit "()".
Proof.
  intros Heq.
  destruct (slice_to_take (lit "<" ++ type_name ++ lit ">") budget) as [k Hk].
  rewrite Hk in Heq.
  assert (Hlen : length (take k (lit "<" ++ type_name ++ lit ">"))
                 = length (lit "<" ++ type_name ++ lit ">")).
  { rewrite Heq. rewrite !length_app. simpl. lia. }
  rewrite take_ge in Heq by (rewrite length_take in Hlen; lia).
  apply (f_equal last) in Heq.
  change (lit "<" ++ type_name ++ lit ">")
    with ((60%N :: type_name) ++ [62%N]) in Heq.
  change (type_name ++ lit "()") with (type_name ++ [40%N; 41%N]) in Heq.
  rewrite last_snoc in Heq.
  replace (type_name ++ [40%N; 41%N]) with ((type_name ++ [40%N]) ++ [41%N]) in Heq
    by (rewrite <- app_assoc; reflexivity).
  rewrite last_snoc in Heq. discriminate.
Qed.

(** C9. [render_attrs] with an empty attribute mapping returns the bare
    tag ["<TypeName>"] clipped to [budget], for every type name and
    budget, and that text is never the shell ["TypeName()"]; hence an
    object whose repr shortcut does not apply and whose attribute
    discovery finds nothing renders as its type tag only. *)
Theorem C9_empty_attrs_tag :
  forall h rc type_name budget c,
    0 <= budget ->
    render_attrs h rc [] type_name budget c
      = (Ok (slice_to (lit "<" ++ type_name ++ lit ">") budget), c)
    /\ slice_to (lit "<" ++ type_name ++ lit ">") budget <> type_name ++ lit "()"
    /\ len (slice_to (lit "<" ++ type_name ++ lit ">") budget) <= budget
    /\ forall ty o,
         ty_name ty = type_name ->
         fitting_repr o budget = None ->
         discover_attrs o = inl [] ->
         _render_object h rc ty o budget c
           = (Ok (slice_to (lit "<" ++ type_name ++ lit ">") budget), c).
Proof.
  intros h rc type_name budget c Hb. split; [|split; [|split]].
  - reflexivity.
  - apply tag_not_shell.
  - apply len_slice_to, Hb.
  - intros ty o Hn Hr Hd. unfold _render_object. rewrite Hr, Hd, Hn. reflexivity.
Qed.

Lemma C9_empty_attrs_tag_witness :
  0 <= 4 /\
  render_attrs ∅ (fun _ _ => ret []) [] (lit "Foo") 4 ctx0
    = (Ok (lit "<Foo"), ctx0) /\
  _render_object ∅ (fun _ _ => ret []) ty_Foo bare_instance 4 ctx0
    = (Ok (lit "<Foo"), ctx0).
Proof.
  assert (H : 0 <= 4) by lia.
  destruct (C9_empty_attrs_tag ∅ (fun _ _ => ret []) (lit "Foo") 4 ctx0 H)
    as (H1 & _ & _ & H2).
  split; [exact H|]. split; [exact H1|].
  apply (H2 ty_Foo bare_instance); reflexivity.
Defined.

(** ** C3: [render_child] outside a session *)

(** Against C3 as stated: outside any [render] call, [render_child(42, 100)]
    returns ["42"] and [render_child([], 3)] returns ["..."]. *)
Lemma C3_counterexample :
  render_child {[ 0%N := int_ 42 ]} ∅ 1 0%N 100 ctx0 = (Ok (lit "42"), ctx0) /\
  render_child {[ 0%N := list_ [] ]} ∅ 1 0%N 3 ctx0 = (Ok (lit "..."), ctx0).
Proof. split; vm_compute; reflexivity. Qed.

(** C3 (amended). With no session active, [render_child] fails with the
    usage error exactly when the cycle guard is needed: for every value
    that is not an instance of None, bool, int, float, str or bytes and
    every budget of at least 5. Below the floor it returns the clipped
    placeholder, and for the exempt scalars it dispatches as usual. *)
Theorem C3_usage_error_outside_render :
  forall h reg fuel obj budget c,
    _seen c = None ->
    (MIN_BUDGET <= budget -> is_exempt (deref h obj) = false ->
       render_child h reg (S fuel) obj budget c = (Exc usage_error, c))
    /\ (budget < MIN_BUDGET ->
       render_child h reg (S fuel) obj budget c
         = (Ok (slice_to (lit "...") budget), c))
    /\ (MIN_BUDGET <= budget -> is_exempt (deref h obj) = true ->
       render_child h reg (S fuel) obj budget c
         = _render_inner h reg (render_child h reg fuel) obj budget c).
Proof.
  intros h reg fuel obj budget c Hseen. split; [|split].
  - intros Hb Hex. simpl.
    destruct (Z.ltb_spec budget MIN_BUDGET); [lia|].
    unfold render_child_guarded. rewrite Hex. simpl.
    unfold bind, _seen_get. rewrite Hseen. reflexivity.
  - intros Hb. simpl.
    destruct (Z.ltb_spec budget MIN_BUDGET); [|lia]. reflexivity.
  - intros Hb Hex. simpl.
    destruct (Z.ltb_spec budget MIN_BUDGET); [lia|].
    unfold render_child_guarded. rewrite Hex. reflexivity.
Qed.

Lemma C3_usage_error_outside_render_witness :
  _seen ctx0 = None /\ MIN_BUDGET <= 100 /\
  is_exempt (deref {[ 0%N := list_ [] ]} 0%N) = false /\
  render_child {[ 0%N := list_ [] ]} ∅ 1 0%N 100 ctx0 = (Exc usage_error, ctx0).
Proof.
  assert (H1 : _seen ctx0 = None) by reflexivity.
  assert (H2 : MIN_BUDGET <= 100) by (unfold MIN_BUDGET; lia).
  assert (H3 : is_exempt (deref {[ 0%N := list_ [] ]} 0%N) = false) by reflexivity.
  split; [exact H1|]. split; [exact H2|]. split; [exact H3|].
  exact (proj1 (C3_usage_error_outside_render
                  {[ 0%N := list_ [] ]} ∅ 0%nat 0%N 100 ctx0 H1) H2 H3).
Defined.

(** ** Session and guard bookkeeping *)

(** [render] runs the entry point under a fresh guard and the requested
    policy, and hands back the caller's context whatever the outcome. *)
Lemma render_session_eq rc obj budget policy c :
  render_session rc obj budget policy c
    = ((rc obj budget {| _seen := Some ∅; _policy := policy |}).1, c).
Proof.
  unfold render_session, bind, try_finally, _policy_set, _seen_set,
    _seen_reset, _policy_reset. simpl.
  destruct (rc obj budget _) as [r c1]. simpl. rewrite ctx_eta. reflexivity.
Qed.

(** A non-exempt value not yet on the stack: the inner render sees the
    guard with its identity added, and the identity is discarded on the
    way out. *)
Lemma render_child_guarded_fresh h reg rc obj budget s p :
  is_exempt (deref h obj) = false ->
  obj ∉ s ->
  render_child_guarded h reg rc obj budget {| _seen := Some s; _policy := p |}
    = ( (_render_inner h reg rc obj budget
           {| _seen := Some (s ∪ {[obj]}); _policy := p |}).1,
        let c1 := (_render_inner h reg rc obj budget
                     {| _seen := Some (s ∪ {[obj]}); _policy := p |}).2 in
        {| _seen := (fun s => s ∖ {[obj]}) <$> _seen c1; _policy := _policy c1 |} ).
Proof.
  intros Hex Hnot. unfold render_child_guarded. rewrite Hex. simpl.
  unfold bind at 1. unfold _seen_get. simpl.
  rewrite bool_decide_eq_false_2 by exact Hnot.
  unfold bind, seen_add, try_finally, seen_discard. simpl.
  destruct (_render_inner h reg rc obj budget _) as [r c1]. reflexivity.
Qed.

Lemma render_child_guarded_seen h reg rc obj budget s p :
  is_exempt (deref h obj) = false ->
  obj ∈ s ->
  render_child_guarded h reg rc obj budget {| _seen := Some s; _policy := p |}
    = (Ok (slice_to CIRCULAR budget), {| _seen := Some s; _policy := p |}).
Proof.
  intros Hex Hin. unfold render_child_guarded. rewrite Hex. simpl.
  unfold bind at 1. unfold _seen_get. simpl.
  rewrite bool_decide_eq_true_2 by exact Hin. reflexivity.
Qed.

Lemma render_child_S h reg fuel obj budget :
  MIN_BUDGET <= budget ->
  render_child h reg (S fuel) obj budget
    = render_child_guarded h reg (render_child h reg fuel) obj budget.
Proof.
  intros Hb. simpl. destruct (Z.ltb_spec budget MIN_BUDGET); [lia|]. reflexivity.
Qed.

Lemma render_child_floor h reg fuel obj budget :
  budget < MIN_BUDGET ->
  render_child h reg fuel obj budget = ret (slice_to (lit "...") budget).
Proof.
  intros Hb. destruct fuel; simpl;
    (destruct (Z.ltb_spec budget MIN_BUDGET); [|lia]); reflexivity.
Qed.

(** ** C8: empty containers *)

(** Against C8 as stated: [render({}, 3)] is ["..."], not ["{}"]; and
    in the generic fallback an empty [defaultdict] and an empty
    [Counter] are mappings that do not render as ["{}"], an empty
    [deque] is a sequence that does not render as ["[]"], an empty named
    tuple does not render as ["()"] and an empty [frozenset] does not
    render as ["set()"]. *)
Lemma C8_counterexample :
  (render {[ 0%N := dict_ [] ]} ∅ 1 0%N 3 greedy ctx0 = (Ok (lit "..."), ctx0)
   /\ lit "..." <> lit "{}")
  /\ (forall obj, generic heap_empties ∅ obj)
  /\ render heap_empties ∅ 1 0%N 100 greedy ctx0
       = (Ok (lit "defaultdict(list, {})"), ctx0)
  /\ render heap_empties ∅ 1 1%N 100 greedy ctx0 = (Ok (lit "Counter()"), ctx0)
  /\ render heap_empties ∅ 1 2%N 100 greedy ctx0 = (Ok (lit "frozenset()"), ctx0)
  /\ render heap_empties ∅ 1 3%N 100 greedy ctx0 = (Ok (lit "deque()"), ctx0)
  /\ render heap_empties ∅ 1 4%N 100 greedy ctx0 = (Ok (lit "<Empty>"), ctx0).
Proof.
  split; [split; [vm_compute; reflexivity | discriminate]|].
  split.
  { intros obj. split.
    - unfold deref. destruct (heap_empties !! obj) as [o|] eqn:Ho; [|reflexivity].
      assert (Hall : map_Forall (fun _ o => hook_free_b o = true) heap_empties)
        by (apply (bool_decide_unpack _); vm_compute; reflexivity).
      specialize (Hall obj o Ho). unfold hook_free_b in Hall. simpl.
      destruct (ty_budget_repr (ob_type o)); [discriminate|reflexivity].
    - unfold get_renderer.
      induction (ty_mro (ob_type (deref heap_empties obj))) as [|k mro IH];
        [reflexivity|]. simpl. rewrite lookup_empty. exact IH. }
  repeat split; vm_compute; reflexivity.
Qed.

Lemma render_generic_container h reg fuel obj budget policy c s :
  MIN_BUDGET <= budget ->
  generic h reg obj ->
  is_exempt (deref h obj) = false ->
  (forall c', _render_generic h (render_child h reg fuel) obj budget c' = (Ok s, c')) ->
  render h reg (S fuel) obj budget policy c = (Ok s, c).
Proof.
  intros Hb Hg Hex Hs. unfold render. rewrite render_session_eq.
  rewrite render_child_S by exact Hb.
  rewrite render_child_guarded_fresh by (try exact Hex; apply not_elem_of_empty).
  rewrite _render_inner_generic by exact Hg. rewrite Hs. reflexivity.
Qed.

(** C8 (amended). When dispatch reaches the generic fallback, for every
    budget of at least 5 [render] of an empty dict that is neither a
    defaultdict nor a Counter returns ["{}"], of an empty list ["[]"], of
    an empty tuple whose type has no [_fields] ["()"] and of an empty set
    that is not a frozenset ["set()"]; for a budget below 5 the result is
    the placeholder ["..."] clipped to the budget, whatever the value and
    the dispatch. *)
Theorem C8_empty_containers :
  forall h reg fuel obj budget policy c,
    (MIN_BUDGET <= budget -> generic h reg obj ->
       (ob_payload (deref h obj) = PDict [] ->
          render h reg (S fuel) obj budget policy c = (Ok (lit "{}"), c)) /\
       (ob_payload (deref h obj) = PList [] ->
          render h reg (S fuel) obj budget policy c = (Ok (lit "[]"), c)) /\
       (ob_payload (deref h obj) = PTuple [] ->
        ty_fields (ob_type (deref h obj)) = None ->
          render h reg (S fuel) obj budget policy c = (Ok (lit "()"), c)) /\
       (ob_payload (deref h obj) = PSet [] ->
          render h reg (S fuel) obj budget policy c = (Ok (lit "set()"), c)))
    /\ (budget < MIN_BUDGET ->
          render h reg fuel obj budget policy c
            = (Ok (slice_to (lit "...") budget), c)).
Proof.
  intros h reg fuel obj budget policy c. split.
  - intros Hb Hg.
    split; [|split; [|split]]; intros Hp; [| |intros Hf|];
      apply render_generic_container; try assumption;
      try (unfold is_exempt; rewrite Hp; reflexivity);
      intros c'; unfold _render_generic; rewrite Hp; try rewrite Hf;
      try reflexivity.
    simpl. unfold _render_set. simpl. rewrite slice_to_all; [reflexivity|].
    unfold MIN_BUDGET in Hb. vm_compute (len _). lia.
  - intros Hb. unfold render. rewrite render_session_eq.
    rewrite render_child_floor by exact Hb. reflexivity.
Qed.

Lemma C8_empty_containers_witness :
  MIN_BUDGET <= 5 /\ generic {[ 0%N := set_ [] ]} ∅ 0%N /\
  ob_payload (deref {[ 0%N := set_ [] ]} 0%N) = PSet [] /\
  render {[ 0%N := set_ [] ]} ∅ 1 0%N 5 even ctx0 = (Ok (lit "set()"), ctx0).
Proof.
  assert (H1 : MIN_BUDGET <= 5) by (unfold MIN_BUDGET; lia).
  assert (H2 : generic {[ 0%N := set_ [] ]} ∅ 0%N) by (split; reflexivity).
  assert (H3 : ob_payload (deref {[ 0%N := set_ [] ]} 0%N) = PSet []) by reflexivity.
  split; [exact H1|]. split; [exact H2|]. split; [exact H3|].
  destruct (C8_empty_containers {[ 0%N := set_ [] ]} ∅ 0%nat 0%N 5 even ctx0)
    as [Hge _].
  destruct (Hge H1 H2) as (_ & _ & _ & Hset). exact (Hset H3).
Defined.

(** ** Attribute bags *)

Lemma dict_set_fresh {V} (k : pystr) (v : V) (d : list (pystr * V)) :
  k ∉ d.*1 -> dict_set k v d = d ++ [(k, v)].
Proof.
  induction d as [|[k' v'] d IH]; simpl; intros Hk; [reflexivity|].
  apply not_elem_of_cons in Hk as [Hne Hk].
  destruct (decide (k = k')); [done|].
  rewrite IH by exact Hk. reflexivity.
Qed.

Lemma py_dict_fold_nodup {V} (pairs acc : list (pystr * V)) :
  NoDup (acc.*1 ++ pairs.*1) ->
  fold_left (fun d kv => dict_set kv.1 kv.2 d) pairs acc = acc ++ pairs.
Proof.
  revert acc. induction pairs as [|[k v] pairs IH]; intros acc Hnd; simpl.
  - by rewrite app_nil_r.
  - simpl in Hnd. rewrite dict_set_fresh.
    + rewrite IH.
      * by rewrite <- app_assoc.
      * rewrite fmap_app. simpl. rewrite <- app_assoc. exact Hnd.
    + apply NoDup_app in Hnd as (_ & Hd & _). intros Hin.
      apply (Hd k Hin). left.
Qed.

(** A dict built from pairs with distinct keys lists them in order. *)
Lemma py_dict_nodup {V} (pairs : list (pystr * V)) :
  NoDup pairs.*1 -> py_dict pairs = pairs.
Proof. intros Hnd. unfold py_dict. by rewrite py_dict_fold_nodup. Qed.

Lemma NoDup_fst_zip_l {A B} (l : list A) (k : list B) :
  NoDup l -> NoDup (zip l k).*1.
Proof.
  revert k. induction l as [|x l IH]; intros k Hnd; [constructor|].
  destruct k as [|y k]; [constructor|]. simpl.
  apply NoDup_cons in Hnd as [Hx Hl]. constructor; [|by apply IH].
  intros Hin. apply Hx.
  apply list_elem_of_fmap in Hin as ([a b] & -> & Hab).
  apply elem_of_zip_l in Hab. exact Hab.
Qed.


(** What phase 1 and phase 2 of [render_attrs] add to the parts. *)
Lemma attrs_full_split rc is_even items remaining parts c p1 c' :
  render_attrs_full rc is_even items remaining parts c = (Ok p1, c') ->
  exists (k : nat) fulls,
    (k <= length items)%nat /\ p1.2 = drop k items
    /\ p1.1.2 = parts ++ fulls
    /\ Forall2 (full_part rc) (take k items) fulls.
Proof.
  revert remaining parts c.
  induction items as [|[name val] items IH]; intros remaining parts c H;
    simpl in H.
  - apply ret_inv in H as [-> ->]. exists 0%nat, []. simpl.
    rewrite app_nil_r. repeat split; [lia|constructor].
  - match type of H with context [?X <? MIN_CHILD_BUDGET] =>
      destruct (Z.ltb_spec X MIN_CHILD_BUDGET) as [Hlt|Hge] end.
    + apply ret_inv in H as [-> ->]. exists 0%nat, []. simpl.
      rewrite app_nil_r. repeat split; [lia|constructor].
    + apply bind_inv_ok in H as (val_r & c1 & Hval & H).
      apply IH in H as (k & fulls & Hk & Hdrop & Hparts & Hall).
      exists (S k), (((name ++ lit "=") ++ val_r) :: fulls). simpl.
      split; [lia|]. split; [exact Hdrop|]. split.
      * rewrite Hparts, <- app_assoc. reflexivity.
      * constructor; [|exact Hall]. exists val_r. split.
        -- eexists _, c, c1. split; [exact Hge|exact Hval].
        -- simpl. rewrite <- app_assoc. reflexivity.
Qed.

Lemma attrs_stubs_split h items remaining parts :
  exists k : nat,
    (k <= length items)%nat
    /\ (render_attrs_stubs h items remaining parts).2 = drop k items
    /\ (render_attrs_stubs h items remaining parts).1
         = parts ++ List.map (stub_part h) (take k items).
Proof.
  revert remaining parts.
  induction items as [|[name val] items IH]; intros remaining parts; simpl.
  - exists 0%nat. simpl. rewrite app_nil_r. repeat split. lia.
  - match goal with |- context [remaining <? ?X] =>
      destruct (Z.ltb_spec remaining X) as [Hlt|Hge] end.
    + exists 0%nat. simpl. rewrite app_nil_r. repeat split. lia.
    + match goal with |- context [render_attrs_stubs h items ?r ?p] =>
        destruct (IH r p) as (k & Hk & Hdrop & Hparts) end.
      exists (S k). simpl. split; [lia|]. split; [exact Hdrop|].
      rewrite Hparts, <- app_assoc. reflexivity.
Qed.

(** [render(Point(1, 2), 100)] against [render((1, 2), 100)] *)
Example namedtuple_vs_tuple :
  (render heap_point ∅ 2 0%N 100 greedy ctx0).1 = Ok (lit "Point(x=1, y=2)") /\
  (render heap_point ∅ 2 3%N 100 greedy ctx0).1 = Ok (lit "(1, 2)").
Proof. split; vm_compute; reflexivity. Qed.

(** ** C5: dispatch priority *)

Lemma get_renderer_mro_nearest reg pre k post fn :
  (forall k', k' ∈ pre -> reg !! k' = None) ->
  reg !! k = Some fn ->
  get_renderer_mro reg (pre ++ k :: post) = Some fn.
Proof.
  intros Hpre Hk. induction pre as [|k0 pre IH]; simpl.
  - rewrite Hk. reflexivity.
  - rewrite (Hpre k0) by left. apply IH. intros k' Hin. apply Hpre. by right.
Qed.

Lemma get_renderer_mro_none reg mro :
  (forall k, k ∈ mro -> reg !! k = None) ->
  get_renderer_mro reg mro = None.
Proof.
  intros Hall. induction mro as [|k mro IH]; simpl; [reflexivity|].
  rewrite (Hall k) by left. apply IH. intros k' Hin. apply Hall. by right.
Qed.

(** C5. [_render_inner] resolves in this order. (a) A type exposing
    [__budget_repr__]: the hook is run and its text clipped to [budget],
    whatever the registry holds. (b) Otherwise, when some class of the
    MRO is registered, the renderer of the first such class is run and
    its text clipped; a subtype without a registration of its own gets
    its nearest registered ancestor's renderer. (c) Otherwise the
    generic fallback runs. In (a) and (b) a returned text is never
    longer than a non-negative [budget]. *)
Theorem C5_dispatch_priority :
  forall h reg rc obj budget,
    let ty := ob_type (deref h obj) in
    (forall method, ty_budget_repr ty = Some method ->
       _render_inner h reg rc obj budget
         = (s <- run_prog h rc (method obj budget) ;; ret (slice_to s budget)))
    /\ (forall pre k post renderer,
          ty_budget_repr ty = None ->
          ty_mro ty = pre ++ k :: post ->
          (forall k', k' ∈ pre -> reg !! k' = None) ->
          reg !! k = Some renderer ->
          _render_inner h reg rc obj budget
            = (s <- run_prog h rc (renderer obj budget) ;; ret (slice_to s budget)))
    /\ (ty_budget_repr ty = None ->
        (forall k, k ∈ ty_mro ty -> reg !! k = None) ->
        _render_inner h reg rc obj budget = _render_generic h rc obj budget)
    /\ (forall c s c',
          0 <= budget ->
          is_Some (ty_budget_repr ty) \/ is_Some (get_renderer reg ty) ->
          _render_inner h reg rc obj budget c = (Ok s, c') ->
          len s <= budget).
Proof.
  intros h reg rc obj budget ty. split; [|split; [|split]].
  - intros method Hm. unfold _render_inner. fold ty. rewrite Hm. reflexivity.
  - intros pre k post renderer Hm Hmro Hpre Hk. unfold _render_inner. fold ty.
    rewrite Hm. unfold get_renderer. rewrite Hmro.
    rewrite (get_renderer_mro_nearest reg pre k post renderer Hpre Hk). reflexivity.
  - intros Hm Hall. unfold _render_inner. fold ty. rewrite Hm.
    unfold get_renderer. rewrite get_renderer_mro_none by exact Hall. reflexivity.
  - intros c s c' Hb Hfmt. unfold _render_inner. fold ty.
    destruct (ty_budget_repr ty) as [method|].
    + intros H. apply bind_inv_ok in H as (s0 & c1 & _ & [= <- <-]).
      by apply len_slice_to.
    + destruct Hfmt as [[? [=]]|[renderer Hr]]. rewrite Hr.
      intros H. apply bind_inv_ok in H as (s0 & c1 & _ & [= <- <-]).
      by apply len_slice_to.
Qed.

Lemma C5_dispatch_priority_witness :
  ty_budget_repr (ob_type (deref heap_classes 0%N)) = None /\
  ty_mro (ob_type (deref heap_classes 0%N)) = [201%N] ++ 200%N :: [cid_object] /\
  (forall k', k' ∈ [201%N] -> registry_base !! k' = None) /\
  registry_base !! 200%N = Some render_base /\
  _render_inner heap_classes registry_base (fun _ _ => ret []) 0%N 11
    = (s <- run_prog heap_classes (fun _ _ => ret []) (render_base 0%N 11) ;;
       ret (slice_to s 11)).
Proof.
  assert (H1 : ty_budget_repr (ob_type (deref heap_classes 0%N)) = None)
    by reflexivity.
  assert (H2 : ty_mro (ob_type (deref heap_classes 0%N))
               = [201%N] ++ 200%N :: [cid_object]) by reflexivity.
  assert (H3 : forall k', k' ∈ [201%N] -> registry_base !! k' = None).
  { intros k' Hin. apply list_elem_of_singleton in Hin. subst k'. reflexivity. }
  assert (H4 : registry_base !! 200%N = Some render_base) by reflexivity.
  split; [exact H1|]. split; [exact H2|]. split; [exact H3|]. split; [exact H4|].
  destruct (C5_dispatch_priority heap_classes registry_base (fun _ _ => ret [])
              0%N 11) as (_ & Hb & _).
  exact (Hb [201%N] 200%N [cid_object] render_base H1 H2 H3 H4).
Defined.

(** The subclass inherits the renderer, clipped; the hook wins over the
    registered ancestor. *)
Example dispatch_examples :
  (render heap_classes registry_base 1 0%N 11 greedy ctx0).1
    = Ok (lit "custom base") /\
  (render heap_classes registry_base 1 1%N 100 greedy ctx0).1
    = Ok (lit "proto(100)").
Proof. split; vm_compute; reflexivity. Qed.

(** ** C4: the cycle guard and the session follow the call stack *)

Lemma preserves_ret {A} (a : A) : preserves (ret a).
Proof. intros c. reflexivity. Qed.

Lemma preserves_raise {A} (e : exn) : preserves (@raise A e).
Proof. intros c. reflexivity. Qed.

Lemma preserves_bind {A B} (m : M A) (k : A -> M B) :
  preserves m -> (forall a, preserves (k a)) -> preserves (bind m k).
Proof.
  intros Hm Hk c. unfold bind. specialize (Hm c).
  destruct (m c) as [[a|e|] c1]; simpl in *; subst; [apply Hk|reflexivity..].
Qed.

Lemma preserves_policy_get : preserves _policy_get.
Proof. intros c. reflexivity. Qed.

Lemma preserves_of_sum {A} (r : A + exn) : preserves (of_sum r).
Proof. intros c. destruct r; reflexivity. Qed.

Lemma preserves_render_session rc obj budget policy :
  preserves (render_session rc obj budget policy).
Proof. intros c. rewrite render_session_eq. reflexivity. Qed.

Create HintDb pres.
#[local] Hint Resolve preserves_ret preserves_raise preserves_bind
  preserves_policy_get preserves_of_sum preserves_render_session : pres.

Lemma guard_add_discard (s : gset oid) (obj : oid) :
  obj ∉ s -> (s ∪ {[obj]}) ∖ {[obj]} = s.
Proof.
  intros Hnot. apply set_eq. intros x.
  rewrite elem_of_difference, elem_of_union, !elem_of_singleton.
  split.
  - intros [[Hx| ->] Hne]; [exact Hx|done].
  - intros Hx. split; [by left|]. intros ->. done.
Qed.

Section Preservation.

Variable h : gmap oid object.
Variable reg : gmap cid Renderer.
Variable rc : oid -> Z -> M pystr.
Hypothesis rc_preserves : forall obj budget, preserves (rc obj budget).

Lemma preserves_dict_loop n items remaining parts shown :
  preserves (_render_dict_loop rc n items remaining parts shown).
Proof.
  revert remaining parts shown.
  induction items as [|[key value] items IH]; intros; simpl; auto with pres.
  apply preserves_bind; [apply rc_preserves|]. intros key_r.
  destruct (_ <? MIN_CHILD_BUDGET); auto with pres.
Qed.

Lemma preserves_dict obj budget : preserves (_render_dict rc obj budget).
Proof.
  unfold _render_dict, _render_dict_layout. destruct obj; auto with pres.
  destruct (budget <? _); auto with pres.
  destruct (budget <=? _); auto using preserves_dict_loop with pres.
Qed.

Lemma preserves_sequence_head n items remaining head_parts head_idx :
  preserves (_render_sequence_head rc n items remaining head_parts head_idx).
Proof.
  revert remaining head_parts head_idx.
  induction items as [|item items IH]; intros; simpl; auto with pres.
  destruct (_ <? MIN_CHILD_BUDGET); auto with pres.
Qed.

Lemma preserves_sequence is_tuple obj budget :
  preserves (_render_sequence rc is_tuple obj budget).
Proof.
  unfold _render_sequence, _render_sequence_layout. destruct obj; auto with pres.
  destruct (budget <=? _); auto with pres.
  apply preserves_bind; auto with pres.
  apply preserves_bind; [apply preserves_sequence_head|]. intros hd.
  destruct (_ && _); auto with pres.
  destruct (MIN_CHILD_BUDGET <=? _); auto with pres.
  destruct (last _); auto with pres.
Qed.

Lemma preserves_set_loop n items remaining parts shown :
  preserves (_render_set_loop rc n items remaining parts shown).
Proof.
  revert remaining parts shown.
  induction items as [|item items IH]; intros; simpl; auto with pres.
  destruct (_ <? MIN_CHILD_BUDGET); auto with pres.
Qed.

Lemma preserves_set is_frozenset obj budget :
  preserves (_render_set rc is_frozenset obj budget).
Proof.
  unfold _render_set, _render_set_layout.
  destruct obj; [destruct is_frozenset; auto with pres|].
  destruct (budget <=? _); auto using preserves_set_loop with pres.
Qed.

Lemma preserves_attrs_full is_even items remaining parts :
  preserves (render_attrs_full rc is_even items remaining parts).
Proof.
  revert remaining parts.
  induction items as [|[attr_name attr_val] items IH]; intros; simpl;
    auto with pres.
  destruct (_ <? MIN_CHILD_BUDGET); auto with pres.
Qed.

Lemma preserves_render_attrs attrs type_name budget :
  preserves (render_attrs h rc attrs type_name budget).
Proof.
  unfold render_attrs. destruct attrs; auto with pres.
  destruct (budget <=? _); auto with pres.
  apply preserves_bind; auto with pres. intros policy.
  apply preserves_bind; [apply preserves_attrs_full|]. intros p1.
  destruct (budget <? _); auto with pres.
Qed.

Lemma preserves_generic obj budget : preserves (_render_generic h rc obj budget).
Proof.
  unfold _render_generic.
  destruct (ob_payload (deref h obj)) as
    [| | | | | |factory items|mc srt|items|items|items|items|items|items|o];
    auto using preserves_dict, preserves_sequence, preserves_set with pres.
  - unfold _render_defaultdict.
    apply preserves_bind; auto with pres. intros name.
    destruct (budget <=? _); auto with pres.
    destruct (_ <? MIN_BUDGET); auto using preserves_dict with pres.
  - unfold _render_counter. destruct mc; auto with pres.
    destruct (budget <=? _); auto with pres.
    destruct (_ <? MIN_BUDGET); auto using preserves_dict with pres.
  - destruct (ty_fields _); auto using preserves_sequence.
    apply preserves_render_attrs.
  - unfold _render_deque. destruct items; auto with pres.
    destruct (budget <=? _); auto with pres.
    destruct (_ <? MIN_BUDGET); auto using preserves_sequence with pres.
  - unfold _render_object. destruct (fitting_repr _ _); auto with pres.
    apply preserves_bind; auto with pres. intros attrs.
    apply preserves_render_attrs.
Qed.

Lemma preserves_resume run call k :
  preserves call -> (forall o, preserves (run (k o))) ->
  preserves (resume run call k).
Proof.
  intros Hc Hk c. unfold resume. specialize (Hc c).
  destruct (call c) as [[s|e|] c1]; simpl in *; subst;
    [apply Hk|apply Hk|reflexivity].
Qed.

Lemma preserves_run_prog p : preserves (run_prog h rc p).
Proof.
  induction p as [s|e|obj budget k IH|attrs tn budget k IH|obj budget pol k IH];
    simpl; auto with pres; apply preserves_resume; auto with pres.
  apply preserves_render_attrs.
Qed.

Lemma preserves_inner obj budget : preserves (_render_inner h reg rc obj budget).
Proof.
  unfold _render_inner.
  destruct (ty_budget_repr _); [auto using preserves_run_prog with pres|].
  destruct (get_renderer _ _); [auto using preserves_run_prog with pres|].
  apply preserves_generic.
Qed.

Lemma preserves_guarded obj budget :
  preserves (render_child_guarded h reg rc obj budget).
Proof.
  intros [seen p].
  destruct (is_exempt (deref h obj)) eqn:Hex.
  { unfold render_child_guarded. rewrite Hex. apply preserves_inner. }
  destruct seen as [s|].
  - destruct (decide (obj ∈ s)) as [Hin|Hnot].
    + rewrite render_child_guarded_seen by assumption. reflexivity.
    + rewrite render_child_guarded_fresh by assumption. simpl.
      rewrite preserves_inner. simpl. do 2 f_equal.
      apply guard_add_discard, Hnot.
  - unfold render_child_guarded. rewrite Hex. reflexivity.
Qed.

End Preservation.

Lemma preserves_render_child h reg fuel obj budget :
  preserves (render_child h reg fuel obj budget).
Proof.
  revert obj budget. induction fuel as [|fuel IH]; intros obj budget; simpl;
    destruct (budget <? MIN_BUDGET); try apply preserves_ret.
  - intros c. reflexivity.
  - apply preserves_guarded, IH.
Qed.

(** C4. The guard follows the render stack. (1) Every [render_child]
    call leaves the session state exactly as it found it, whether it
    returns or raises. (2) For a non-exempt value not on the stack, the
    inner render runs with its identity added, and the identity is gone
    again when the call exits. (3) A value already on the stack renders
    as the circular marker. (4) Exempt scalars never touch the guard.
    (5) Rendering a sibling first does not change how a value renders.
    (6) [render] restores the caller's state on every path and its
    result does not depend on the state it was called in, so a second
    top-level call is unaffected by the first. (7) The list
    [[shared, shared]] renders both occurrences in full, and a raising
    hook leaves the state of the caller untouched. *)
Theorem C4_guard_follows_stack :
  forall h reg fuel,
    (forall obj budget c, (render_child h reg fuel obj budget c).2 = c)
    /\ (forall obj budget s p,
          MIN_BUDGET <= budget -> is_exempt (deref h obj) = false -> obj ∉ s ->
          render_child h reg (S fuel) obj budget {| _seen := Some s; _policy := p |}
            = ((_render_inner h reg (render_child h reg fuel) obj budget
                  {| _seen := Some (s ∪ {[obj]}); _policy := p |}).1,
               {| _seen := Some s; _policy := p |}))
    /\ (forall obj budget s p,
          MIN_BUDGET <= budget -> is_exempt (deref h obj) = false -> obj ∈ s ->
          render_child h reg (S fuel) obj budget {| _seen := Some s; _policy := p |}
            = (Ok (slice_to CIRCULAR budget), {| _seen := Some s; _policy := p |}))
    /\ (forall obj budget c,
          MIN_BUDGET <= budget -> is_exempt (deref h obj) = true ->
          render_child h reg (S fuel) obj budget c
            = _render_inner h reg (render_child h reg fuel) obj budget c)
    /\ (forall x b1 y b2 c s,
          (render_child h reg fuel x b1 c).1 = Ok s ->
          (render_child h reg fuel x b1 ;;; render_child h reg fuel y b2) c
            = render_child h reg fuel y b2 c)
    /\ (forall o1 b1 p1 o2 b2 p2 c,
          (render h reg fuel o1 b1 p1 c).2 = c
          /\ render h reg fuel o2 b2 p2 (render h reg fuel o1 b1 p1 c).2
               = render h reg fuel o2 b2 p2 c
          /\ (render h reg fuel o2 b2 p2 c).1
               = (render h reg fuel o2 b2 p2 ctx0).1)
    /\ (render heap_dag ∅ 3 0%N 100 greedy ctx0
          = (Ok (lit "[[1, 2, 3], [1, 2, 3]]"), ctx0)
        /\ render_child heap_raises ∅ 3 0%N 100
             {| _seen := Some {[ 9%N ]}; _policy := even |}
          = (Exc (UserError 7), {| _seen := Some {[ 9%N ]}; _policy := even |})
        /\ render heap_raises ∅ 3 0%N 100 even ctx0
          = (Exc (UserError 7), ctx0)).
Proof.
  intros h reg fuel. split; [|split; [|split; [|split; [|split; [|split]]]]].
  - intros obj budget c. apply preserves_render_child.
  - intros obj budget s p Hb Hex Hnot.
    rewrite render_child_S by exact Hb.
    rewrite render_child_guarded_fresh by assumption. f_equal.
    simpl. rewrite preserves_inner by (intros; apply preserves_render_child).
    simpl. do 2 f_equal. apply guard_add_discard, Hnot.
  - intros obj budget s p Hb Hex Hin.
    rewrite render_child_S by exact Hb.
    apply render_child_guarded_seen; assumption.
  - intros obj budget c Hb Hex.
    rewrite render_child_S by exact Hb.
    unfold render_child_guarded. rewrite Hex. reflexivity.
  - intros x b1 y b2 c s Hs.
    pose proof (preserves_render_child h reg fuel x b1 c) as Hc.
    unfold bind. destruct (render_child h reg fuel x b1 c) as [r c1].
    simpl in Hs, Hc. subst. reflexivity.
  - intros o1 b1 p1 o2 b2 p2 c. unfold render.
    rewrite !render_session_eq. simpl. auto.
  - split; [|split]; vm_compute; reflexivity.
Qed.

Lemma C4_guard_follows_stack_witness :
  MIN_BUDGET <= 100 /\ is_exempt (deref heap_dag 1%N) = false /\
  ((1%N : oid) ∉ ({[ 0%N ]} : gset oid)) /\
  render_child heap_dag ∅ 2 1%N 100 {| _seen := Some {[ 0%N ]}; _policy := greedy |}
    = ((_render_inner heap_dag ∅ (render_child heap_dag ∅ 1) 1%N 100
          {| _seen := Some ({[ 0%N ]} ∪ {[ 1%N ]}); _policy := greedy |}).1,
       {| _seen := Some {[ 0%N ]}; _policy := greedy |}).
Proof.
  assert (H1 : MIN_BUDGET <= 100) by (unfold MIN_BUDGET; lia).
  assert (H2 : is_exempt (deref heap_dag 1%N) = false) by reflexivity.
  assert (H3 : (1%N : oid) ∉ ({[ 0%N ]} : gset oid)).
  { intros Hin. apply elem_of_singleton in Hin. discriminate. }
  split; [exact H1|]. split; [exact H2|]. split; [exact H3|].
  destruct (C4_guard_follows_stack heap_dag ∅ 1%nat) as (_ & Hadd & _).
  exact (Hadd 1%N 100 {[ 0%N ]} greedy H1 H2 H3).
Defined.

(** ** C6: the omission count is honest *)

Section Counting.

Variable rc : oid -> Z -> M pystr.

Lemma dict_loop_count n items remaining parts shown c ps c' :
  _render_dict_loop rc n items remaining parts shown c = (Ok ps, c') ->
  shown = len parts ->
  ps.2 = len ps.1 /\ len parts <= len ps.1 <= len parts + len items.
Proof.
  revert remaining parts shown c.
  induction items as [|[key value] items IH]; intros remaining parts shown c H Hs;
    simpl in H.
  - injection H as <- <-. simpl. rewrite len_nil. lia.
  - apply bind_inv_ok in H as (key_r & c1 & _ & H).
    destruct (_ <? MIN_CHILD_BUDGET).
    + injection H as <- <-. simpl. pose proof (len_nonneg items).
      rewrite len_cons. lia.
    + apply bind_inv_ok in H as (val_r & c2 & _ & H).
      apply IH in H; [|rewrite len_app, len_cons, len_nil; lia].
      rewrite len_app, len_cons, len_nil in H. rewrite len_cons. lia.
Qed.

Lemma sequence_head_count n items remaining head_parts head_idx c hd c' :
  _render_sequence_head rc n items remaining head_parts head_idx c = (Ok hd, c') ->
  head_idx = len head_parts ->
  hd.2 = len hd.1.2 /\ len head_parts <= len hd.1.2 <= len head_parts + len items.
Proof.
  revert remaining head_parts head_idx c.
  induction items as [|item items IH]; intros remaining head_parts head_idx c H Hs;
    simpl in H.
  - injection H as <- <-. simpl. rewrite len_nil. lia.
  - destruct (_ <? MIN_CHILD_BUDGET).
    + injection H as <- <-. simpl. pose proof (len_nonneg items).
      rewrite len_cons. lia.
    + apply bind_inv_ok in H as (part & c1 & _ & H).
      apply IH in H; [|rewrite len_app, len_cons, len_nil; lia].
      rewrite len_app, len_cons, len_nil in H. rewrite len_cons. lia.
Qed.

Lemma set_loop_count n items remaining parts shown c ps c' :
  _render_set_loop rc n items remaining parts shown c = (Ok ps, c') ->
  shown = len parts ->
  ps.2 = len ps.1 /\ len parts <= len ps.1 <= len parts + len items.
Proof.
  revert remaining parts shown c.
  induction items as [|item items IH]; intros remaining parts shown c H Hs;
    simpl in H.
  - injection H as <- <-. simpl. rewrite len_nil. lia.
  - destruct (_ <? MIN_CHILD_BUDGET).
    + injection H as <- <-. simpl. pose proof (len_nonneg items).
      rewrite len_cons. lia.
    + apply bind_inv_ok in H as (part & c1 & _ & H).
      apply IH in H; [|rewrite len_app, len_cons, len_nil; lia].
      rewrite len_app, len_cons, len_nil in H. rewrite len_cons. lia.
Qed.




End Counting.



Example omission_example :
  (render heap_range10 ∅ 2 100%N 40 greedy ctx0).1
    = Ok (lit "[0, 1, 2, 3, 4, ...5 more]").
Proof. vm_compute. reflexivity. Qed.

(** ** C1: the budget invariant fails for byte strings *)

(** C1 (fails on the code). [render(b"aaaa", 6)] returns the seven
    characters [b'a...']: [_render_bytes] keeps [budget - 5] bytes next
    to a six-character frame, and the generic fallback is not clipped by
    the dispatcher. *)
Theorem C1_bytes_exceed_budget :
  render heap_bytes ∅ 1 0%N 6 greedy ctx0 = (Ok (lit "b'a...'"), ctx0)
  /\ len (lit "b'a...'") = 7
  /\ generic heap_bytes ∅ 0%N.
Proof. split; [|split; [|split]]; vm_compute; reflexivity. Qed.

(** ** Termination of the generic fallback *)

Lemma reserve_of_nonneg k : 0 <= reserve_of k.
Proof. unfold reserve_of. destruct (1 <? k); [apply len_nonneg|lia]. Qed.

Lemma sep_cost_of_nonneg parts : 0 <= sep_cost_of parts.
Proof. destruct parts; simpl; lia. Qed.

Lemma half_lt a B : a < B -> 0 < B -> a / 2 < B.
Proof. intros Ha HB. apply Z.div_lt_upper_bound; lia. Qed.

Lemma third_lt a B : a < B -> 0 < B -> a / 3 < B.
Proof. intros Ha HB. apply Z.div_lt_upper_bound; lia. Qed.

Section Totality.

Variable h : gmap oid object.
Variable rc : oid -> Z -> M pystr.
Variable B : Z.
Hypothesis rc_answers : answers rc B.
Hypothesis B_pos : 0 < B.

Lemma dict_loop_total n items remaining parts shown c :
  remaining < B -> _seen c <> None ->
  exists ps, _render_dict_loop rc n items remaining parts shown c = (Ok ps, c).
Proof.
  revert remaining parts shown.
  induction items as [|[key value] items IH]; intros remaining parts shown Hr Hc;
    simpl; [eexists; reflexivity|].
  pose proof (reserve_of_nonneg (n - shown)) as Hres.
  pose proof (sep_cost_of_nonneg parts) as Hsep.
  set (available := remaining - sep_cost_of parts - reserve_of (n - shown)).
  assert (Hav : available < B) by (subst available; lia).
  destruct (rc_answers key (Z.min (available / 2) 40) c) as [key_r Hkey];
    [pose proof (half_lt _ _ Hav B_pos); lia | exact Hc |].
  rewrite (bind_ok _ _ _ _ _ Hkey).
  destruct (_ <? MIN_CHILD_BUDGET); [eexists; reflexivity|].
  pose proof (len_nonneg (key_r ++ lit ": ")) as Hpre.
  destruct (rc_answers value (available - len (key_r ++ lit ": ")) c)
    as [val_r Hval]; [lia | exact Hc |].
  rewrite (bind_ok _ _ _ _ _ Hval).
  apply IH; [|exact Hc].
  pose proof (len_nonneg ((key_r ++ lit ": ") ++ val_r)). lia.
Qed.

Lemma dict_total obj budget c :
  budget <= B -> _seen c <> None ->
  exists s, _render_dict rc obj budget c = (Ok s, c).
Proof.
  intros Hb Hc. unfold _render_dict. destruct obj as [|e obj]; [eexists; reflexivity|].
  destruct (budget <? _); [eexists; reflexivity|].
  destruct (budget <=? _); [eexists; reflexivity|].
  unfold _render_dict_layout.
  destruct (dict_loop_total (len (e :: obj)) (e :: obj) (budget - 2) [] 0 c)
    as [ps Hps]; [lia | exact Hc |].
  unfold bind at 1. unfold bind at 1. rewrite Hps. eexists; reflexivity.
Qed.

Lemma sequence_head_total n items remaining head_parts head_idx c :
  remaining < B -> _seen c <> None ->
  exists hd,
    _render_sequence_head rc n items remaining head_parts head_idx c = (Ok hd, c)
    /\ hd.1.1 <= remaining.
Proof.
  revert remaining head_parts head_idx.
  induction items as [|item items IH]; intros remaining head_parts head_idx Hr Hc;
    simpl; [eexists; split; [reflexivity|simpl; lia]|].
  pose proof (reserve_of_nonneg (n - head_idx - 0)) as Hres.
  pose proof (sep_cost_of_nonneg head_parts) as Hsep.
  destruct (_ <? MIN_CHILD_BUDGET); [eexists; split; [reflexivity|simpl; lia]|].
  destruct (rc_answers item
              (remaining - sep_cost_of head_parts - reserve_of (n - head_idx - 0)) c)
    as [part Hpart]; [lia | exact Hc |].
  rewrite (bind_ok _ _ _ _ _ Hpart).
  pose proof (len_nonneg part).
  destruct (IH (remaining - (len part + sep_cost_of head_parts))
              (head_parts ++ [part]) (head_idx + 1)) as (hd & Hhd & Hle);
    [lia | exact Hc |].
  exists hd. split; [exact Hhd|lia].
Qed.

Lemma last_is_Some {A} (l : list A) : l <> [] -> is_Some (last l).
Proof.
  intros Hne. destruct l as [|x l] using rev_ind; [done|].
  rewrite last_snoc. eauto.
Qed.

Lemma sequence_total is_tuple obj budget c :
  budget <= B -> _seen c <> None ->
  exists s, _render_sequence rc is_tuple obj budget c = (Ok s, c).
Proof.
  intros Hb Hc. unfold _render_sequence.
  destruct obj as [|e obj]; [eexists; reflexivity|].
  destruct (budget <=? _); [eexists; reflexivity|].
  unfold _render_sequence_layout.
  destruct (sequence_head_total (len (e :: obj)) (e :: obj) (budget - 2) [] 0 c)
    as (hd & Hhd & Hle); [lia | exact Hc |].
  unfold bind at 1. unfold bind at 1. rewrite Hhd.
  destruct (_ && _); [|eexists; reflexivity].
  destruct (Z.leb_spec MIN_CHILD_BUDGET
              (Z.min (hd.1.1 - len (lit ", " ++ more (len (e :: obj) - hd.2 - 1)
                                      ++ lit ", "))
                     (hd.1.1 / 3))) as [Hge|Hlt];
    [|eexists; reflexivity].
  destruct (last_is_Some (e :: obj)) as [item Hlast]; [done|]. rewrite Hlast.
  destruct (rc_answers item
              (Z.min (hd.1.1 - len (lit ", " ++ more (len (e :: obj) - hd.2 - 1)
                                      ++ lit ", "))
                     (hd.1.1 / 3)) c) as [tail_r Htail];
    [|exact Hc|].
  { assert (hd.1.1 < B) by lia. pose proof (third_lt _ _ H B_pos). lia. }
  rewrite (bind_ok _ _ _ _ _ Htail). eexists; reflexivity.
Qed.

Lemma set_loop_total n items remaining parts shown c :
  remaining < B -> _seen c <> None ->
  exists ps, _render_set_loop rc n items remaining parts shown c = (Ok ps, c).
Proof.
  revert remaining parts shown.
  induction items as [|item items IH]; intros remaining parts shown Hr Hc;
    simpl; [eexists; reflexivity|].
  pose proof (reserve_of_nonneg (n - shown)) as Hres.
  pose proof (sep_cost_of_nonneg parts) as Hsep.
  destruct (_ <? MIN_CHILD_BUDGET); [eexists; reflexivity|].
  destruct (rc_answers item
              (remaining - sep_cost_of parts - reserve_of (n - shown)) c)
    as [part Hpart]; [lia | exact Hc |].
  rewrite (bind_ok _ _ _ _ _ Hpart).
  pose proof (len_nonneg part).
  apply IH; [lia | exact Hc].
Qed.

Lemma set_total is_frozenset obj budget c :
  budget <= B -> _seen c <> None ->
  exists s, _render_set rc is_frozenset obj budget c = (Ok s, c).
Proof.
  intros Hb Hc. unfold _render_set.
  destruct obj as [|e obj]; [destruct is_frozenset; eexists; reflexivity|].
  destruct (budget <=? _); [eexists; reflexivity|].
  unfold _render_set_layout.
  match goal with |- context [_render_set_loop rc ?n ?it ?r ?p ?s] =>
    destruct (set_loop_total n it r p s c) as [ps Hps];
      [destruct is_frozenset; len_norm; lia | exact Hc |]
  end.
  unfold bind at 1. unfold bind at 1. rewrite Hps. eexists; reflexivity.
Qed.

Lemma attrs_full_total is_even items remaining parts c :
  remaining < B -> _seen c <> None ->
  exists p1, render_attrs_full rc is_even items remaining parts c = (Ok p1, c).
Proof.
  revert remaining parts.
  induction items as [|[attr_name attr_val] items IH]; intros remaining parts Hr Hc;
    simpl; [eexists; reflexivity|].
  pose proof (reserve_of_nonneg (len ((attr_name, attr_val) :: items))) as Hres.
  pose proof (sep_cost_of_nonneg parts) as Hsep.
  destruct (_ <? MIN_CHILD_BUDGET); [eexists; reflexivity|].
  pose proof (len_nonneg (attr_name ++ lit "=")) as Hpre.
  match goal with |- context [rc attr_val ?b] =>
    destruct (rc_answers attr_val b c) as [val_r Hval];
      [destruct (_ && _); lia | exact Hc |]
  end.
  rewrite (bind_ok _ _ _ _ _ Hval).
  pose proof (len_nonneg ((attr_name ++ lit "=") ++ val_r)).
  apply IH; [lia | exact Hc].
Qed.

Lemma render_attrs_total attrs type_name budget c :
  budget <= B -> _seen c <> None ->
  exists s, render_attrs h rc attrs type_name budget c = (Ok s, c).
Proof.
  intros Hb Hc. unfold render_attrs.
  destruct attrs as [|a attrs]; [eexists; reflexivity|].
  destruct (budget <=? _); [eexists; reflexivity|].
  rewrite (bind_ok _policy_get _ c (_policy c) c) by reflexivity.
  pose proof (len_nonneg type_name).
  match goal with |- context [render_attrs_full rc ?e ?it ?r ?p] =>
    destruct (attrs_full_total e it r p c) as [p1 Hp1]; [lia | exact Hc |]
  end.
  rewrite (bind_ok _ _ _ _ _ Hp1).
  destruct (budget <? _); eexists; reflexivity.
Qed.

Lemma generic_total obj budget c :
  budget <= B -> _seen c <> None ->
  readable_b (deref h obj) = true ->
  exists s, _render_generic h rc obj budget c = (Ok s, c).
Proof.
  intros Hb Hc Hrd. unfold _render_generic. unfold readable_b in Hrd.
  destruct (ob_payload (deref h obj)) as
    [| | | | | |factory items|mc srt|items|items|items|items|items|items|o];
    try (eexists; reflexivity);
    auto using dict_total, sequence_total, set_total.
  - unfold _render_defaultdict.
    destruct (factory_name factory) as [name|e]; [|discriminate].
    cbn [of_sum]. rewrite bind_ret_l.
    destruct (budget <=? _); [eexists; reflexivity|].
    destruct (_ <? MIN_BUDGET); [eexists; reflexivity|].
    match goal with |- context [_render_dict rc ?it ?b] =>
      destruct (dict_total it b c) as [s Hs]; [|exact Hc|]
    end.
    { pose proof (len_nonneg (lit "defaultdict(" ++ name ++ lit ", ")).
      pose proof (len_nonneg (lit ")")). lia. }
    rewrite (bind_ok _ _ _ _ _ Hs). eexists; reflexivity.
  - destruct srt as [e0|]; [discriminate|].
    unfold _render_counter. destruct mc as [|e mc]; [eexists; reflexivity|].
    destruct (budget <=? _); [eexists; reflexivity|].
    destruct (_ <? MIN_BUDGET); [eexists; reflexivity|].
    cbn [most_common of_sum]. rewrite bind_ret_l.
    match goal with |- context [_render_dict rc ?it ?b] =>
      destruct (dict_total it b c) as [s Hs]; [len_norm; lia|exact Hc|]
    end.
    rewrite (bind_ok _ _ _ _ _ Hs). eexists; reflexivity.
  - destruct (ty_fields _); [|auto using sequence_total].
    apply render_attrs_total; assumption.
  - unfold _render_deque. destruct items as [|e items]; [eexists; reflexivity|].
    destruct (budget <=? _); [eexists; reflexivity|].
    destruct (_ <? MIN_BUDGET); [eexists; reflexivity|].
    match goal with |- context [_render_sequence rc ?t ?it ?b] =>
      destruct (sequence_total t it b c) as [s Hs]; [len_norm; lia|exact Hc|]
    end.
    rewrite (bind_ok _ _ _ _ _ Hs). eexists; reflexivity.
  - unfold _render_object. destruct (fitting_repr _ _); [eexists; reflexivity|].
    destruct (discover_attrs o) as [attrs|e]; [|discriminate].
    cbn [of_sum]. rewrite bind_ret_l.
    apply render_attrs_total; assumption.
Qed.

End Totality.

(** With every value dispatching to the generic fallback and nothing
    raising where it is read, a call with budget [b] needs no more
    nesting than [b]. *)
Lemma render_child_total h reg :
  (forall obj, generic h reg obj) ->
  readable h ->
  forall fuel obj budget c,
    budget <= Z.of_nat fuel -> _seen c <> None ->
    exists s, render_child h reg fuel obj budget c = (Ok s, c).
Proof.
  intros Hgen Hrd fuel. induction fuel as [|fuel IH]; intros obj budget c Hb Hc.
  - rewrite render_child_floor by (unfold MIN_BUDGET; lia). eexists; reflexivity.
  - destruct (Z.lt_ge_cases budget MIN_BUDGET) as [Hlt|Hge].
    { rewrite render_child_floor by exact Hlt. eexists; reflexivity. }
    rewrite render_child_S by lia.
    assert (Hans : answers (render_child h reg fuel) budget).
    { intros o b c0 Hlt Hc0. apply IH; [lia|exact Hc0]. }
    assert (Hpos : 0 < budget) by (unfold MIN_BUDGET in Hge; lia).
    destruct (is_exempt (deref h obj)) eqn:Hex.
    + unfold render_child_guarded. rewrite Hex. simpl.
      rewrite _render_inner_generic by apply Hgen.
      apply (generic_total h _ budget Hans Hpos); [lia|exact Hc|apply Hrd].
    + destruct c as [[s0|] p]; [|done].
      destruct (decide (obj ∈ s0)) as [Hin|Hnot].
      * rewrite render_child_guarded_seen by assumption. eexists; reflexivity.
      * rewrite render_child_guarded_fresh by assumption.
        rewrite _render_inner_generic by apply Hgen.
        destruct (generic_total h _ budget Hans Hpos obj budget
                    {| _seen := Some (s0 ∪ {[obj]}); _policy := p |})
          as [s Hs]; [lia|done|apply Hrd|].
        rewrite Hs. simpl. rewrite guard_add_discard by exact Hnot.
        eexists; reflexivity.
Qed.


(** ** The budget invariant, where the code keeps it *)

Lemma join_snoc sep parts p :
  join sep (parts ++ [p])
    = match parts with [] => p | _ => join sep parts ++ sep ++ p end.
Proof.
  induction parts as [|q parts IH]; [reflexivity|].
  destruct parts as [|q' parts]; [reflexivity|].
  change (join sep ((q :: q' :: parts) ++ [p]))
    with (q ++ sep ++ join sep ((q' :: parts) ++ [p])).
  rewrite IH.
  change (join sep (q :: q' :: parts)) with (q ++ sep ++ join sep (q' :: parts)).
  rewrite <- !app_assoc. reflexivity.
Qed.

Lemma len_join_snoc parts p :
  len (join (lit ", ") (parts ++ [p]))
    = len (join (lit ", ") parts) + sep_cost_of parts + len p.
Proof.
  rewrite join_snoc. destruct parts as [|q parts].
  - change (join (lit ", ") []) with (@nil N). rewrite (@len_nil N).
    simpl sep_cost_of. lia.
  - rewrite !len_app. change (len (lit ", ")) with 2. simpl sep_cost_of. lia.
Qed.

Lemma sep_cost_of_snoc parts p : sep_cost_of (parts ++ [p]) = 2.
Proof. destruct parts; reflexivity. Qed.

Lemma closing_snoc parts p k : closing (parts ++ [p]) (k - 1) = reserve_of k.
Proof.
  unfold closing, reserve_of. rewrite sep_cost_of_snoc.
  destruct (Z.ltb_spec 0 (k - 1)), (Z.ltb_spec 1 k); try lia.
  rewrite len_app. reflexivity.
Qed.

Lemma len_all_parts_no_tail parts k :
  len (join (lit ", ")
         (all_parts {| head_parts := parts; omitted := k; tail_parts := [] |}))
    = len (join (lit ", ") parts) + closing parts k.
Proof.
  unfold all_parts, closing. simpl. destruct (0 <? k).
  - change ([more k] ++ []) with [more k]. rewrite len_join_snoc. lia.
  - change (@nil pystr ++ []) with (@nil pystr). rewrite app_nil_r. lia.
Qed.

Lemma len_more k : len (more k) = 8 + len (str_of_Z k).
Proof. unfold more. len_norm. lia. Qed.

Lemma _render_primitive_within p budget :
  1 <= budget -> len (_render_primitive p budget) <= budget.
Proof.
  intros Hb. unfold _render_primitive.
  destruct (Z.leb_spec (len (repr_primitive p)) budget); [assumption|].
  rewrite len_app. pose proof (len_slice_to (repr_primitive p) (budget - 1)).
  change (len ELLIPSIS) with 1. lia.
Qed.

Lemma _render_str_within obj budget :
  0 <= budget -> len (_render_str obj budget) <= budget.
Proof.
  intros Hb. unfold _render_str.
  destruct (Z.leb_spec (len (repr_str obj)) budget); [assumption|].
  destruct (Z.ltb_spec budget 6); [by apply len_slice_to|].
  rewrite !len_app. pose proof (len_slice_to obj (budget - 5)).
  assert (len (take 1 (repr_str obj)) <= 1)
    by (unfold len; rewrite length_take; lia).
  len_norm. lia.
Qed.

Section Within.

Variable h : gmap oid object.
Variable rc : oid -> Z -> M pystr.
Hypothesis rc_within : within rc.

Lemma dict_loop_within n items remaining parts shown c ps c' :
  _render_dict_loop rc n items remaining parts shown c = (Ok ps, c') ->
  closing parts (n - shown) <= remaining ->
  len (join (lit ", ") ps.1) + closing ps.1 (n - ps.2)
    <= len (join (lit ", ") parts) + remaining.
Proof.
  revert remaining parts shown c.
  induction items as [|[key value] items IH]; intros remaining parts shown c H Hinv;
    simpl in H.
  - apply ret_inv in H as [-> ->]. simpl. lia.
  - apply bind_inv_ok in H as (key_r & c1 & _ & H).
    set (available := remaining - sep_cost_of parts - reserve_of (n - shown)) in *.
    destruct (Z.ltb_spec (available - len (key_r ++ lit ": ")) MIN_CHILD_BUDGET)
      as [Hlt|Hge].
    + apply ret_inv in H as [-> ->]. simpl. lia.
    + apply bind_inv_ok in H as (val_r & c2 & Hval & H).
      apply rc_within in Hval; [|unfold MIN_CHILD_BUDGET in Hge; lia].
      apply IH in H.
      * rewrite len_join_snoc in H. rewrite len_app in *. subst available. lia.
      * replace (n - (shown + 1)) with (n - shown - 1) by lia.
        rewrite closing_snoc. rewrite len_app. subst available. lia.
Qed.

Lemma dict_within obj budget c s c' :
  2 <= budget ->
  _render_dict rc obj budget c = (Ok s, c') -> len s <= budget.
Proof.
  intros Hb H. unfold _render_dict in H.
  destruct obj as [|e obj]; [apply ret_inv in H as [-> ->]; vm_compute (len _); lia|].
  match type of H with context [budget <? ?X] =>
    destruct (Z.ltb_spec budget X) as [Hlt|Hge] end.
  { apply ret_inv in H as [-> ->]. destruct (2 <=? budget); apply len_slice_to; lia. }
  match type of H with context [budget <=? ?X] =>
    destruct (Z.leb_spec budget X) as [Hle|Hgt] end.
  { apply ret_inv in H as [-> ->]. lia. }
  apply bind_inv_ok in H as (l & c1 & Hl & Hret); apply ret_inv in Hret as [-> ->].
  unfold _render_dict_layout in Hl.
  apply bind_inv_ok in Hl as (ps & c2 & Hloop & Hret); apply ret_inv in Hret as [-> ->].
  apply dict_loop_within in Hloop.
  - rewrite !len_app, len_all_parts_no_tail. simpl join in Hloop.
    len_norm. lia.
  - unfold closing. simpl sep_cost_of. rewrite len_more, Z.sub_0_r.
    destruct (0 <? _); len_norm; lia.
Qed.

Lemma sequence_head_within n items remaining head_parts head_idx c hd c' :
  _render_sequence_head rc n items remaining head_parts head_idx c = (Ok hd, c') ->
  closing head_parts (n - head_idx) <= remaining ->
  len (join (lit ", ") hd.1.2) + hd.1.1
    = len (join (lit ", ") head_parts) + remaining
  /\ closing hd.1.2 (n - hd.2) <= hd.1.1.
Proof.
  revert remaining head_parts head_idx c.
  induction items as [|item items IH];
    intros remaining head_parts head_idx c H Hinv; simpl in H.
  - apply ret_inv in H as [-> ->]. simpl. lia.
  - set (available := remaining - sep_cost_of head_parts
                        - reserve_of (n - head_idx - 0)) in *.
    destruct (Z.ltb_spec available MIN_CHILD_BUDGET) as [Hlt|Hge].
    + apply ret_inv in H as [-> ->]. simpl. lia.
    + apply bind_inv_ok in H as (part & c1 & Hpart & H).
      apply rc_within in Hpart; [|unfold MIN_CHILD_BUDGET in Hge; lia].
      apply IH in H.
      * rewrite len_join_snoc in H. lia.
      * replace (n - (head_idx + 1)) with (n - head_idx - 1) by lia.
        rewrite closing_snoc. subst available.
        replace (n - head_idx - 0) with (n - head_idx) in * by lia. lia.
Qed.

Lemma sequence_within is_tuple obj budget c s c' :
  2 <= budget ->
  _render_sequence rc is_tuple obj budget c = (Ok s, c') -> len s <= budget.
Proof.
  intros Hb H. unfold _render_sequence in H.
  destruct obj as [|e obj].
  { apply ret_inv in H as [-> ->]. destruct is_tuple; vm_compute (len _); lia. }
  match type of H with context [budget <=? ?X] =>
    destruct (Z.leb_spec budget X) as [Hle|Hgt] end.
  { apply ret_inv in H as [-> ->]. apply len_slice_to. lia. }
  apply bind_inv_ok in H as (l & c1 & Hl & Hret); apply ret_inv in Hret as [-> ->].
  unfold _render_sequence_layout in Hl.
  apply bind_inv_ok in Hl as (hd & c2 & Hloop & Hl).
  apply sequence_head_within in Hloop.
  2:{ unfold closing. simpl sep_cost_of. rewrite len_more, Z.sub_0_r.
      destruct (0 <? _); [|lia]. destruct is_tuple; len_norm; lia. }
  destruct Hloop as [Hsum Hclose]. simpl join in Hsum. rewrite len_nil in Hsum.
  assert (Hplain :
    len ((if is_tuple then lit "(" else lit "[")
           ++ join (lit ", ")
                (all_parts {| head_parts := hd.1.2;
                              omitted := len (e :: obj) - hd.2;
                              tail_parts := [] |})
           ++ (if is_tuple then lit ")" else lit "]")) <= budget).
  { rewrite !len_app, len_all_parts_no_tail. destruct is_tuple; len_norm; lia. }
  destruct (Z.ltb_spec 1 (len (e :: obj) - hd.2)) as [Hom|Hom]; cbn [andb] in Hl.
  - destruct (MIN_CHILD_BUDGET + 15 <? hd.1.1).
    + match type of Hl with context [MIN_CHILD_BUDGET <=? ?X] =>
        destruct (Z.leb_spec MIN_CHILD_BUDGET X) as [Hge|Hlt] end.
      * destruct (last (e :: obj)) as [item|]; [|discriminate].
        apply bind_inv_ok in Hl as (tail_r & c3 & Htail & Hret); apply ret_inv in Hret as [-> ->].
        apply rc_within in Htail; [|unfold MIN_CHILD_BUDGET in Hge; lia].
        unfold all_parts. simpl head_parts. simpl omitted. simpl tail_parts.
        destruct (Z.ltb_spec 0 (len (e :: obj) - hd.2 - 1)); [|lia].
        rewrite !len_app.
        replace (hd.1.2 ++ [more (len (e :: obj) - hd.2 - 1)] ++ [tail_r])
          with ((hd.1.2 ++ [more (len (e :: obj) - hd.2 - 1)]) ++ [tail_r])
          by (rewrite <- app_assoc; reflexivity).
        rewrite !len_join_snoc, sep_cost_of_snoc.
        pose proof (sep_cost_of_nonneg hd.1.2).
        assert (sep_cost_of hd.1.2 <= 2) by (destruct hd.1.2; simpl; lia).
        rewrite !len_app in Htail. clear Hplain Hgt Hge.
        destruct is_tuple; len_norm; lia.
      * apply ret_inv in Hl as [-> ->]. exact Hplain.
    + apply ret_inv in Hl as [-> ->]. exact Hplain.
  - apply ret_inv in Hl as [-> ->]. exact Hplain.
Qed.

Lemma set_loop_within n items remaining parts shown c ps c' :
  _render_set_loop rc n items remaining parts shown c = (Ok ps, c') ->
  closing parts (n - shown) <= remaining ->
  len (join (lit ", ") ps.1) + closing ps.1 (n - ps.2)
    <= len (join (lit ", ") parts) + remaining.
Proof.
  revert remaining parts shown c.
  induction items as [|item items IH]; intros remaining parts shown c H Hinv;
    simpl in H.
  - apply ret_inv in H as [-> ->]. simpl. lia.
  - set (available := remaining - sep_cost_of parts - reserve_of (n - shown)) in *.
    destruct (Z.ltb_spec available MIN_CHILD_BUDGET) as [Hlt|Hge].
    + apply ret_inv in H as [-> ->]. simpl. lia.
    + apply bind_inv_ok in H as (part & c1 & Hpart & H).
      apply rc_within in Hpart; [|unfold MIN_CHILD_BUDGET in Hge; lia].
      apply IH in H.
      * rewrite len_join_snoc in H. lia.
      * replace (n - (shown + 1)) with (n - shown - 1) by lia.
        rewrite closing_snoc. subst available. lia.
Qed.

Lemma set_within is_frozenset obj budget c s c' :
  0 <= budget ->
  _render_set rc is_frozenset obj budget c = (Ok s, c') -> len s <= budget.
Proof.
  intros Hb H. unfold _render_set in H.
  destruct obj as [|e obj].
  { destruct is_frozenset; apply ret_inv in H as [-> ->]; by apply len_slice_to. }
  match type of H with context [budget <=? ?X] =>
    destruct (Z.leb_spec budget X) as [Hle|Hgt] end.
  { apply ret_inv in H as [-> ->]. by apply len_slice_to. }
  apply bind_inv_ok in H as (l & c1 & Hl & Hret); apply ret_inv in Hret as [-> ->].
  unfold _render_set_layout in Hl.
  apply bind_inv_ok in Hl as (ps & c2 & Hloop & Hret); apply ret_inv in Hret as [-> ->].
  apply set_loop_within in Hloop.
  - rewrite !len_app, len_all_parts_no_tail. simpl join in Hloop.
    clear Hgt. destruct is_frozenset; len_norm; lia.
  - unfold closing. simpl sep_cost_of. rewrite len_more, Z.sub_0_r.
    pose proof (len_nonneg (str_of_Z (len (e :: obj)))).
    destruct (0 <? _); destruct is_frozenset; len_norm; lia.
Qed.

Lemma render_attrs_within attrs type_name budget c s c' :
  0 <= budget ->
  render_attrs h rc attrs type_name budget c = (Ok s, c') -> len s <= budget.
Proof.
  intros Hb H. unfold render_attrs in H.
  destruct attrs as [|a attrs]; [apply ret_inv in H as [-> ->]; by apply len_slice_to|].
  destruct (budget <=? _); [apply ret_inv in H as [-> ->]; by apply len_slice_to|].
  apply bind_inv_ok in H as (pol & c1 & _ & H).
  apply bind_inv_ok in H as (p1 & c2 & _ & H).
  match type of H with context [budget <? ?X] =>
    destruct (Z.ltb_spec budget X) as [Hlt|Hge] end;
    apply ret_inv in H as [-> ->]; [by apply len_slice_to|exact Hge].
Qed.

Lemma generic_within obj budget c s c' :
  bytes_free h ->
  MIN_BUDGET <= budget ->
  _render_generic h rc obj budget c = (Ok s, c') -> len s <= budget.
Proof.
  intros Hbf Hb H. unfold MIN_BUDGET in Hb. unfold _render_generic in H.
  destruct (ob_payload (deref h obj)) as
    [| | | | |b|factory items|mc srt|items|items|items|items|items|items|o] eqn:Hp.
  1-4: apply ret_inv in H as [-> ->]; apply _render_primitive_within; lia.
  - apply ret_inv in H as [-> ->]. apply _render_str_within. lia.
  - exfalso. exact (Hbf obj b Hp).
  - unfold _render_defaultdict in H.
    apply of_sum_bind_inv in H as (name & _ & H).
    destruct (budget <=? _); [apply ret_inv in H as [-> ->]; apply len_slice_to; lia|].
    match type of H with context [?X <? MIN_BUDGET] =>
      destruct (Z.ltb_spec X MIN_BUDGET) as [Hlt|Hge] end;
      [apply ret_inv in H as [-> ->]; apply len_slice_to; lia|].
    apply bind_inv_ok in H as (inner & c1 & Hinner & Hret); apply ret_inv in Hret as [-> ->].
    apply dict_within in Hinner; [|unfold MIN_BUDGET in Hge; lia].
    rewrite !len_app in *. lia.
  - unfold _render_counter in H.
    destruct mc as [|e mc]; [apply ret_inv in H as [-> ->]; apply len_slice_to; lia|].
    destruct (budget <=? _); [apply ret_inv in H as [-> ->]; apply len_slice_to; lia|].
    match type of H with context [?X <? MIN_BUDGET] =>
      destruct (Z.ltb_spec X MIN_BUDGET) as [Hlt|Hge] end;
      [apply ret_inv in H as [-> ->]; apply len_slice_to; lia|].
    apply of_sum_bind_inv in H as (pairs & _ & H).
    apply bind_inv_ok in H as (inner & c1 & Hinner & Hret); apply ret_inv in Hret as [-> ->].
    apply dict_within in Hinner; [|unfold MIN_BUDGET in Hge; lia].
    rewrite !len_app in *. lia.
  - eapply dict_within; [|exact H]. lia.
  - destruct (ty_fields _).
    + eapply render_attrs_within; [|exact H]. lia.
    + eapply sequence_within; [|exact H]. lia.
  - eapply sequence_within; [|exact H]. lia.
  - eapply set_within; [|exact H]. lia.
  - eapply set_within; [|exact H]. lia.
  - unfold _render_deque in H.
    destruct items as [|e items]; [apply ret_inv in H as [-> ->]; apply len_slice_to; lia|].
    destruct (budget <=? _); [apply ret_inv in H as [-> ->]; apply len_slice_to; lia|].
    match type of H with context [?X <? MIN_BUDGET] =>
      destruct (Z.ltb_spec X MIN_BUDGET) as [Hlt|Hge] end;
      [apply ret_inv in H as [-> ->]; apply len_slice_to; lia|].
    apply bind_inv_ok in H as (inner & c1 & Hinner & Hret); apply ret_inv in Hret as [-> ->].
    apply sequence_within in Hinner; [|unfold MIN_BUDGET in Hge; lia].
    rewrite !len_app in *. lia.
  - unfold _render_object in H. destruct (fitting_repr o budget) as [r|] eqn:Hr.
    + apply ret_inv in H as [-> ->]. unfold fitting_repr in Hr.
      destruct (negb _); [|discriminate]. destruct (o_repr o); [|discriminate].
      destruct (negb _); [|discriminate].
      match type of Hr with context [?a <=? ?b] =>
        destruct (Z.leb_spec a b) end; [|discriminate].
      injection Hr as <-. assumption.
    + apply of_sum_bind_inv in H as (attrs & _ & H).
      eapply render_attrs_within; [|exact H]. lia.
Qed.

Lemma inner_within reg obj budget c s c' :
  bytes_free h ->
  MIN_BUDGET <= budget ->
  _render_inner h reg rc obj budget c = (Ok s, c') -> len s <= budget.
Proof.
  intros Hbf Hb H. unfold _render_inner in H.
  destruct (ty_budget_repr _).
  { apply bind_inv_ok in H as (s0 & c1 & _ & Hret); apply ret_inv in Hret as [-> ->].
    apply len_slice_to. unfold MIN_BUDGET in Hb. lia. }
  destruct (get_renderer _ _).
  { apply bind_inv_ok in H as (s0 & c1 & _ & Hret); apply ret_inv in Hret as [-> ->].
    apply len_slice_to. unfold MIN_BUDGET in Hb. lia. }
  eapply generic_within; eassumption.
Qed.

Lemma guarded_within reg obj budget c s c' :
  bytes_free h ->
  MIN_BUDGET <= budget ->
  render_child_guarded h reg rc obj budget c = (Ok s, c') -> len s <= budget.
Proof.
  intros Hbf Hb H. unfold render_child_guarded in H.
  destruct (negb _); [|eapply inner_within; eassumption].
  apply bind_inv_ok in H as (seen & c1 & _ & H).
  destruct (bool_decide _).
  { apply ret_inv in H as [-> ->]. apply len_slice_to. unfold MIN_BUDGET in Hb. lia. }
  apply bind_inv_ok in H as (u & c2 & _ & H).
  unfold try_finally in H.
  destruct (_render_inner h reg rc obj budget c2) as [r c3] eqn:Hin.
  simpl in H. injection H as -> <-.
  eapply inner_within; eassumption.
Qed.

End Within.

(** Without byte strings in the store, every [render_child] call keeps
    its budget, whatever hooks and registered renderers return. *)
Lemma render_child_within h reg fuel :
  bytes_free h -> within (render_child h reg fuel).
Proof.
  intros Hbf. induction fuel as [|fuel IH]; intros obj b c s c' Hb H.
  - simpl in H. destruct (b <? MIN_BUDGET); [|discriminate].
    apply ret_inv in H as [-> ->]. by apply len_slice_to.
  - destruct (Z.lt_ge_cases b MIN_BUDGET) as [Hlt|Hge].
    + rewrite render_child_floor in H by exact Hlt.
      apply ret_inv in H as [-> ->]. by apply len_slice_to.
    + rewrite render_child_S in H by lia.
      eapply guarded_within; eassumption.
Qed.

(** The same at the top level: without byte strings [render] keeps its
    budget. *)
Lemma render_within h reg fuel obj budget policy c s c' :
  bytes_free h -> 0 <= budget ->
  render h reg fuel obj budget policy c = (Ok s, c') -> len s <= budget.
Proof.
  intros Hbf Hb H. unfold render in H. rewrite render_session_eq in H.
  destruct (render_child h reg fuel obj budget _) as [r c1] eqn:Hr.
  simpl in H. injection H as -> _.
  eapply render_child_within; eassumption.
Qed.

(** ** C2: cycles *)

(** The slip of [_render_bytes] reaches cyclic stores too: 41 characters
    for a budget of 40. *)
Example cycle_with_bytes :
  (render heap_cycle_bytes ∅ 100 0%N 40 greedy ctx0).1
    = Ok (lit "[<...>, b'aaaaaaaaaaaaaaaaaaaaaaaaaa...']")
  /\ len (lit "[<...>, b'aaaaaaaaaaaaaaaaaaaaaaaaaa...']") = 41.
Proof. split; vm_compute; reflexivity. Qed.

Example cycle_examples :
  (render heap_cycles ∅ 100 0%N 100 greedy ctx0).1 = Ok (lit "[1, 2, <...>]") /\
  (render heap_cycles ∅ 100 3%N 100 greedy ctx0).1 = Ok (lit "{'self': <...>}") /\
  (render heap_cycles ∅ 100 5%N 100 greedy ctx0).1 = Ok (lit "Node(child=<...>)") /\
  (render heap_cycles ∅ 100 6%N 100 greedy ctx0).1 = Ok (lit "[[<...>]]").
Proof. repeat split; vm_compute; reflexivity. Qed.

(** *** Output is bounded on a finite store *)

Lemma length_digits_from fuel n acc :
  (length (digits_from fuel n acc) <= fuel + length acc)%nat.
Proof.
  revert n acc. induction fuel as [|fuel IH]; intros n acc; simpl; [lia|].
  destruct (n / 10 =? 0)%N; simpl; [lia|].
  specialize (IH (n / 10)%N ((48 + n `mod` 10)%N :: acc)). simpl in IH. lia.
Qed.

Lemma len_str_of_Z k : 0 <= k -> len (str_of_Z k) <= k + 1.
Proof.
  intros Hk. unfold str_of_Z. destruct (Z.ltb_spec k 0); [lia|].
  unfold str_of_N, len.
  pose proof (length_digits_from (S (N.to_nat (N.log2 (Z.to_N k)))) (Z.to_N k) []).
  pose proof (N.log2_le_lin (Z.to_N k)). simpl in *. lia.
Qed.

Lemma closing_le parts k n : 0 <= n -> k <= n -> closing parts k <= n + 11.
Proof.
  intros Hn Hk. unfold closing. destruct (Z.ltb_spec 0 k); [|lia].
  rewrite len_more. pose proof (len_str_of_Z k).
  assert (sep_cost_of parts <= 2) by (destruct parts; simpl; lia). lia.
Qed.

Lemma closing_nonneg parts k : 0 <= closing parts k.
Proof.
  unfold closing. destruct (0 <? k); [|lia].
  pose proof (sep_cost_of_nonneg parts). pose proof (len_nonneg (more k)). lia.
Qed.

Lemma sep_cost_of_le parts : sep_cost_of parts <= 2.
Proof. destruct parts; simpl; lia. Qed.

(** Substrings *)

Lemma startswith_app p s : startswith p (p ++ s) = true.
Proof.
  induction p as [|a p IH]; simpl; [by destruct s|].
  rewrite N.eqb_refl. exact IH.
Qed.

Lemma contains_app_r p a s : contains p s = true -> contains p (a ++ s) = true.
Proof.
  intros H. induction a as [|x a IH]; [exact H|].
  simpl. rewrite IH. apply orb_true_r.
Qed.

Lemma contains_here p s : contains p (p ++ s) = true.
Proof. destruct (p ++ s) eqn:E; simpl; rewrite <- E, startswith_app; reflexivity. Qed.




(** A measure of the objects of a finite store has a maximum. *)
Lemma deref_insert (h : gmap oid object) i o obj :
  deref (<[i := o]> h) obj = if decide (i = obj) then o else deref h obj.
Proof.
  unfold deref. destruct (decide (i = obj)) as [->|Hne].
  - by rewrite lookup_insert_eq.
  - by rewrite lookup_insert_ne.
Qed.

Lemma heap_max (f : object -> Z) (h : gmap oid object) :
  exists U, forall obj, f (deref h obj) <= U.
Proof.
  induction h as [|i o h Hi IH] using map_ind.
  - exists (f None_). intros obj. unfold deref. rewrite lookup_empty. simpl. lia.
  - destruct IH as [U HU]. exists (Z.max U (f o)). intros obj.
    rewrite deref_insert. destruct (decide (i = obj)); [lia|].
    specialize (HU obj). lia.
Qed.

Lemma names_total_cons {V} (kv : pystr * V) (attrs : list (pystr * V)) :
  names_total (kv :: attrs) = len kv.1 + names_total attrs.
Proof. reflexivity. Qed.

Lemma names_total_nonneg {V} (attrs : list (pystr * V)) : 0 <= names_total attrs.
Proof.
  induction attrs as [|kv attrs IH]; [unfold names_total; simpl; lia|].
  rewrite names_total_cons. pose proof (len_nonneg kv.1). lia.
Qed.

Lemma names_total_Forall {V} (attrs : list (pystr * V)) :
  Forall (fun kv => len kv.1 <= names_total attrs) attrs.
Proof.
  induction attrs as [|kv attrs IH]; constructor.
  - rewrite names_total_cons. pose proof (names_total_nonneg attrs). lia.
  - eapply Forall_impl; [exact IH|]. intros kv' Hkv'. simpl in Hkv'.
    rewrite names_total_cons. pose proof (len_nonneg kv.1). lia.
Qed.

Lemma seq_bound_ge n X : 0 <= n -> 0 <= X -> 50 + n + X <= seq_bound n X.
Proof. intros Hn HX. unfold seq_bound. nia. Qed.

Section Bounded.

Variable h : gmap oid object.
Variable rc : oid -> Z -> M pystr.
Variable c : ctx.
Variables L S : Z.
Hypothesis rc_pres : forall obj b, preserves (rc obj b).
Hypothesis rc_bound : forall obj b s c', rc obj b c = (Ok s, c') -> len s <= L.
Hypothesis L_nonneg : 0 <= L.
Hypothesis S_nonneg : 0 <= S.
Hypothesis stub_bound : forall v, len (_type_stub (deref h v)) <= S.

Lemma rc_call obj b s c' : rc obj b c = (Ok s, c') -> c' = c /\ len s <= L.
Proof.
  intros H. split; [|eauto]. pose proof (rc_pres obj b c) as Hp.
  rewrite H in Hp. exact Hp.
Qed.

Lemma dict_loop_bounded n items remaining parts shown ps c' :
  _render_dict_loop rc n items remaining parts shown c = (Ok ps, c') ->
  c' = c
  /\ len (join (lit ", ") ps.1)
       <= len (join (lit ", ") parts) + len items * (2 * L + 4).
Proof.
  revert remaining parts shown.
  induction items as [|[key value] items IH]; intros remaining parts shown H;
    simpl in H.
  - apply ret_inv in H as [-> ->]. simpl. rewrite len_nil. split; [done|lia].
  - pose proof (len_nonneg items) as Hn. rewrite len_cons.
    apply bind_inv_ok in H as (key_r & c1 & Hkey & H).
    apply rc_call in Hkey as [-> Hkey].
    destruct (_ <? MIN_CHILD_BUDGET).
    + apply ret_inv in H as [-> ->]. simpl. split; [done|nia].
    + apply bind_inv_ok in H as (val_r & c2 & Hval & H).
      apply rc_call in Hval as [-> Hval].
      apply IH in H as [-> H]. split; [done|].
      rewrite len_join_snoc, !len_app in H. change (len (lit ": ")) with 2 in H.
      pose proof (sep_cost_of_le parts). nia.
Qed.

Lemma dict_bounded obj budget s c' :
  _render_dict rc obj budget c = (Ok s, c') ->
  len s <= seq_bound (len obj) (2 * L + 2).
Proof.
  intros H. unfold _render_dict in H.
  pose proof (len_nonneg obj) as Hn.
  pose proof (seq_bound_ge (len obj) (2 * L + 2)) as Hsb.
  destruct obj as [|e obj]; [apply ret_inv in H as [-> ->]; vm_compute (len (lit _)); lia|].
  pose proof (len_str_of_Z (len (e :: obj)) Hn) as Hd.
  destruct (budget <? _).
  { apply ret_inv in H as [-> ->].
    destruct (2 <=? budget);
      match goal with |- len (slice_to ?x ?b) <= _ =>
        pose proof (len_slice_to_le x b) as Hs; vm_compute (len x) in Hs end; lia. }
  destruct (budget <=? _).
  { apply ret_inv in H as [-> ->]. len_norm. lia. }
  apply bind_inv_ok in H as (l & c1 & Hl & Hret); apply ret_inv in Hret as [-> ->].
  unfold _render_dict_layout in Hl.
  apply bind_inv_ok in Hl as (ps & c2 & Hloop & Hret); apply ret_inv in Hret as [-> ->].
  pose proof (dict_loop_count _ _ _ _ _ _ _ _ _ Hloop eq_refl) as [Hcnt _].
  apply dict_loop_bounded in Hloop as [_ Hloop].
  rewrite !len_app, len_all_parts_no_tail. simpl join in Hloop.
  pose proof (len_nonneg ps.1).
  pose proof (closing_le ps.1 (len (e :: obj) - ps.2) (len (e :: obj)) Hn).
  unfold seq_bound. len_norm. nia.
Qed.

Lemma sequence_head_bounded n items remaining head_parts head_idx hd c' :
  _render_sequence_head rc n items remaining head_parts head_idx c = (Ok hd, c') ->
  c' = c
  /\ len (join (lit ", ") hd.1.2)
       <= len (join (lit ", ") head_parts) + len items * (L + 2).
Proof.
  revert remaining head_parts head_idx.
  induction items as [|item items IH]; intros remaining head_parts head_idx H;
    simpl in H.
  - apply ret_inv in H as [-> ->]. simpl. rewrite len_nil. split; [done|lia].
  - pose proof (len_nonneg items) as Hn. rewrite len_cons.
    destruct (_ <? MIN_CHILD_BUDGET).
    + apply ret_inv in H as [-> ->]. simpl. split; [done|nia].
    + apply bind_inv_ok in H as (part & c1 & Hpart & H).
      apply rc_call in Hpart as [-> Hpart].
      apply IH in H as [-> H]. split; [done|].
      rewrite len_join_snoc in H.
      pose proof (sep_cost_of_le head_parts). nia.
Qed.

Lemma sequence_bounded is_tuple obj budget s c' :
  _render_sequence rc is_tuple obj budget c = (Ok s, c') ->
  len s <= seq_bound (len obj) L.
Proof.
  intros H. unfold _render_sequence in H.
  pose proof (len_nonneg obj) as Hn.
  pose proof (seq_bound_ge (len obj) L) as Hsb.
  destruct obj as [|e obj].
  { apply ret_inv in H as [-> ->]. destruct is_tuple; vm_compute (len (_ ++ _)); lia. }
  pose proof (len_str_of_Z (len (e :: obj)) Hn) as Hd.
  destruct (budget <=? _).
  { apply ret_inv in H as [-> ->].
    match goal with |- len (slice_to ?x ?b) <= _ =>
      pose proof (len_slice_to_le x b) as Hs end.
    destruct is_tuple; len_norm; lia. }
  apply bind_inv_ok in H as (l & c1 & Hl & Hret); apply ret_inv in Hret as [-> ->].
  unfold _render_sequence_layout in Hl.
  apply bind_inv_ok in Hl as (hd & c2 & Hloop & Hl).
  pose proof (sequence_head_count _ _ _ _ _ _ _ _ _ Hloop eq_refl) as [Hcnt _].
  apply sequence_head_bounded in Hloop as [-> Hloop].
  simpl join in Hloop.
  pose proof (len_nonneg hd.1.2).
  pose proof (closing_le hd.1.2 (len (e :: obj) - hd.2) (len (e :: obj)) Hn).
  assert (Hplain :
    len ((if is_tuple then lit "(" else lit "[")
           ++ join (lit ", ")
                (all_parts {| head_parts := hd.1.2;
                              omitted := len (e :: obj) - hd.2;
                              tail_parts := [] |})
           ++ (if is_tuple then lit ")" else lit "]"))
      <= seq_bound (len (e :: obj)) L).
  { rewrite !len_app, len_all_parts_no_tail. unfold seq_bound.
    destruct is_tuple; len_norm; nia. }
  destruct (Z.ltb_spec 1 (len (e :: obj) - hd.2)) as [Hom|Hom]; cbn [andb] in Hl.
  - destruct (MIN_CHILD_BUDGET + 15 <? hd.1.1).
    + destruct (MIN_CHILD_BUDGET <=? _).
      * destruct (last (e :: obj)) as [item|]; [|discriminate].
        apply bind_inv_ok in Hl as (tail_r & c3 & Htail & Hret).
        apply ret_inv in Hret as [-> ->].
        apply rc_call in Htail as [_ Htail].
        unfold all_parts. simpl head_parts. simpl omitted. simpl tail_parts.
        destruct (Z.ltb_spec 0 (len (e :: obj) - hd.2 - 1)); [|lia].
        rewrite !len_app.
        replace (hd.1.2 ++ [more (len (e :: obj) - hd.2 - 1)] ++ [tail_r])
          with ((hd.1.2 ++ [more (len (e :: obj) - hd.2 - 1)]) ++ [tail_r])
          by (rewrite <- app_assoc; reflexivity).
        rewrite !len_join_snoc, sep_cost_of_snoc, len_more.
        pose proof (sep_cost_of_le hd.1.2).
        pose proof (len_str_of_Z (len (e :: obj) - hd.2 - 1)).
        clear Hplain. unfold seq_bound. destruct is_tuple; len_norm; nia.
      * apply ret_inv in Hl as [-> ->]. exact Hplain.
    + apply ret_inv in Hl as [-> ->]. exact Hplain.
  - apply ret_inv in Hl as [-> ->]. exact Hplain.
Qed.

Lemma set_loop_bounded n items remaining parts shown ps c' :
  _render_set_loop rc n items remaining parts shown c = (Ok ps, c') ->
  c' = c
  /\ len (join (lit ", ") ps.1)
       <= len (join (lit ", ") parts) + len items * (L + 2).
Proof.
  revert remaining parts shown.
  induction items as [|item items IH]; intros remaining parts shown H;
    simpl in H.
  - apply ret_inv in H as [-> ->]. simpl. rewrite len_nil. split; [done|lia].
  - pose proof (len_nonneg items) as Hn. rewrite len_cons.
    destruct (_ <? MIN_CHILD_BUDGET).
    + apply ret_inv in H as [-> ->]. simpl. split; [done|nia].
    + apply bind_inv_ok in H as (part & c1 & Hpart & H).
      apply rc_call in Hpart as [-> Hpart].
      apply IH in H as [-> H]. split; [done|].
      rewrite len_join_snoc in H.
      pose proof (sep_cost_of_le parts). nia.
Qed.

Lemma set_bounded is_frozenset obj budget s c' :
  _render_set rc is_frozenset obj budget c = (Ok s, c') ->
  len s <= seq_bound (len obj) L.
Proof.
  intros H. unfold _render_set in H.
  pose proof (len_nonneg obj) as Hn.
  pose proof (seq_bound_ge (len obj) L) as Hsb.
  destruct obj as [|e obj].
  { destruct is_frozenset; apply ret_inv in H as [-> ->];
      match goal with |- len (slice_to ?x ?b) <= _ =>
        pose proof (len_slice_to_le x b) as Hs; vm_compute (len x) in Hs end; lia. }
  pose proof (len_str_of_Z (len (e :: obj)) Hn) as Hd.
  destruct (budget <=? _).
  { apply ret_inv in H as [-> ->].
    match goal with |- len (slice_to ?x ?b) <= _ =>
      pose proof (len_slice_to_le x b) as Hs end.
    destruct is_frozenset; len_norm; lia. }
  apply bind_inv_ok in H as (l & c1 & Hl & Hret); apply ret_inv in Hret as [-> ->].
  unfold _render_set_layout in Hl.
  apply bind_inv_ok in Hl as (ps & c2 & Hloop & Hret); apply ret_inv in Hret as [-> ->].
  pose proof (set_loop_count _ _ _ _ _ _ _ _ _ Hloop eq_refl) as [Hcnt _].
  apply set_loop_bounded in Hloop as [_ Hloop].
  rewrite !len_app, len_all_parts_no_tail. simpl join in Hloop.
  pose proof (len_nonneg ps.1).
  pose proof (closing_le ps.1 (len (e :: obj) - ps.2) (len (e :: obj)) Hn).
  unfold seq_bound. destruct is_frozenset; len_norm; nia.
Qed.

Lemma attrs_full_bounded is_even A items remaining parts p1 c' :
  Forall (fun kv : pystr * oid => len kv.1 <= A) items ->
  render_attrs_full rc is_even items remaining parts c = (Ok p1, c') ->
  c' = c
  /\ len (join (lit ", ") p1.1.2) + len p1.2 * (A + 1 + L + S + 2)
       <= len (join (lit ", ") parts) + len items * (A + 1 + L + S + 2)
  /\ Forall (fun kv : pystr * oid => len kv.1 <= A) p1.2.
Proof.
  revert remaining parts.
  induction items as [|[attr_name attr_val] items IH]; intros remaining parts HA H;
    simpl in H.
  - apply ret_inv in H as [-> ->]. simpl. split; [done|]. split; [lia|done].
  - destruct (_ <? MIN_CHILD_BUDGET).
    + apply ret_inv in H as [-> ->]. simpl. split; [done|]. split; [lia|done].
    + apply bind_inv_ok in H as (val_r & c1 & Hval & H).
      apply rc_call in Hval as [-> Hval].
      apply Forall_cons in HA as [Hname HA]. simpl in Hname.
      apply IH in H as (-> & H & HA'); [|exact HA]. split; [done|].
      split; [|exact HA'].
      rewrite len_join_snoc, !len_app in H. change (len (lit "=")) with 1 in H.
      pose proof (sep_cost_of_le parts). rewrite len_cons. nia.
Qed.

Lemma attrs_stubs_bounded A items remaining parts :
  Forall (fun kv : pystr * oid => len kv.1 <= A) items ->
  len (join (lit ", ") (render_attrs_stubs h items remaining parts).1)
    + len (render_attrs_stubs h items remaining parts).2 * (A + 1 + L + S + 2)
    <= len (join (lit ", ") parts) + len items * (A + 1 + L + S + 2).
Proof.
  revert remaining parts.
  induction items as [|[attr_name attr_val] items IH]; intros remaining parts HA;
    simpl.
  - lia.
  - destruct (_ <? _); simpl; [lia|].
    apply Forall_cons in HA as [Hname HA]. simpl in Hname.
    match goal with |- context [render_attrs_stubs h items ?R ?P] =>
      specialize (IH R P HA); set (res := render_attrs_stubs h items R P) in *
    end.
    rewrite len_join_snoc, len_app, len_cons in IH.
    pose proof (stub_bound attr_val). pose proof (sep_cost_of_le parts).
    rewrite (len_cons (attr_name, attr_val) items). nia.
Qed.

Lemma render_attrs_bounded attrs type_name budget s c' :
  render_attrs h rc attrs type_name budget c = (Ok s, c') ->
  len s <= attrs_bound type_name attrs L S.
Proof.
  intros H. unfold render_attrs in H.
  pose proof (len_nonneg attrs) as Hn.
  pose proof (names_total_nonneg attrs) as HA.
  pose proof (len_nonneg type_name) as Htn.
  assert (Htag : forall b,
    len (slice_to (lit "<" ++ type_name ++ lit ">") b)
      <= attrs_bound type_name attrs L S).
  { intros b. pose proof (len_slice_to_le (lit "<" ++ type_name ++ lit ">") b).
    unfold attrs_bound. len_norm. nia. }
  destruct attrs as [|a attrs]; [apply ret_inv in H as [-> ->]; apply Htag|].
  destruct (budget <=? _); [apply ret_inv in H as [-> ->]; apply Htag|].
  apply bind_inv_ok in H as (pol & c1 & Hpol & H).
  apply ret_inv in Hpol as [-> ->].
  apply bind_inv_ok in H as (p1 & c2 & Hp1 & H).
  apply attrs_full_bounded with (A := names_total (a :: attrs)) in Hp1
    as (-> & Hp1 & HA1); [|apply names_total_Forall].
  pose proof (attrs_stubs_bounded (names_total (a :: attrs)) p1.2 p1.1.1 p1.1.2 HA1)
    as Hp2.
  destruct (budget <? _); apply ret_inv in H as [-> ->]; [apply Htag|].
  set (p2 := render_attrs_stubs h p1.2 p1.1.1 p1.1.2) in *.
  pose proof (len_nonneg p2.2) as Hr2. pose proof (len_nonneg p1.2) as Hr1.
  simpl join in Hp1. rewrite (len_nil N) in Hp1.
  assert (Hparts :
    len (join (lit ", ") (if 0 <? len p2.2 then p2.1 ++ [more (len p2.2)] else p2.1))
      <= len (join (lit ", ") p2.1) + len p2.2 + 11).
  { destruct (0 <? len p2.2); [|lia].
    rewrite len_join_snoc, len_more.
    pose proof (len_str_of_Z (len p2.2) Hr2). pose proof (sep_cost_of_le p2.1). lia. }
  pose proof (len_nonneg (join (lit ", ") p2.1)) as HJ2.
  unfold attrs_bound.
  set (T := names_total (a :: attrs) + 1 + L + S + 2) in *.
  assert (HT : 0 < T) by (subst T; lia).
  assert (Hle : len p2.2 <= len (a :: attrs))
    by (apply (Z.mul_le_mono_pos_r _ _ T HT); lia).
  rewrite !len_app. len_norm. lia.
Qed.

Lemma generic_bounded obj budget s c' :
  MIN_BUDGET <= budget ->
  _render_generic h rc obj budget c = (Ok s, c') ->
  len s <= obj_bound L S (deref h obj).
Proof.
  intros Hb H. unfold MIN_BUDGET in Hb. unfold _render_generic in H.
  unfold obj_bound.
  destruct (ob_payload (deref h obj)) as
    [|b0|z|r|str|b|factory items|mc srt|items|items|items|items|items|items|o] eqn:Hp.
  1-4: apply ret_inv in H as [-> ->];
       unfold _render_primitive;
       match goal with |- context [len ?r <=? ?bb] =>
         destruct (Z.leb_spec (len r) bb) as [Hfit|Hno]; [lia|];
         rewrite len_app; pose proof (len_slice_to r (bb - 1));
         change (len ELLIPSIS) with 1; lia end.
  - apply ret_inv in H as [-> ->].
    pose proof (_render_str_within str budget). unfold _render_str in *.
    destruct (Z.leb_spec (len (repr_str str)) budget); lia.
  - apply ret_inv in H as [-> ->]. unfold _render_bytes.
    destruct (Z.leb_spec (len (repr_bytes b)) budget); [lia|].
    destruct (budget <? 6); [apply len_slice_to_le|].
    rewrite !len_app. unfold decode_ascii_replace.
    replace (len (List.map (fun c0 => if (c0 <? 128)%N then c0 else 65533%N)
                    (slice_to b (budget - 5))))
      with (len (slice_to b (budget - 5)))
      by (unfold len; rewrite length_map; reflexivity).
    pose proof (len_slice_to b (budget - 5)). len_norm. lia.
  - unfold _render_defaultdict in H.
    apply of_sum_bind_inv in H as (name & Hname & H).
    unfold factory_text. rewrite Hname.
    pose proof (len_nonneg name).
    pose proof (len_nonneg items).
    pose proof (seq_bound_ge (len items) (2 * L + 2)).
    assert (Hshell : forall b',
      len (slice_to (lit "defaultdict(" ++ name ++ lit ")") b')
        <= 20 + len name + seq_bound (len items) (2 * L + 2)).
    { intros b'.
      pose proof (len_slice_to_le (lit "defaultdict(" ++ name ++ lit ")") b').
      len_norm. lia. }
    destruct (budget <=? _); [apply ret_inv in H as [-> ->]; apply Hshell|].
    destruct (_ <? MIN_BUDGET); [apply ret_inv in H as [-> ->]; apply Hshell|].
    apply bind_inv_ok in H as (inner & c1 & Hinner & Hret).
    apply ret_inv in Hret as [-> ->].
    apply dict_bounded in Hinner. len_norm. lia.
  - unfold _render_counter in H.
    pose proof (len_nonneg mc).
    pose proof (seq_bound_ge (len mc) (2 * L + 2)).
    assert (Hshell : forall b',
      len (slice_to (lit "Counter()") b') <= 20 + seq_bound (len mc) (2 * L + 2)).
    { intros b'. pose proof (len_slice_to_le (lit "Counter()") b').
      len_norm. lia. }
    destruct mc as [|e mc]; [apply ret_inv in H as [-> ->]; apply Hshell|].
    destruct (budget <=? _); [apply ret_inv in H as [-> ->]; apply Hshell|].
    destruct (_ <? MIN_BUDGET); [apply ret_inv in H as [-> ->]; apply Hshell|].
    apply of_sum_bind_inv in H as (pairs & Hpairs & H).
    destruct srt as [e0|]; [discriminate|]. injection Hpairs as <-.
    apply bind_inv_ok in H as (inner & c1 & Hinner & Hret).
    apply ret_inv in Hret as [-> ->].
    apply dict_bounded in Hinner. len_norm. lia.
  - eapply dict_bounded, H.
  - destruct (ty_fields _).
    + eapply render_attrs_bounded, H.
    + eapply sequence_bounded, H.
  - eapply sequence_bounded, H.
  - eapply set_bounded, H.
  - eapply set_bounded, H.
  - unfold _render_deque in H.
    pose proof (len_nonneg items).
    pose proof (seq_bound_ge (len items) L).
    assert (Hshell : forall (x : pystr) b',
      len x <= 7 -> len (slice_to x b') <= 20 + seq_bound (len items) L).
    { intros x b' Hx. pose proof (len_slice_to_le x b'). lia. }
    destruct items as [|e items];
      [apply ret_inv in H as [-> ->]; apply Hshell; vm_compute; discriminate|].
    destruct (budget <=? _);
      [apply ret_inv in H as [-> ->]; apply Hshell; vm_compute; discriminate|].
    destruct (_ <? MIN_BUDGET);
      [apply ret_inv in H as [-> ->]; apply Hshell; vm_compute; discriminate|].
    apply bind_inv_ok in H as (inner & c1 & Hinner & Hret).
    apply ret_inv in Hret as [-> ->].
    apply sequence_bounded in Hinner. len_norm. lia.
  - unfold _render_object in H. destruct (fitting_repr o budget) as [r|] eqn:Hr.
    + apply ret_inv in H as [-> ->]. unfold fitting_repr in Hr.
      destruct (negb _); [|discriminate].
      destruct (o_repr o) as [r0|]; [|discriminate].
      destruct (_ && _); [|discriminate]. injection Hr as <-. lia.
    + apply of_sum_bind_inv in H as (attrs & Hattrs & H).
      unfold attrs_of. rewrite Hattrs.
      apply render_attrs_bounded in H. lia.
Qed.

End Bounded.

(** The exempt scalars render within the length of their repr. *)
Lemma leaf_bounded h rc obj budget c s c' L S :
  is_exempt (deref h obj) = true ->
  MIN_BUDGET <= budget ->
  _render_generic h rc obj budget c = (Ok s, c') ->
  len s <= obj_bound L S (deref h obj).
Proof.
  intros Hex Hb H.
  destruct (heap_max (fun o => len (_type_stub o)) h) as [S0 HS0].
  assert (Heq : obj_bound L S (deref h obj)
                = obj_bound 0 (Z.max 0 S0) (deref h obj)).
  { unfold obj_bound, is_exempt in *.
    destruct (ob_payload (deref h obj)); try discriminate; reflexivity. }
  rewrite Heq.
  assert (Hgen : _render_generic h (fun _ _ => ret []) obj budget c = (Ok s, c')).
  { unfold _render_generic, is_exempt in *.
    destruct (ob_payload (deref h obj)); try discriminate; exact H. }
  eapply (generic_bounded h (fun _ _ => ret []) c 0 (Z.max 0 S0));
    try exact Hb; try exact Hgen; try lia.
  - intros o b c0. reflexivity.
  - intros o b s0 c0 Hr. apply ret_inv in Hr as [-> _]. rewrite len_nil. lia.
  - intros v. specialize (HS0 v). simpl in HS0. lia.
Qed.

Lemma non_exempt_in_store (h : gmap oid object) obj :
  is_exempt (deref h obj) = false -> obj ∈ dom h.
Proof.
  intros Hex. apply elem_of_dom. unfold deref in Hex.
  destruct (h !! obj); [eauto|discriminate].
Qed.

Lemma depth_left_push (h : gmap oid object) obj s0 p :
  obj ∈ dom h -> obj ∉ s0 ->
  (depth_left h {| _seen := Some (s0 ∪ {[obj]}); _policy := p |}
   < depth_left h {| _seen := Some s0; _policy := p |})%nat.
Proof.
  intros Hin Hnot. unfold depth_left. simpl. apply subset_size.
  split.
  - intros x. rewrite !elem_of_difference, elem_of_union.
    intros [Hx Hn]. split; [exact Hx|]. intros Hs. apply Hn. by left.
  - intros Hsub. specialize (Hsub obj).
    rewrite !elem_of_difference, elem_of_union, elem_of_singleton in Hsub.
    destruct Hsub as [_ Hn]; [by split|]. apply Hn. by right.
Qed.

Lemma depth_left_le (h : gmap oid object) c : (depth_left h c <= size (dom h))%nat.
Proof.
  unfold depth_left. destruct (_seen c); [|lia].
  apply subseteq_size. intros x. rewrite elem_of_difference. by intros [Hx _].
Qed.

Section BoundedStore.

Variable h : gmap oid object.
Variable reg : gmap cid Renderer.
Hypothesis all_generic : forall obj, generic h reg obj.

Lemma bounded_at_depth (m : nat) :
  exists L, 5 <= L /\
    forall fuel obj b c s c',
      (depth_left h c < m)%nat ->
      render_child h reg fuel obj b c = (Ok s, c') -> len s <= L.
Proof.
  destruct (heap_max (fun o => len (_type_stub o)) h) as [S0 HS0].
  induction m as [|m [Lp [HLp IH]]].
  { exists 5. split; [lia|]. intros; lia. }
  destruct (heap_max (obj_bound Lp (Z.max 0 S0)) h) as [U HU].
  exists (Z.max 5 U). split; [lia|].
  intros fuel obj b c s c' Hm H.
  destruct (Z.lt_ge_cases b MIN_BUDGET) as [Hlt|Hge].
  { rewrite render_child_floor in H by exact Hlt. apply ret_inv in H as [-> _].
    pose proof (len_slice_to_le (lit "...") b) as Hs.
    vm_compute (len (lit "...")) in Hs. lia. }
  destruct fuel as [|fuel].
  { simpl in H. destruct (Z.ltb_spec b MIN_BUDGET); [lia|discriminate]. }
  rewrite render_child_S in H by exact Hge.
  specialize (HU obj).
  destruct (is_exempt (deref h obj)) eqn:Hex.
  - unfold render_child_guarded in H. rewrite Hex in H. simpl in H.
    rewrite _render_inner_generic in H by apply all_generic.
    apply (leaf_bounded _ _ _ _ _ _ _ Lp (Z.max 0 S0) Hex Hge) in H. lia.
  - destruct c as [[s0|] p].
    + destruct (decide (obj ∈ s0)) as [Hin|Hnot].
      * rewrite render_child_guarded_seen in H by assumption.
        apply ret_inv in H as [-> _].
        pose proof (len_slice_to_le CIRCULAR b) as Hs.
        vm_compute (len CIRCULAR) in Hs. lia.
      * rewrite render_child_guarded_fresh in H by assumption.
        rewrite _render_inner_generic in H by apply all_generic.
        pose proof (depth_left_push h obj s0 p (non_exempt_in_store h obj Hex) Hnot)
          as Hdepth.
        destruct (_render_generic h (render_child h reg fuel) obj b
                    {| _seen := Some (s0 ∪ {[obj]}); _policy := p |})
          as [r c1] eqn:Hgen.
        simpl in H. injection H as -> _.
        eapply (generic_bounded h (render_child h reg fuel) _ Lp (Z.max 0 S0))
          in Hgen; [lia|..|exact Hge].
        -- intros o b'. apply preserves_render_child.
        -- intros o b' s' c'' Hr. eapply IH; [|exact Hr]. lia.
        -- lia.
        -- lia.
        -- intros v. specialize (HS0 v). simpl in HS0. lia.
    + unfold render_child_guarded in H. rewrite Hex in H. discriminate.
Qed.

(** On a finite store rendered by the generic fallback, the text of a
    value is bounded whatever the budget. *)
Lemma render_child_bounded :
  exists L, 5 <= L /\
    forall fuel obj b c s c',
      render_child h reg fuel obj b c = (Ok s, c') -> len s <= L.
Proof.
  destruct (bounded_at_depth (S (size (dom h)))) as (L & HL & Hb).
  exists L. split; [exact HL|]. intros fuel obj b c s c' H.
  eapply Hb; [|exact H]. pose proof (depth_left_le h c). lia.
Qed.

End BoundedStore.

(** *** With enough budget every entry is shown *)

Lemma reserve_of_le k n : 0 <= n -> k <= n -> reserve_of k <= n + 11.
Proof.
  intros Hn Hk. unfold reserve_of. destruct (Z.ltb_spec 1 k); [|lia].
  rewrite len_app, len_more. pose proof (len_str_of_Z (k - 1)).
  change (len (lit ", ")) with 2. lia.
Qed.

Lemma marked_snoc_l parts p : marked parts -> marked (parts ++ [p]).
Proof. intros (q & Hq & Hc). exists q. split; [|exact Hc]. apply elem_of_app. by left. Qed.

Lemma marked_snoc_r parts p : contains CIRCULAR p = true -> marked (parts ++ [p]).
Proof.
  intros Hc. exists p. split; [|exact Hc]. apply elem_of_app. right. by left.
Qed.



Section Progress.

Variable rc : oid -> Z -> M pystr.
Variable c : ctx.
Variables L B R : Z.
Variable self : oid.
Hypothesis rc_answers : forall obj b, b < B -> exists s, rc obj b c = (Ok s, c).
Hypothesis rc_bound : forall obj b s c', rc obj b c = (Ok s, c') -> len s <= L.
Hypothesis rc_self :
  forall b, R <= b -> b < B ->
    exists s, rc self b c = (Ok s, c) /\ contains CIRCULAR s = true.
Hypothesis L_nonneg : 0 <= L.
Hypothesis R_nonneg : 0 <= R.

Lemma rc_self_marked b part c' :
  R <= b -> b < B -> rc self b c = (Ok part, c') -> contains CIRCULAR part = true.
Proof.
  intros HR HB Hpart. destruct (rc_self b HR HB) as (s & Hs & Hc).
  rewrite Hs in Hpart. injection Hpart as <- _. exact Hc.
Qed.










Lemma attrs_full_all is_even A n items remaining parts :
  Forall (fun kv : pystr * oid => len kv.1 <= A) items ->
  0 <= A -> len items <= n ->
  remaining < B ->
  len items * (A + L + 20 + R) + n + 30 <= remaining ->
  exists rem' parts',
    render_attrs_full rc is_even items remaining parts c
      = (Ok (rem', parts', []), c)
    /\ (marked parts \/ self ∈ items.*2 -> marked parts')
    /\ len (join (lit ", ") parts')
         <= len (join (lit ", ") parts) + len items * (A + L + 3).
Proof.
  intros HA HA0. revert remaining parts.
  induction items as [|[attr_name attr_val] items IH]; intros remaining parts Hn Hr Hroom.
  - exists remaining, parts. split; [reflexivity|]. split.
    + intros [Hm|Hin]; [exact Hm|by apply elem_of_nil in Hin].
    + rewrite len_nil. lia.
  - apply Forall_cons in HA as [Hname HA]. simpl in Hname.
    pose proof (len_nonneg items) as Hlen.
    pose proof (len_nonneg attr_name) as Hname0.
    assert (Hn0 : 0 <= n) by (rewrite len_cons in Hn; lia).
    pose proof (reserve_of_le (len ((attr_name, attr_val) :: items)) n Hn0 Hn) as Hres.
    pose proof (reserve_of_nonneg (len ((attr_name, attr_val) :: items))) as Hres0.
    pose proof (sep_cost_of_le parts) as Hsep.
    pose proof (sep_cost_of_nonneg parts) as Hsep0.
    simpl.
    set (rest := len ((attr_name, attr_val) :: items)) in *.
    assert (Hrest : rest = 1 + len items) by (subst rest; apply len_cons).
    set (available0 := remaining - sep_cost_of parts - reserve_of rest) in *.
    set (per_attr := (remaining - (rest - 1) * 2) / rest).
    assert (Hper : A + 16 + R <= per_attr).
    { subst per_attr. apply Z.div_le_lower_bound; nia. }
    set (available := if is_even && (1 <? rest)
                      then Z.min available0 per_attr else available0).
    assert (Hav : A + 16 + R <= available <= available0).
    { subst available available0. destruct (is_even && (1 <? rest)); nia. }
    assert (Hpre : len (attr_name ++ lit "=") = len attr_name + 1)
      by (rewrite len_app; reflexivity).
    destruct (Z.ltb_spec (available - len (attr_name ++ lit "=")) MIN_CHILD_BUDGET)
      as [Hlt|_]; [unfold MIN_CHILD_BUDGET in Hlt; lia|].
    destruct (rc_answers attr_val (available - len (attr_name ++ lit "=")))
      as [val_r Hval]; [subst available0; lia|].
    rewrite (bind_ok _ _ _ _ _ Hval).
    pose proof (rc_bound _ _ _ _ Hval) as Hlv. pose proof (len_nonneg val_r) as Hlv0.
    assert (Hpart : len ((attr_name ++ lit "=") ++ val_r)
                    = len attr_name + 1 + len val_r)
      by (rewrite len_app, Hpre; reflexivity).
    destruct (IH HA (remaining - (len ((attr_name ++ lit "=") ++ val_r)
                                  + sep_cost_of parts))
                (parts ++ [(attr_name ++ lit "=") ++ val_r]))
      as (rem' & parts' & Hloop & Hmark & HJ); [lia|lia|subst available0; nia|].
    exists rem', parts'. split; [exact Hloop|]. split.
    + intros [Hm|Hin]; apply Hmark.
      * left. by apply marked_snoc_l.
      * simpl in Hin. apply elem_of_cons in Hin as [<-|Hin]; [|by right].
        left. apply marked_snoc_r. apply contains_app_r.
        eapply rc_self_marked; [| |exact Hval]; subst available0; lia.
    + rewrite len_join_snoc in HJ. nia.
Qed.


(** With the room every attribute is rendered in full. *)
Lemma render_attrs_shows_all h attrs type_name budget :
  attrs <> [] -> budget <= B ->
  attrs_enough type_name attrs L R <= budget ->
  exists fulls,
    Forall2 (full_part rc) attrs fulls
    /\ render_attrs h rc attrs type_name budget c
         = (Ok (type_name ++ lit "(" ++ join (lit ", ") fulls ++ lit ")"), c).
Proof.
  intros Hne Hb Hroom. unfold attrs_enough in Hroom. unfold render_attrs.
  destruct attrs as [|a attrs]; [done|].
  pose proof (len_nonneg (a :: attrs)) as Hn.
  pose proof (len_nonneg type_name) as Htn.
  pose proof (names_total_nonneg (a :: attrs)) as HA.
  match goal with |- context [budget <=? ?X] =>
    destruct (Z.leb_spec budget X) as [Hle|_]; [exfalso; len_norm; nia|] end.
  rewrite (bind_ok _policy_get _ c (_policy c) c) by reflexivity.
  match goal with |- context [render_attrs_full rc ?e ?it ?r ?p] =>
    destruct (attrs_full_all e (names_total (a :: attrs)) (len (a :: attrs)) it r p)
      as (rem' & parts' & Hloop & _ & HJ);
      [apply names_total_Forall|lia|lia|lia|nia|]
  end.
  rewrite (bind_ok _ _ _ _ _ Hloop). cbn [fst snd].
  apply attrs_full_split in Hloop as (k & fulls & Hk & Hdrop & Hparts & Hall).
  cbn [fst snd] in Hdrop, Hparts. simpl app in Hparts. subst parts'.
  assert (Hk' : k = length (a :: attrs)).
  { symmetry in Hdrop. apply (f_equal length) in Hdrop.
    rewrite length_drop in Hdrop. simpl length in *. lia. }
  rewrite Hk', firstn_all in Hall.
  change (render_attrs_stubs h [] rem' fulls) with (fulls, @nil (pystr * oid)).
  cbn [fst snd]. change (0 <? len (@nil (pystr * oid))) with false. cbv iota.
  simpl join in HJ. rewrite (len_nil N) in HJ.
  match goal with |- context [budget <? ?X] =>
    destruct (Z.ltb_spec budget X) as [Hlt|_];
      [exfalso; rewrite !len_app in Hlt; len_norm; nia|] end.
  exists fulls. split; [exact Hall|reflexivity].
Qed.

End Progress.

(** *** Reference cycles *)

Lemma render_child_on_stack h reg fuel obj b s0 p :
  is_exempt (deref h obj) = false -> obj ∈ s0 ->
  MIN_BUDGET <= b -> b <= Z.of_nat fuel ->
  render_child h reg fuel obj b {| _seen := Some s0; _policy := p |}
    = (Ok CIRCULAR, {| _seen := Some s0; _policy := p |}).
Proof.
  intros Hex Hin Hb Hfuel. destruct fuel as [|fuel]; [unfold MIN_BUDGET in Hb; lia|].
  rewrite render_child_S by exact Hb.
  rewrite render_child_guarded_seen by assumption.
  rewrite slice_to_all; [reflexivity|]. unfold MIN_BUDGET in Hb.
  vm_compute (len CIRCULAR). lia.
Qed.








Lemma get_renderer_empty ty : get_renderer ∅ ty = None.
Proof.
  unfold get_renderer. induction (ty_mro ty) as [|k mro IH]; [reflexivity|].
  simpl. rewrite lookup_empty. exact IH.
Qed.

Lemma generic_empty_registry (h : gmap oid object) :
  map_Forall (fun _ o => hook_free_b o = true) h ->
  forall obj, generic h ∅ obj.
Proof.
  intros Hall obj. split; [|apply get_renderer_empty].
  unfold deref. destruct (h !! obj) as [o|] eqn:Ho; [|reflexivity].
  specialize (Hall obj o Ho). unfold hook_free_b in Hall. simpl.
  destruct (ty_budget_repr (ob_type o)); [discriminate|reflexivity].
Qed.

Lemma readable_store (h : gmap oid object) :
  map_Forall (fun _ o => readable_b o = true) h -> readable h.
Proof.
  intros Hall obj. unfold deref.
  destruct (h !! obj) as [o|] eqn:Ho; [|reflexivity].
  exact (Hall obj o Ho).
Qed.


Lemma heap_cycles_generic : forall obj, generic heap_cycles ∅ obj.
Proof.
  apply generic_empty_registry.
  apply (bool_decide_unpack _). vm_compute. reflexivity.
Qed.




Lemma render_fresh h reg fuel obj budget policy c s c1 :
  MIN_BUDGET <= budget ->
  generic h reg obj ->
  is_exempt (deref h obj) = false ->
  _render_generic h (render_child h reg fuel) obj budget
    {| _seen := Some (∅ ∪ {[obj]}); _policy := policy |} = (Ok s, c1) ->
  render h reg (S fuel) obj budget policy c = (Ok s, c).
Proof.
  intros Hb Hg Hex Hs. unfold render. rewrite render_session_eq.
  rewrite render_child_S by exact Hb.
  rewrite render_child_guarded_fresh by (try exact Hex; apply not_elem_of_empty).
  rewrite _render_inner_generic by exact Hg. rewrite Hs. reflexivity.
Qed.


(** Cycles through a deque, a defaultdict, a Counter, and through a set
    and an object. *)
Example cycle_examples_wrapped :
  on_cycle heap_wrapped 0%N /\ on_cycle heap_wrapped 1%N
  /\ on_cycle heap_wrapped 3%N /\ on_cycle heap_wrapped 4%N
  /\ (render heap_wrapped ∅ 100 0%N 100 greedy ctx0).1 = Ok (lit "deque([<...>])")
  /\ (render heap_wrapped ∅ 100 1%N 100 greedy ctx0).1
       = Ok (lit "defaultdict(list, {'k': <...>})")
  /\ (render heap_wrapped ∅ 100 3%N 100 greedy ctx0).1
       = Ok (lit "Counter({'k': <...>})")
  /\ (render heap_wrapped ∅ 100 4%N 100 greedy ctx0).1
       = Ok (lit "{Node(members=<...>)}").
Proof.
  assert (Hedge : forall a b : oid,
            bool_decide (b ∈ shown_children heap_wrapped a) = true ->
            b ∈ shown_children heap_wrapped a)
    by (intros a b H; by apply bool_decide_eq_true in H).
  split; [apply tc_once, Hedge; vm_compute; reflexivity|].
  split; [apply tc_once, Hedge; vm_compute; reflexivity|].
  split; [apply tc_once, Hedge; vm_compute; reflexivity|].
  split.
  { apply (tc_l _ 4%N 5%N 4%N); [|apply tc_once];
      apply Hedge; vm_compute; reflexivity. }
  repeat split; vm_compute; reflexivity.
Qed.

(** ** C10: named tuples are attribute bags *)

(** The text of [render_attrs] accounts for every attribute, in
    order. *)
Lemma render_attrs_accounted h rc attrs type_name budget c s c' :
  render_attrs h rc attrs type_name budget c = (Ok s, c') ->
  s = slice_to (lit "<" ++ type_name ++ lit ">") budget
  \/ exists (k1 k2 : nat) fulls,
       (k1 + k2 <= length attrs)%nat
       /\ Forall2 (full_part rc) (take k1 attrs) fulls
       /\ s = type_name ++ lit "("
                ++ join (lit ", ")
                     (fulls
                      ++ List.map (stub_part h) (take k2 (drop k1 attrs))
                      ++ (if (k1 + k2 <? length attrs)%nat
                          then [more (len attrs - Z.of_nat (k1 + k2))]
                          else []))
                ++ lit ")".
Proof.
  intros H. unfold render_attrs in H.
  destruct attrs as [|a attrs]; [apply ret_inv in H as [-> ->]; by left|].
  destruct (budget <=? _); [apply ret_inv in H as [-> ->]; by left|].
  apply bind_inv_ok in H as (pol & c1 & _ & H).
  apply bind_inv_ok in H as (p1 & c2 & Hfull & H).
  apply attrs_full_split in Hfull as (k1 & fulls & Hk1 & Hdrop & Hparts & Hall).
  destruct p1 as [[rem1 parts1] rest1]. cbn [fst snd] in *.
  simpl app in Hparts. subst parts1 rest1.
  destruct (attrs_stubs_split h (drop k1 (a :: attrs)) rem1 fulls)
    as (k2 & Hk2 & Hrest & Hstubs).
  rewrite Hrest, Hstubs in H. rewrite length_drop in Hk2.
  rewrite drop_drop in H.
  assert (Hlen : len (drop (k1 + k2) (a :: attrs))
                 = len (a :: attrs) - Z.of_nat (k1 + k2)).
  { unfold len. rewrite length_drop. lia. }
  rewrite Hlen in H.
  destruct (budget <? _) in H; apply ret_inv in H as [-> ->]; [by left|].
  right. exists k1, k2, fulls. split; [lia|]. split; [exact Hall|].
  destruct (Nat.ltb_spec (k1 + k2) (length (a :: attrs))) as [Hlt|Hge];
    destruct (Z.ltb_spec 0 (len (a :: attrs) - Z.of_nat (k1 + k2))) as [Hpos|Hneg];
    unfold len in *; try lia.
  - rewrite <- app_assoc. reflexivity.
  - rewrite app_nil_r. reflexivity.
Qed.

(** C10. In the generic fallback a tuple whose type has [_fields] is
    rendered by [render_attrs] on [dict(zip(fields, obj))] under the
    type's name, never by [_render_sequence]; with distinct field names
    the attributes are the fields in declared order, each paired with
    the item at its position. For a budget of 5 or more the text of
    [render] is the clipped tag [<TypeName>] or [TypeName(...)] with the
    first fields in declared order as [field=value], each value rendered
    with a budget of at least 15, then fields as stubs [field=<type>],
    then the count of the rest. And on a store rendered by the generic
    fallback where nothing read raises, from some budget on the text is
    [TypeName(field=value, ...)] with every field. *)
Theorem C10_namedtuple_attr_bag :
  forall h reg obj fields items,
    generic h reg obj ->
    ob_payload (deref h obj) = PTuple items ->
    ty_fields (ob_type (deref h obj)) = Some fields ->
    let type_name := ty_name (ob_type (deref h obj)) in
    let attrs := py_dict (zip fields items) in
    (forall rc budget,
       _render_generic h rc obj budget = render_attrs h rc attrs type_name budget)
    /\ (NoDup fields -> attrs = zip fields items)
    /\ (forall fuel budget policy c s c',
          MIN_BUDGET <= budget ->
          render h reg (S fuel) obj budget policy c = (Ok s, c') ->
          s = slice_to (lit "<" ++ type_name ++ lit ">") budget
          \/ exists (k1 k2 : nat) fulls,
               (k1 + k2 <= length attrs)%nat
               /\ Forall2 (full_part (render_child h reg fuel)) (take k1 attrs) fulls
               /\ s = type_name ++ lit "("
                        ++ join (lit ", ")
                             (fulls
                              ++ List.map (stub_part h) (take k2 (drop k1 attrs))
                              ++ (if (k1 + k2 <? length attrs)%nat
                                  then [more (len attrs - Z.of_nat (k1 + k2))]
                                  else []))
                        ++ lit ")")
    /\ ((forall o, generic h reg o) -> readable h -> attrs <> [] ->
        exists B0, forall fuel budget policy c,
          B0 <= budget -> budget <= Z.of_nat fuel ->
          exists fulls,
            Forall2 (full_part (render_child h reg fuel)) attrs fulls
            /\ render h reg (S fuel) obj budget policy c
                 = (Ok (type_name ++ lit "(" ++ join (lit ", ") fulls ++ lit ")"), c)).
Proof.
  intros h reg obj fields items Hg Hp Hf type_name attrs.
  assert (Heq : forall rc budget,
      _render_generic h rc obj budget = render_attrs h rc attrs type_name budget).
  { intros rc budget. unfold _render_generic. rewrite Hp, Hf. reflexivity. }
  assert (Hex : is_exempt (deref h obj) = false)
    by (unfold is_exempt; rewrite Hp; reflexivity).
  split; [exact Heq|]. split; [|split].
  - intros Hnd. apply py_dict_nodup, NoDup_fst_zip_l, Hnd.
  - intros fuel budget policy c s c' Hb H.
    unfold render in H. rewrite render_session_eq in H.
    rewrite render_child_S in H by exact Hb.
    rewrite render_child_guarded_fresh in H
      by (try exact Hex; apply not_elem_of_empty).
    rewrite _render_inner_generic in H by exact Hg.
    rewrite Heq in H.
    destruct (render_attrs h (render_child h reg fuel) attrs type_name budget _)
      as [r c1] eqn:Hattrs.
    simpl in H. injection H as -> _.
    eapply render_attrs_accounted, Hattrs.
  - intros Hgen Hrd Hne.
    destruct (render_child_bounded h reg Hgen) as (L & HL & Hbound).
    exists (attrs_enough type_name attrs L 5).
    intros fuel budget policy c HB Hfuel.
    assert (H40 : 40 <= attrs_enough type_name attrs L 5).
    { unfold attrs_enough. pose proof (len_nonneg attrs).
      pose proof (names_total_nonneg attrs). pose proof (len_nonneg type_name). nia. }
    set (c1 := {| _seen := Some (∅ ∪ {[obj]}); _policy := policy |}).
    destruct (render_attrs_shows_all (render_child h reg fuel) c1 L budget 5 obj)
      with (h := h) (attrs := attrs) (type_name := type_name) (budget := budget)
      as (fulls & Hall & Hs).
    + intros o b Hlt. apply render_child_total; [exact Hgen|exact Hrd|lia|done].
    + intros o b s c' H. eapply Hbound, H.
    + intros b Hb5 Hlt. exists CIRCULAR. split; [|reflexivity].
      apply render_child_on_stack; [exact Hex| |exact Hb5|lia].
      apply elem_of_union. right. by apply elem_of_singleton.
    + lia.
    + lia.
    + exact Hne.
    + lia.
    + exact HB.
    + exists fulls. split; [exact Hall|].
      eapply render_fresh; [unfold MIN_BUDGET; lia|exact Hg|exact Hex|].
      rewrite Heq. exact Hs.
Qed.

Lemma heap_point_generic : forall obj, generic heap_point ∅ obj.
Proof.
  apply generic_empty_registry.
  apply (bool_decide_unpack _). vm_compute. reflexivity.
Qed.

Lemma heap_point_readable : readable heap_point.
Proof.
  apply readable_store.
  apply (bool_decide_unpack _). vm_compute. reflexivity.
Qed.

Lemma C10_namedtuple_attr_bag_witness :
  generic heap_point ∅ 0%N /\
  ob_payload (deref heap_point 0%N) = PTuple [1%N; 2%N] /\
  ty_fields (ob_type (deref heap_point 0%N)) = Some [lit "x"; lit "y"] /\
  NoDup [lit "x"; lit "y"] /\
  py_dict (zip [lit "x"; lit "y"] [1%N; 2%N]) = zip [lit "x"; lit "y"] [1%N; 2%N] /\
  exists B0, forall fuel budget policy c,
    B0 <= budget -> budget <= Z.of_nat fuel ->
    exists fulls,
      Forall2 (full_part (render_child heap_point ∅ fuel))
        (py_dict (zip [lit "x"; lit "y"] [1%N; 2%N])) fulls
      /\ render heap_point ∅ (S fuel) 0%N budget policy c
           = (Ok (lit "Point" ++ lit "(" ++ join (lit ", ") fulls ++ lit ")"), c).
Proof.
  assert (H1 : ob_payload (deref heap_point 0%N) = PTuple [1%N; 2%N]) by reflexivity.
  assert (H2 : ty_fields (ob_type (deref heap_point 0%N)) = Some [lit "x"; lit "y"])
    by reflexivity.
  assert (H3 : NoDup [lit "x"; lit "y"]).
  { apply (bool_decide_unpack _). vm_compute. reflexivity. }
  assert (H4 : py_dict (zip [lit "x"; lit "y"] [1%N; 2%N]) <> []) by discriminate.
  split; [exact (heap_point_generic 0%N)|]. split; [exact H1|]. split; [exact H2|].
  split; [exact H3|].
  destruct (C10_namedtuple_attr_bag heap_point ∅ 0%N [lit "x"; lit "y"] [1%N; 2%N]
              (heap_point_generic 0%N) H1 H2) as (_ & Hord & _ & Hall).
  split; [exact (Hord H3)|].
  exact (Hall heap_point_generic heap_point_readable H4).
Defined.

(** * The formatters, the containers and the optional renderers *)

(** ** Scalars *)

(** An exempt scalar skips the cycle guard: [render] is the generic
    renderer run on it. *)
Lemma render_exempt h reg fuel obj budget policy c :
  MIN_BUDGET <= budget -> generic h reg obj ->
  is_exempt (deref h obj) = true ->
  render h reg (S fuel) obj budget policy c
    = ((_render_generic h (render_child h reg fuel) obj budget
          {| _seen := Some ∅; _policy := policy |}).1, c).
Proof.
  intros Hb Hg Hex. unfold render. rewrite render_session_eq.
  rewrite render_child_S by exact Hb.
  unfold render_child_guarded. rewrite Hex. simpl negb. cbv iota.
  rewrite _render_inner_generic by exact Hg. reflexivity.
Qed.

Lemma slice_to_nonneg {A} (s : list A) (n : Z) :
  0 <= n -> slice_to s n = take (Z.to_nat n) s.
Proof. intros Hn. unfold slice_to. destruct (Z.leb_spec 0 n); [reflexivity|lia]. Qed.

Lemma len_take {A} (s : list A) (k : nat) :
  len (take k s) = Z.min (Z.of_nat k) (len s).
Proof. unfold len. rewrite length_take. lia. Qed.

(** X1. [None], a [bool], an [int] or a [float] whose repr does not fit is
    cut to [budget - 1] characters of the repr followed by the one-character
    ellipsis: the text has exactly [budget] characters. One that fits is
    its repr. *)
Theorem X1_primitive_cut :
  forall h reg fuel obj budget policy c,
    generic h reg obj -> MIN_BUDGET <= budget ->
    is_primitive (ob_payload (deref h obj)) = true ->
    let r := repr_primitive (ob_payload (deref h obj)) in
    exists s,
      render h reg (S fuel) obj budget policy c = (Ok s, c)
      /\ len s = Z.min (len r) budget
      /\ (len r <= budget -> s = r)
      /\ (budget < len r -> s = take (Z.to_nat (budget - 1)) r ++ ELLIPSIS).
Proof.
  intros h reg fuel obj budget policy c Hg Hb Hp r.
  assert (Hex : is_exempt (deref h obj) = true).
  { unfold is_exempt. destruct (ob_payload (deref h obj)); try discriminate; reflexivity. }
  exists (_render_primitive (ob_payload (deref h obj)) budget).
  split.
  { rewrite render_exempt by assumption. unfold _render_generic.
    destruct (ob_payload (deref h obj)); try discriminate; reflexivity. }
  unfold MIN_BUDGET in Hb. unfold _render_primitive. fold r.
  destruct (Z.leb_spec (len r) budget) as [Hfit|Hcut].
  - split; [lia|]. split; [reflexivity|lia].
  - rewrite slice_to_nonneg by lia. split; [|split; [lia|reflexivity]].
    rewrite len_app, len_take. change (len ELLIPSIS) with 1. lia.
Qed.

Lemma X1_primitive_cut_witness :
  generic {[ 0%N := int_ 1234567 ]} ∅ 0%N /\ MIN_BUDGET <= 5 /\
  is_primitive (ob_payload (deref {[ 0%N := int_ 1234567 ]} 0%N)) = true /\
  exists s,
    render {[ 0%N := int_ 1234567 ]} ∅ 1 0%N 5 greedy ctx0 = (Ok s, ctx0)
    /\ len s = Z.min (len (lit "1234567")) 5
    /\ (len (lit "1234567") <= 5 -> s = lit "1234567")
    /\ (5 < len (lit "1234567") -> s = lit "1234" ++ ELLIPSIS).
Proof.
  assert (H1 : generic {[ 0%N := int_ 1234567 ]} ∅ 0%N) by (split; reflexivity).
  assert (H2 : MIN_BUDGET <= 5) by (unfold MIN_BUDGET; lia).
  assert (H3 : is_primitive (ob_payload (deref {[ 0%N := int_ 1234567 ]} 0%N)) = true)
    by reflexivity.
  split; [exact H1|]. split; [exact H2|]. split; [exact H3|].
  exact (X1_primitive_cut {[ 0%N := int_ 1234567 ]} ∅ 0%nat 0%N 5 greedy ctx0 H1 H2 H3).
Defined.




Example str_cut_example :
  (render {[ 0%N := str_ "hello world" ]} ∅ 1 0%N 9 greedy ctx0).1
    = Ok (lit "'hell...'").
Proof. vm_compute. reflexivity. Qed.

(** The repr escapes what is not printable, also past Latin-1: the line
    separator U+2028, the ideographic space U+3000, a lone surrogate and
    the tag character U+E0001; [e] with an acute accent and an emoji stay
    as they are. The cut text holds the characters themselves. *)
Example repr_str_examples :
  repr_str [8232%N] = lit "'\u2028'"
  /\ repr_str [12288%N; 55296%N] = lit "'\u3000\ud800'"
  /\ repr_str [917505%N; 160%N] = lit "'\U000e0001\xa0'"
  /\ repr_str [233%N; 128512%N] = [39%N; 233%N; 128512%N; 39%N]
  /\ _render_str [8232%N; 8232%N; 97%N] 7 = [39%N; 8232%N; 8232%N] ++ lit "...'".
Proof. repeat split; vm_compute; reflexivity. Qed.

(** *** Bytes *)

Lemma repr_bytes_char_plain q c :
  plain_byte c -> q = 39%N \/ q = 34%N -> c <> q -> repr_bytes_char q c = [c].
Proof.
  intros (H32 & H127 & H39 & H92) Hq Hcq. unfold repr_bytes_char.
  assert ((c =? q)%N = false) as -> by (apply N.eqb_neq; exact Hcq).
  assert ((c =? 92)%N = false) as -> by (apply N.eqb_neq; exact H92).
  assert ((c =? 9)%N = false) as -> by (apply N.eqb_neq; lia).
  assert ((c =? 10)%N = false) as -> by (apply N.eqb_neq; lia).
  assert ((c =? 13)%N = false) as -> by (apply N.eqb_neq; lia).
  assert ((c <? 32)%N = false) as -> by (apply N.ltb_ge; lia).
  assert ((127 <=? c)%N = false) as -> by (apply N.leb_gt; lia).
  reflexivity.
Qed.

Lemma repr_quote_plain (b : list N) :
  Forall plain_byte b -> repr_quote b = 39%N.
Proof.
  intros Hb. unfold repr_quote.
  rewrite (bool_decide_eq_false_2 (39%N ∈ b)); [reflexivity|].
  intros Hin. rewrite Forall_forall in Hb. destruct (Hb _ Hin) as (_ & _ & H & _).
  by apply H.
Qed.

Lemma len_repr_bytes_plain (b : list N) :
  Forall plain_byte b -> len (repr_bytes b) = len b + 3.
Proof.
  intros Hb. unfold repr_bytes. rewrite (repr_quote_plain b Hb).
  assert (Hc : concat (List.map (repr_bytes_char 39%N) b) = b).
  { induction Hb as [|c b Hc Hb IH]; [reflexivity|].
    simpl. rewrite IH. rewrite repr_bytes_char_plain; [reflexivity|exact Hc|by left|].
    destruct Hc as (_ & _ & H & _). exact H. }
  rewrite Hc. len_norm. lia.
Qed.

Lemma len_decode_ascii_replace (b : list N) : len (decode_ascii_replace b) = len b.
Proof. unfold decode_ascii_replace, len. rewrite length_map. reflexivity. Qed.

(** X3. A [bytes] value whose repr does not fit a budget of 6 or more keeps
    its first [budget - 5] bytes inside the six-character frame
    [b'...']: the text has [min(len(obj), budget - 5) + 6] characters, at
    most one more than the budget, and exactly one more whenever the value
    has [budget - 5] bytes or more. For a value of plain printable bytes
    this is every time the repr does not fit. *)
Theorem X3_bytes_overrun :
  forall h reg fuel obj budget policy c b,
    generic h reg obj -> 6 <= budget ->
    ob_payload (deref h obj) = PBytes b ->
    budget < len (repr_bytes b) ->
    exists s,
      render h reg (S fuel) obj budget policy c = (Ok s, c)
      /\ s = lit "b'" ++ decode_ascii_replace (take (Z.to_nat (budget - 5)) b)
               ++ lit "...'"
      /\ len s = Z.min (len b) (budget - 5) + 6
      /\ len s <= budget + 1
      /\ (budget - 5 <= len b -> len s = budget + 1)
      /\ (Forall plain_byte b -> len s = budget + 1).
Proof.
  intros h reg fuel obj budget policy c b Hg Hb Hp Hcut.
  assert (Hex : is_exempt (deref h obj) = true)
    by (unfold is_exempt; rewrite Hp; reflexivity).
  exists (_render_bytes b budget). split.
  { rewrite render_exempt by (try assumption; unfold MIN_BUDGET; lia).
    unfold _render_generic. rewrite Hp. reflexivity. }
  unfold _render_bytes.
  destruct (Z.leb_spec (len (repr_bytes b)) budget) as [Hfit|_]; [lia|].
  destruct (Z.ltb_spec budget 6) as [H5|_]; [lia|].
  rewrite slice_to_nonneg by lia. split; [reflexivity|].
  assert (Hlen : len (lit "b'" ++ decode_ascii_replace (take (Z.to_nat (budget - 5)) b)
                        ++ lit "...'") = Z.min (len b) (budget - 5) + 6).
  { rewrite !len_app, len_decode_ascii_replace, len_take. len_norm. lia. }
  rewrite Hlen. split; [reflexivity|]. split; [lia|]. split; [lia|].
  intros Hplain. rewrite (len_repr_bytes_plain b Hplain) in Hcut. lia.
Qed.

Lemma X3_bytes_overrun_witness :
  generic heap_bytes ∅ 0%N /\ 6 <= 6 /\
  ob_payload (deref heap_bytes 0%N) = PBytes (lit "aaaa") /\
  6 < len (repr_bytes (lit "aaaa")) /\
  Forall plain_byte (lit "aaaa") /\
  exists s,
    render heap_bytes ∅ 1 0%N 6 greedy ctx0 = (Ok s, ctx0)
    /\ s = lit "b'" ++ decode_ascii_replace (take (Z.to_nat (6 - 5)) (lit "aaaa"))
             ++ lit "...'"
    /\ len s = Z.min (len (lit "aaaa")) (6 - 5) + 6
    /\ len s <= 6 + 1
    /\ (6 - 5 <= len (lit "aaaa") -> len s = 6 + 1)
    /\ (Forall plain_byte (lit "aaaa") -> len s = 6 + 1).
Proof.
  assert (H1 : generic heap_bytes ∅ 0%N) by (split; reflexivity).
  assert (H2 : 6 <= 6) by lia.
  assert (H3 : ob_payload (deref heap_bytes 0%N) = PBytes (lit "aaaa")) by reflexivity.
  assert (H4 : 6 < len (repr_bytes (lit "aaaa"))) by (vm_compute; reflexivity).
  assert (H5 : Forall plain_byte (lit "aaaa")).
  { change (lit "aaaa") with [97%N; 97%N; 97%N; 97%N].
    repeat (constructor; [unfold plain_byte; lia|]). constructor. }
  split; [exact H1|]. split; [exact H2|]. split; [exact H3|]. split; [exact H4|].
  split; [exact H5|].
  exact (X3_bytes_overrun heap_bytes ∅ 0%nat 0%N 6 greedy ctx0 (lit "aaaa")
           H1 H2 H3 H4).
Defined.

(** ** registry.py *)

(** X4. [register(cls)(fn)] makes [fn] the renderer of every type for which
    [cls] comes first among the registered classes of the MRO, replacing
    a renderer registered for [cls] before; the lookup of a type whose
    MRO does not hold [cls] is unchanged. *)
Theorem X4_register_lookup :
  forall reg cls fn ty,
    (forall pre post,
       ty_mro ty = pre ++ cls :: post ->
       (forall k, k ∈ pre -> reg !! k = None) ->
       get_renderer (register cls fn reg) ty = Some fn)
    /\ (cls ∉ ty_mro ty ->
        get_renderer (register cls fn reg) ty = get_renderer reg ty)
    /\ (forall fn', register cls fn' (register cls fn reg) = register cls fn' reg).
Proof.
  intros reg cls fn ty. split; [|split].
  - intros pre post Hmro Hpre. unfold get_renderer, register. rewrite Hmro.
    clear Hmro. induction pre as [|k pre IH]; simpl.
    + rewrite lookup_insert_eq. reflexivity.
    + destruct (decide (k = cls)) as [->|Hne].
      * rewrite lookup_insert_eq. reflexivity.
      * rewrite lookup_insert_ne by congruence.
        rewrite (Hpre k); [|by left]. apply IH.
        intros k' Hk'. apply Hpre. by right.
  - intros Hnot. unfold get_renderer, register.
    induction (ty_mro ty) as [|k mro IH]; [reflexivity|]. simpl.
    apply not_elem_of_cons in Hnot as [Hne Hnot].
    rewrite lookup_insert_ne by congruence.
    destruct (reg !! k); [reflexivity|]. apply IH, Hnot.
  - intros fn'. unfold register. apply insert_insert_eq.
Qed.

Lemma X4_register_lookup_witness :
  ty_mro ty_Derived = [201%N] ++ 200%N :: [cid_object] /\
  (forall k, k ∈ [201%N] -> (∅ : gmap cid Renderer) !! k = None) /\
  (200%N ∉ ty_mro ty_Foo) /\
  get_renderer (register 200%N render_base ∅) ty_Derived = Some render_base /\
  get_renderer (register 200%N render_base ∅) ty_Foo = get_renderer ∅ ty_Foo.
Proof.
  assert (H1 : ty_mro ty_Derived = [201%N] ++ 200%N :: [cid_object]) by reflexivity.
  assert (H2 : forall k, k ∈ [201%N] -> (∅ : gmap cid Renderer) !! k = None).
  { intros k _. apply lookup_empty. }
  assert (H3 : 200%N ∉ ty_mro ty_Foo).
  { intros Hin. apply list_elem_of_In in Hin. simpl in Hin.
    destruct Hin as [H|[H|[]]]; discriminate. }
  split; [exact H1|]. split; [exact H2|]. split; [exact H3|]. split.
  - exact (proj1 (X4_register_lookup ∅ 200%N render_base ty_Derived)
             [201%N] [cid_object] H1 H2).
  - exact (proj1 (proj2 (X4_register_lookup ∅ 200%N render_base ty_Foo)) H3).
Defined.

(** ** [render_attrs]: every attribute is accounted for *)

(** X5. [render_attrs] keeps every non-negative budget whatever the values
    render to, and its text is the clipped tag [<TypeName>] or the whole
    of [TypeName(...)], in which every attribute is accounted for in
    order: the first [k1] rendered in full as [name=value] (each value
    with a budget of at least 15), the next [k2] as stubs
    [name=<type>] or [name=<type(len)>], and the rest counted by a final
    [...K more] with [K = n - k1 - k2], present exactly when [K > 0]. *)
Theorem X5_render_attrs_accounts :
  forall h rc attrs type_name budget c s c',
    0 <= budget ->
    render_attrs h rc attrs type_name budget c = (Ok s, c') ->
    len s <= budget
    /\ (s = slice_to (lit "<" ++ type_name ++ lit ">") budget
        \/ exists (k1 k2 : nat) fulls,
             (k1 + k2 <= length attrs)%nat
             /\ Forall2 (full_part rc) (take k1 attrs) fulls
             /\ s = type_name ++ lit "("
                      ++ join (lit ", ")
                           (fulls
                            ++ List.map (stub_part h) (take k2 (drop k1 attrs))
                            ++ (if (k1 + k2 <? length attrs)%nat
                                then [more (len attrs - Z.of_nat (k1 + k2))]
                                else []))
                      ++ lit ")").
Proof.
  intros h rc attrs type_name budget c s c' Hb H.
  split; [eapply render_attrs_within; eassumption|].
  unfold render_attrs in H.
  destruct attrs as [|a attrs]; [apply ret_inv in H as [-> ->]; by left|].
  destruct (budget <=? _); [apply ret_inv in H as [-> ->]; by left|].
  apply bind_inv_ok in H as (pol & c1 & _ & H).
  apply bind_inv_ok in H as (p1 & c2 & Hfull & H).
  apply attrs_full_split in Hfull as (k1 & fulls & Hk1 & Hdrop & Hparts & Hall).
  destruct p1 as [[rem1 parts1] rest1]. cbn [fst snd] in *.
  simpl app in Hparts. subst parts1 rest1.
  destruct (attrs_stubs_split h (drop k1 (a :: attrs)) rem1 fulls)
    as (k2 & Hk2 & Hrest & Hstubs).
  rewrite Hrest, Hstubs in H. rewrite length_drop in Hk2.
  rewrite drop_drop in H.
  assert (Hlen : len (drop (k1 + k2) (a :: attrs))
                 = len (a :: attrs) - Z.of_nat (k1 + k2)).
  { unfold len. rewrite length_drop. lia. }
  rewrite Hlen in H.
  destruct (budget <? _) in H; apply ret_inv in H as [-> ->]; [by left|].
  right. exists k1, k2, fulls. split; [lia|]. split; [exact Hall|].
  destruct (Nat.ltb_spec (k1 + k2) (length (a :: attrs))) as [Hlt|Hge];
    destruct (Z.ltb_spec 0 (len (a :: attrs) - Z.of_nat (k1 + k2))) as [Hpos|Hneg];
    unfold len in *; try lia.
  - rewrite <- app_assoc. reflexivity.
  - rewrite app_nil_r. reflexivity.
Qed.

Lemma X5_render_attrs_accounts_witness :
  0 <= 100 /\
  render_attrs heap_point (render_child heap_point ∅ 1)
    [(lit "x", 1%N); (lit "y", 2%N)] (lit "Point") 100
    {| _seen := Some ∅; _policy := greedy |}
    = (Ok (lit "Point(x=1, y=2)"), {| _seen := Some ∅; _policy := greedy |}) /\
  len (lit "Point(x=1, y=2)") <= 100.
Proof.
  assert (H1 : 0 <= 100) by lia.
  assert (H2 : render_attrs heap_point (render_child heap_point ∅ 1)
                 [(lit "x", 1%N); (lit "y", 2%N)] (lit "Point") 100
                 {| _seen := Some ∅; _policy := greedy |}
               = (Ok (lit "Point(x=1, y=2)"), {| _seen := Some ∅; _policy := greedy |}))
    by (vm_compute; reflexivity).
  split; [exact H1|]. split; [exact H2|].
  exact (proj1 (X5_render_attrs_accounts heap_point (render_child heap_point ∅ 1)
                  [(lit "x", 1%N); (lit "y", 2%N)] (lit "Point") 100 _ _ _ H1 H2)).
Defined.

(** ** The wrappers: [deque], [Counter], [defaultdict] *)

(** X6. In the generic fallback and for a budget of 5 or more, below
    the budget that leaves the wrapped container five characters a
    deque, a Counter and a defaultdict whose [default_factory] is [None]
    or has a [__name__] are rendered as their empty shell clipped to the
    budget, whatever they hold and with no count of what is left out:
    [deque()] up to budget 11, [Counter()] up to 13,
    [defaultdict(factory)] up to six characters past the shell. What
    [factory.__name__] raises (the [AttributeError] of a factory without
    a name) reaches the caller at every budget, and what
    [obj.most_common()] raises (the [TypeError] of counts that cannot be
    ordered) reaches it from budget 14 on for a Counter that is not
    empty. *)
Theorem X6_wrapper_shells :
  forall h reg fuel obj budget policy c,
    generic h reg obj -> MIN_BUDGET <= budget ->
    (forall items,
       ob_payload (deref h obj) = PDeque items -> budget <= 11 ->
       render h reg (S fuel) obj budget policy c
         = (Ok (slice_to (lit "deque()") budget), c))
    /\ (forall entries unordered,
          ob_payload (deref h obj) = PCounter entries unordered -> budget <= 13 ->
          render h reg (S fuel) obj budget policy c
            = (Ok (slice_to (lit "Counter()") budget), c))
    /\ (forall factory name items,
          let shell := lit "defaultdict(" ++ name ++ lit ")" in
          ob_payload (deref h obj) = PDefaultDict factory items ->
          factory_name factory = inl name ->
          budget <= len shell + 6 ->
          render h reg (S fuel) obj budget policy c
            = (Ok (slice_to shell budget), c))
    /\ (forall e items,
          ob_payload (deref h obj) = PDefaultDict (Factory (inr e)) items ->
          render h reg (S fuel) obj budget policy c = (Exc e, c))
    /\ (forall e entries,
          ob_payload (deref h obj) = PCounter entries (Some e) ->
          entries <> [] -> 13 < budget ->
          render h reg (S fuel) obj budget policy c = (Exc e, c)).
Proof.
  intros h reg fuel obj budget policy c Hg Hb.
  split; [|split; [|split; [|split]]].
  - intros items Hp H11. apply render_generic_container; try assumption.
    { unfold is_exempt. rewrite Hp. reflexivity. }
    intros c'. unfold _render_generic. rewrite Hp. unfold _render_deque.
    destruct items as [|e items]; [reflexivity|].
    destruct (Z.leb_spec budget (len (lit "deque(" ++ lit ")"))) as [Hle|Hgt];
      [reflexivity|].
    match goal with |- context [?X <? MIN_BUDGET] =>
      destruct (Z.ltb_spec X MIN_BUDGET) as [Hlt|Hge] end; [reflexivity|].
    exfalso. unfold MIN_BUDGET in Hge. len_norm. lia.
  - intros mc srt Hp H13. apply render_generic_container; try assumption.
    { unfold is_exempt. rewrite Hp. reflexivity. }
    intros c'. unfold _render_generic. rewrite Hp. unfold _render_counter.
    destruct mc as [|e mc]; [reflexivity|].
    destruct (Z.leb_spec budget (len (lit "Counter()"))) as [Hle|Hgt];
      [reflexivity|].
    match goal with |- context [?X <? MIN_BUDGET] =>
      destruct (Z.ltb_spec X MIN_BUDGET) as [Hlt|Hge] end; [reflexivity|].
    exfalso. unfold MIN_BUDGET in Hge. len_norm. lia.
  - intros factory name items shell Hp Hname Hlen.
    apply render_generic_container; try assumption.
    { unfold is_exempt. rewrite Hp. reflexivity. }
    intros c'. unfold _render_generic. rewrite Hp. unfold _render_defaultdict.
    rewrite Hname. cbn [of_sum]. rewrite bind_ret_l. fold shell.
    destruct (Z.leb_spec budget (len shell)) as [Hle|Hgt]; [reflexivity|].
    match goal with |- context [?X <? MIN_BUDGET] =>
      destruct (Z.ltb_spec X MIN_BUDGET) as [Hlt|Hge] end; [reflexivity|].
    exfalso. unfold MIN_BUDGET in Hge. subst shell. len_norm. lia.
  - intros e items Hp. unfold render. rewrite render_session_eq.
    rewrite render_child_S by exact Hb.
    rewrite render_child_guarded_fresh
      by (try apply not_elem_of_empty; unfold is_exempt; rewrite Hp; reflexivity).
    rewrite _render_inner_generic by exact Hg.
    unfold _render_generic. rewrite Hp. reflexivity.
  - intros e entries Hp Hne H13. unfold render. rewrite render_session_eq.
    rewrite render_child_S by exact Hb.
    rewrite render_child_guarded_fresh
      by (try apply not_elem_of_empty; unfold is_exempt; rewrite Hp; reflexivity).
    rewrite _render_inner_generic by exact Hg.
    unfold _render_generic. rewrite Hp. unfold _render_counter.
    destruct entries as [|kv entries]; [done|].
    change (len (lit "Counter()")) with 9.
    change (len (lit "Counter(")) with 8. change (len (lit ")")) with 1.
    destruct (Z.leb_spec budget 9); [lia|].
    destruct (Z.ltb_spec (budget - 8 - 1) MIN_BUDGET) as [Hlt|_];
      [unfold MIN_BUDGET in Hlt; lia|].
    reflexivity.
Qed.

Lemma X6_wrapper_shells_witness :
  generic {[ 0%N := Object ty_deque (PDeque [1%N; 2%N]) ]} ∅ 0%N /\
  MIN_BUDGET <= 11 /\
  ob_payload (deref {[ 0%N := Object ty_deque (PDeque [1%N; 2%N]) ]} 0%N)
    = PDeque [1%N; 2%N] /\
  11 <= 11 /\
  render {[ 0%N := Object ty_deque (PDeque [1%N; 2%N]) ]} ∅ 1 0%N 11 greedy ctx0
    = (Ok (slice_to (lit "deque()") 11), ctx0).
Proof.
  assert (H1 : generic {[ 0%N := Object ty_deque (PDeque [1%N; 2%N]) ]} ∅ 0%N)
    by (split; reflexivity).
  assert (H2 : MIN_BUDGET <= 11) by (unfold MIN_BUDGET; lia).
  assert (H3 : ob_payload (deref {[ 0%N := Object ty_deque (PDeque [1%N; 2%N]) ]} 0%N)
               = PDeque [1%N; 2%N]) by reflexivity.
  assert (H4 : 11 <= 11) by lia.
  split; [exact H1|]. split; [exact H2|]. split; [exact H3|]. split; [exact H4|].
  exact (proj1 (X6_wrapper_shells {[ 0%N := Object ty_deque (PDeque [1%N; 2%N]) ]}
                  ∅ 0%nat 0%N 11 greedy ctx0 H1 H2) [1%N; 2%N] H3 H4).
Defined.

(** ** The count tag *)

(** X7. In the generic fallback and for a budget of 5 or more, a
    non-empty list, tuple without [_fields], set or frozenset whose
    budget does not exceed the length of its count tag is rendered as the
    tag clipped to the budget, and a non-empty dict as ["{...}"] below
    the length of its tag and as the tag at exactly that length: no entry
    is looked at, so a value that would raise, or entries whose repr
    would fit the budget, make no difference. *)
Theorem X7_count_tag :
  forall h reg fuel obj budget policy c,
    generic h reg obj -> MIN_BUDGET <= budget ->
    (forall items,
       ob_payload (deref h obj) = PList items -> items <> [] ->
       budget <= len (count_tag (lit "[") (lit "]") (len items)) ->
       render h reg (S fuel) obj budget policy c
         = (Ok (slice_to (count_tag (lit "[") (lit "]") (len items)) budget), c))
    /\ (forall items,
          ob_payload (deref h obj) = PTuple items -> items <> [] ->
          ty_fields (ob_type (deref h obj)) = None ->
          budget <= len (count_tag (lit "(") (lit ")") (len items)) ->
          render h reg (S fuel) obj budget policy c
            = (Ok (slice_to (count_tag (lit "(") (lit ")") (len items)) budget), c))
    /\ (forall items,
          ob_payload (deref h obj) = PSet items -> items <> [] ->
          budget <= len (count_tag (lit "{") (lit "}") (len items)) ->
          render h reg (S fuel) obj budget policy c
            = (Ok (slice_to (count_tag (lit "{") (lit "}") (len items)) budget), c))
    /\ (forall items,
          ob_payload (deref h obj) = PFrozenSet items -> items <> [] ->
          budget <= len (count_tag (lit "frozenset({") (lit "})") (len items)) ->
          render h reg (S fuel) obj budget policy c
            = (Ok (slice_to (count_tag (lit "frozenset({") (lit "})") (len items))
                     budget), c))
    /\ (forall items,
          ob_payload (deref h obj) = PDict items -> items <> [] ->
          (budget < len (count_tag (lit "{") (lit "}") (len items)) ->
           render h reg (S fuel) obj budget policy c = (Ok (lit "{...}"), c))
          /\ (budget = len (count_tag (lit "{") (lit "}") (len items)) ->
              render h reg (S fuel) obj budget policy c
                = (Ok (count_tag (lit "{") (lit "}") (len items)), c))).
Proof.
  intros h reg fuel obj budget policy c Hg Hb.
  assert (Hgo : forall s,
    is_exempt (deref h obj) = false ->
    (forall c', _render_generic h (render_child h reg fuel) obj budget c' = (Ok s, c')) ->
    render h reg (S fuel) obj budget policy c = (Ok s, c)).
  { intros s Hex Hs. by apply render_generic_container. }
  split; [|split; [|split; [|split]]].
  - intros items Hp Hne Hle. apply Hgo; [unfold is_exempt; rewrite Hp; reflexivity|].
    intros c'. unfold _render_generic. rewrite Hp. unfold _render_sequence.
    destruct items as [|e items]; [done|]. unfold count_tag in Hle.
    destruct (Z.leb_spec budget
      (len (lit "[" ++ lit "..." ++ str_of_Z (len (e :: items)) ++ lit " items" ++ lit "]")));
      [reflexivity|lia].
  - intros items Hp Hne Hf Hle. apply Hgo; [unfold is_exempt; rewrite Hp; reflexivity|].
    intros c'. unfold _render_generic. rewrite Hp, Hf. unfold _render_sequence.
    destruct items as [|e items]; [done|]. unfold count_tag in Hle.
    destruct (Z.leb_spec budget
      (len (lit "(" ++ lit "..." ++ str_of_Z (len (e :: items)) ++ lit " items" ++ lit ")")));
      [reflexivity|lia].
  - intros items Hp Hne Hle. apply Hgo; [unfold is_exempt; rewrite Hp; reflexivity|].
    intros c'. unfold _render_generic. rewrite Hp. unfold _render_set.
    destruct items as [|e items]; [done|]. unfold count_tag in Hle.
    destruct (Z.leb_spec budget
      (len (([] ++ lit "{") ++ lit "..." ++ str_of_Z (len (e :: items)) ++ lit " items"
              ++ lit "}" ++ [])));
      [reflexivity|]. exfalso. rewrite app_nil_r in *. simpl app in *. lia.
  - intros items Hp Hne Hle. apply Hgo; [unfold is_exempt; rewrite Hp; reflexivity|].
    intros c'. unfold _render_generic. rewrite Hp. unfold _render_set.
    destruct items as [|e items]; [done|]. unfold count_tag in Hle.
    destruct (Z.leb_spec budget
      (len ((lit "frozenset(" ++ lit "{") ++ lit "..." ++ str_of_Z (len (e :: items))
              ++ lit " items" ++ lit "}" ++ lit ")")));
      [reflexivity|]. exfalso.
    change (lit "frozenset(" ++ lit "{") with (lit "frozenset({") in *.
    change (lit "}" ++ lit ")") with (lit "})") in *. lia.
  - intros items Hp Hne.
    assert (Hex : is_exempt (deref h obj) = false)
      by (unfold is_exempt; rewrite Hp; reflexivity).
    destruct items as [|e items]; [done|]. unfold count_tag.
    split; intros Hlt; apply Hgo; try exact Hex; intros c';
      unfold _render_generic; rewrite Hp; unfold _render_dict.
    + destruct (Z.ltb_spec budget
        (len (lit "{..." ++ str_of_Z (len (e :: items)) ++ lit " items}")));
        [|exfalso; rewrite !len_app in *; len_norm; lia].
      unfold MIN_BUDGET in Hb. destruct (Z.leb_spec 2 budget); [|lia].
      rewrite slice_to_all; [reflexivity|]. vm_compute (len _). lia.
    + destruct (Z.ltb_spec budget
        (len (lit "{..." ++ str_of_Z (len (e :: items)) ++ lit " items}")));
        [exfalso; rewrite !len_app in *; len_norm; lia|].
      destruct (Z.leb_spec budget
        (len (lit "{..." ++ str_of_Z (len (e :: items)) ++ lit " items}")));
        [|exfalso; rewrite !len_app in *; len_norm; lia].
      reflexivity.
Qed.

Lemma X7_count_tag_witness :
  generic heap_raises ∅ 0%N /\ MIN_BUDGET <= 12 /\
  ob_payload (deref heap_raises 0%N) = PList [1%N] /\
  [1%N] <> [] /\
  12 <= len (count_tag (lit "[") (lit "]") (len [1%N])) /\
  render heap_raises ∅ 1 0%N 12 greedy ctx0
    = (Ok (slice_to (count_tag (lit "[") (lit "]") (len [1%N])) 12), ctx0).
Proof.
  assert (H1 : generic heap_raises ∅ 0%N) by (split; reflexivity).
  assert (H2 : MIN_BUDGET <= 12) by (unfold MIN_BUDGET; lia).
  assert (H3 : ob_payload (deref heap_raises 0%N) = PList [1%N]) by reflexivity.
  assert (H4 : [1%N] <> @nil oid) by discriminate.
  assert (H5 : 12 <= len (count_tag (lit "[") (lit "]") (len [1%N])))
    by (vm_compute; discriminate).
  split; [exact H1|]. split; [exact H2|]. split; [exact H3|]. split; [exact H4|].
  split; [exact H5|].
  exact (proj1 (X7_count_tag heap_raises ∅ 0%nat 0%N 12 greedy ctx0 H1 H2)
           [1%N] H3 H4 H5).
Defined.

(** The tag hides a list whose repr would fit, and is returned where a
    larger budget makes [render] raise. *)
Example count_tag_examples :
  (render heap_dag ∅ 5 1%N 9 greedy ctx0).1 = Ok (lit "[...3 ite") /\
  (render heap_dag ∅ 5 1%N 12 greedy ctx0).1 = Ok (lit "[...3 items]") /\
  (render heap_raises ∅ 5 0%N 12 greedy ctx0).1 = Ok (lit "[...1 items]") /\
  (render heap_raises ∅ 5 0%N 100 greedy ctx0).1 = Exc (UserError 7).
Proof. repeat split; vm_compute; reflexivity. Qed.

(** ** [_render_object] *)

Lemma fitting_repr_Some o budget r :
  fitting_repr o budget = Some r ->
  o_is_dataclass o = false /\ o_repr o = Some r
  /\ is_default_repr r = false /\ len r <= budget.
Proof.
  unfold fitting_repr, is_default_repr.
  destruct (o_is_dataclass o); cbn [negb]; [discriminate|].
  destruct (o_repr o) as [r0|]; [|discriminate].
  destruct (startswith (lit "<") r0 && contains (lit " object at 0x") r0) eqn:Hd;
    cbn [negb andb]; [discriminate|].
  destruct (Z.leb_spec (len r0) budget); [|discriminate].
  intros [= <-]. split; [reflexivity|]. split; [reflexivity|].
  split; [exact Hd|assumption].
Qed.




(** One character short, the repr is dropped for the decomposition,
    which leaves the private attribute out. *)
Example object_repr_examples :
  (render heap_money ∅ 2 0%N 12 greedy ctx0).1 = Ok (lit "Money(5 USD)") /\
  (render heap_money ∅ 2 0%N 11 greedy ctx0).1 = Ok (lit "<Money>") /\
  (render heap_money ∅ 2 0%N 60 greedy ctx0).1 = Ok (lit "Money(5 USD)") /\
  (render heap_money ∅ 2 4%N 60 greedy ctx0).1 = Ok (lit "<Vault>").
Proof. repeat split; vm_compute; reflexivity. Qed.

(** *** Attribute discovery *)

Lemma elem_of_dict_set {V} (k : pystr) (v : V) d x :
  x ∈ dict_set k v d -> x = (k, v) \/ x ∈ d.
Proof.
  induction d as [|[k' v'] d IH]; simpl.
  - intros Hx. apply list_elem_of_singleton in Hx. by left.
  - destruct (decide (k = k')) as [->|Hne]; intros Hx;
      apply elem_of_cons in Hx as [->|Hx].
    + by left.
    + right. by right.
    + right. by left.
    + destruct (IH Hx) as [->|Hd]; [by left|]. right. by right.
Qed.

Lemma elem_of_py_dict {V} (pairs : list (pystr * V)) x :
  x ∈ py_dict pairs -> x ∈ pairs.
Proof.
  unfold py_dict.
  assert (Hgen : forall acc,
    x ∈ fold_left (fun d kv => dict_set kv.1 kv.2 d) pairs acc ->
    x ∈ acc \/ x ∈ pairs).
  { induction pairs as [|[k v] pairs IH]; intros acc Hx; simpl in Hx; [by left|].
    destruct (IH _ Hx) as [Hacc|Hin]; [|right; by right].
    apply elem_of_dict_set in Hacc as [->|Hacc]; [right; by left|by left]. }
  intros Hx. destruct (Hgen [] Hx) as [Hnil|Hin]; [|exact Hin].
  by apply elem_of_nil in Hnil.
Qed.

Lemma NoDup_fst_filter {V} (P : pystr * V -> bool) (l : list (pystr * V)) :
  NoDup l.*1 -> NoDup (List.filter P l).*1.
Proof.
  induction l as [|[k v] l IH]; simpl; intros Hnd; [constructor|].
  apply NoDup_cons in Hnd as [Hk Hl].
  destruct (P (k, v)); [|by apply IH]. simpl. constructor; [|by apply IH].
  intros Hin. apply Hk. apply list_elem_of_fmap in Hin as ([k' v'] & -> & Hin).
  apply list_elem_of_In, filter_In in Hin as [Hin _].
  apply list_elem_of_fmap. exists (k', v'). split; [reflexivity|].
  by apply list_elem_of_In.
Qed.

Lemma fitting_repr_unused o budget :
  (forall r, o_repr o = Some r -> is_default_repr r = true \/ budget < len r) ->
  fitting_repr o budget = None.
Proof.
  intros Hr. destruct (fitting_repr o budget) as [r|] eqn:Hfit; [|reflexivity].
  apply fitting_repr_Some in Hfit as (_ & Hrepr & Hdef & Hlen).
  destruct (Hr r Hrepr) as [Hd|Hlong]; [congruence|lia].
Qed.

(** X9. In the generic fallback and for a budget of 5 or more, an
    object that is not a dataclass, has a [__dict__] and whose repr is
    not used (it raises, is the default one or does not fit) is rendered
    exactly as [render_attrs] renders the entries of [vars(obj)] whose
    names do not start with an underscore, in their order, under the name
    of its type and with the object on the cycle guard: the private
    attributes and [__slots__] play no part. When every attribute is
    private the text is the tag [<TypeName>] clipped to the budget, not
    [TypeName()]. *)
Theorem X9_object_private_hidden :
  forall h reg fuel obj budget policy c o vars,
    generic h reg obj -> MIN_BUDGET <= budget ->
    ob_payload (deref h obj) = PObject o ->
    o_is_dataclass o = false -> o_dict o = Some vars ->
    NoDup vars.*1 ->
    (forall r, o_repr o = Some r -> is_default_repr r = true \/ budget < len r) ->
    let public := List.filter (fun kv : pystr * oid => negb (is_private kv.1)) vars in
    render h reg (S fuel) obj budget policy c
      = ((render_attrs h (render_child h reg fuel) public
            (ty_name (ob_type (deref h obj))) budget
            {| _seen := Some {[obj]}; _policy := policy |}).1, c)
    /\ (Forall (fun kv : pystr * oid => is_private kv.1 = true) vars ->
        render h reg (S fuel) obj budget policy c
          = (Ok (slice_to (lit "<" ++ ty_name (ob_type (deref h obj)) ++ lit ">")
                   budget), c)).
Proof.
  intros h reg fuel obj budget policy c o vars Hg Hb Hp Hdc Hvars Hnd Hrepr public.
  assert (Heq : render h reg (S fuel) obj budget policy c
      = ((render_attrs h (render_child h reg fuel) public
            (ty_name (ob_type (deref h obj))) budget
            {| _seen := Some {[obj]}; _policy := policy |}).1, c)).
  { unfold render. rewrite render_session_eq. f_equal.
    rewrite render_child_S by exact Hb.
    rewrite render_child_guarded_fresh
      by (try apply not_elem_of_empty; unfold is_exempt; rewrite Hp; reflexivity).
    cbn [fst]. rewrite (left_id_L ∅ (∪)).
    rewrite _render_inner_generic by exact Hg.
    unfold _render_generic. rewrite Hp. unfold _render_object.
    rewrite (fitting_repr_unused o budget Hrepr).
    unfold discover_attrs. rewrite Hdc, Hvars. cbn [andb of_sum].
    rewrite bind_ret_l.
    rewrite (py_dict_nodup _ (NoDup_fst_filter _ _ Hnd)). reflexivity. }
  split; [exact Heq|].
  intros Hall. rewrite Heq.
  assert (Hnone : public = []).
  { subst public. clear -Hall. induction Hall as [|kv vars Hkv _ IH]; [reflexivity|].
    simpl. rewrite Hkv. exact IH. }
  rewrite Hnone. reflexivity.
Qed.

Lemma X9_object_private_hidden_witness :
  generic heap_money ∅ 0%N /\ MIN_BUDGET <= 11 /\
  NoDup [(lit "amount", 1%N); (lit "_cache", 2%N); (lit "currency", 3%N)].*1 /\
  render heap_money ∅ 2 0%N 11 greedy ctx0
    = ((render_attrs heap_money (render_child heap_money ∅ 1)
          [(lit "amount", 1%N); (lit "currency", 3%N)] (lit "Money") 11
          {| _seen := Some {[0%N]}; _policy := greedy |}).1, ctx0).
Proof.
  assert (H1 : generic heap_money ∅ 0%N) by (split; reflexivity).
  assert (H2 : MIN_BUDGET <= 11) by (unfold MIN_BUDGET; lia).
  assert (H3 : NoDup [(lit "amount", 1%N); (lit "_cache", 2%N);
                      (lit "currency", 3%N)].*1).
  { apply (bool_decide_unpack _). vm_compute. reflexivity. }
  assert (H4 : forall r, Some (lit "Money(5 USD)") = Some r ->
                 is_default_repr r = true \/ 11 < len r).
  { intros r [= <-]. right. vm_compute. reflexivity. }
  split; [exact H1|]. split; [exact H2|]. split; [exact H3|].
  exact (proj1 (X9_object_private_hidden heap_money ∅ 1%nat 0%N 11 greedy ctx0
                  _ _ H1 H2 eq_refl eq_refl eq_refl H3 H4)).
Defined.

(** With room the decomposition shows the public attributes only. *)
Example object_private_examples :
  (render heap_money ∅ 2 0%N 11 greedy ctx0).1 = Ok (lit "<Money>") /\
  (render heap_pair ∅ 2 0%N 200 greedy ctx0).1
    = Ok (lit "Pair(left='aaaaaaaaaaaaaaaaaaaaaaaaaaaaaaaaaaaaaaaa', right='bbbbbbbbbbbbbbbbbbbbbbbbbbbbbbbbbbbbbbbb')").
Proof. split; vm_compute; reflexivity. Qed.

(** ** What a sequence and a dict show *)

Lemma sequence_head_prefix rc n items remaining head_parts head_idx c hd c' :
  _render_sequence_head rc n items remaining head_parts head_idx c = (Ok hd, c') ->
  exists (k : nat) heads,
    (k <= length items)%nat
    /\ hd.1.2 = head_parts ++ heads
    /\ hd.2 = head_idx + Z.of_nat k
    /\ Forall2 (rendered_as rc MIN_CHILD_BUDGET) (take k items) heads.
Proof.
  revert remaining head_parts head_idx c.
  induction items as [|item items IH]; intros remaining head_parts head_idx c H;
    simpl in H.
  - apply ret_inv in H as [-> ->]. exists 0%nat, []. simpl.
    rewrite app_nil_r. split; [lia|]. split; [reflexivity|].
    split; [lia|constructor].
  - match type of H with context [?X <? MIN_CHILD_BUDGET] =>
      destruct (Z.ltb_spec X MIN_CHILD_BUDGET) as [Hlt|Hge] end.
    + apply ret_inv in H as [-> ->]. exists 0%nat, []. simpl.
      rewrite app_nil_r. split; [lia|]. split; [reflexivity|].
      split; [lia|constructor].
    + apply bind_inv_ok in H as (part & c1 & Hpart & H).
      apply IH in H as (k & heads & Hk & Hparts & Hidx & Hall).
      exists (S k), (part :: heads). simpl. split; [lia|].
      split; [rewrite Hparts, <- app_assoc; reflexivity|].
      split; [lia|]. constructor; [|exact Hall].
      eexists _, c, c1. split; [exact Hge|exact Hpart].
Qed.

(** X10. Past its count tag, a list or tuple is rendered as its first [k]
    entries in order, then the count of what is left out when anything
    is, then possibly its last entry, which is shown only when at least
    two entries would otherwise be left out: nothing is reordered and no
    entry in the middle is shown. Every entry shown was rendered with a
    budget of at least 15. *)
Theorem X10_sequence_shows_prefix :
  forall rc (is_tuple : bool) obj budget c s c',
    let open_b := if is_tuple then lit "(" else lit "[" in
    let close_b := if is_tuple then lit ")" else lit "]" in
    _render_sequence rc is_tuple obj budget c = (Ok s, c') ->
    len (count_tag open_b close_b (len obj)) < budget ->
    exists (k : nat) heads tail,
      (k + length tail <= length obj)%nat
      /\ Forall2 (rendered_as rc MIN_CHILD_BUDGET) (take k obj) heads
      /\ (tail = []
          \/ exists item t,
               last obj = Some item /\ tail = [t]
               /\ rendered_as rc MIN_CHILD_BUDGET item t
               /\ (k + 2 <= length obj)%nat)
      /\ s = open_b
               ++ join (lit ", ")
                    (heads
                     ++ (if (k + length tail <? length obj)%nat
                         then [more (len obj - Z.of_nat (k + length tail))]
                         else [])
                     ++ tail)
               ++ close_b.
Proof.
  intros rc is_tuple obj budget c s c' open_b close_b H Htag.
  unfold _render_sequence in H. fold open_b close_b in H.
  destruct obj as [|e obj].
  { apply ret_inv in H as [-> ->]. exists 0%nat, [], []. simpl.
    split; [lia|]. split; [constructor|]. split; [by left|reflexivity]. }
  unfold count_tag in Htag.
  match type of H with context [budget <=? ?X] =>
    destruct (Z.leb_spec budget X) as [Hle|_]; [lia|] end.
  apply bind_inv_ok in H as (l & c1 & Hl & Hret); apply ret_inv in Hret as [-> ->].
  unfold _render_sequence_layout in Hl.
  apply bind_inv_ok in Hl as (hd & c2 & Hloop & Hl).
  apply sequence_head_prefix in Hloop as (k & heads & Hk & Hparts & Hidx & Hall).
  simpl app in Hparts. rewrite Z.add_0_l in Hidx.
  destruct hd as [[rem1 parts1] idx1]. cbn [fst snd] in *. subst parts1 idx1.
  set (n := len (e :: obj)) in *.
  assert (Hn : n = Z.of_nat (length (e :: obj))) by reflexivity.
  assert (Hplain :
    exists (k0 : nat) heads0 tail,
      (k0 + length tail <= length (e :: obj))%nat
      /\ Forall2 (rendered_as rc MIN_CHILD_BUDGET) (take k0 (e :: obj)) heads0
      /\ (tail = []
          \/ exists item t,
               last (e :: obj) = Some item /\ tail = [t]
               /\ rendered_as rc MIN_CHILD_BUDGET item t
               /\ (k0 + 2 <= length (e :: obj))%nat)
      /\ open_b
           ++ join (lit ", ")
                (all_parts {| head_parts := heads; omitted := n - Z.of_nat k;
                              tail_parts := [] |})
           ++ close_b
         = open_b
             ++ join (lit ", ")
                  (heads0
                   ++ (if (k0 + length tail <? length (e :: obj))%nat
                       then [more (n - Z.of_nat (k0 + length tail))]
                       else [])
                   ++ tail)
             ++ close_b).
  { exists k, heads, []. change (length (@nil pystr)) with 0%nat.
    split; [lia|].
    split; [exact Hall|]. split; [by left|].
    unfold all_parts. cbn [head_parts omitted tail_parts].
    change (length (@nil pystr)) with 0%nat. rewrite Nat.add_0_r.
    destruct (Nat.ltb_spec k (length (e :: obj)));
      destruct (Z.ltb_spec 0 (n - Z.of_nat k)); try lia; reflexivity. }
  destruct (Z.ltb_spec 1 (n - Z.of_nat k)) as [Hom|Hom]; cbn [andb] in Hl.
  - destruct (MIN_CHILD_BUDGET + 15 <? rem1).
    + match type of Hl with context [MIN_CHILD_BUDGET <=? ?X] =>
        destruct (Z.leb_spec MIN_CHILD_BUDGET X) as [Hge|Hlt] end.
      * destruct (last (e :: obj)) as [item|] eqn:Hlast; [|discriminate].
        apply bind_inv_ok in Hl as (tail_r & c3 & Htail & Hret);
          apply ret_inv in Hret as [-> ->].
        exists k, heads, [tail_r].
        change (length [tail_r]) with 1%nat. split; [lia|].
        split; [exact Hall|]. split.
        { right. exists item, tail_r. split; [reflexivity|]. split; [reflexivity|].
          split; [|lia].
          eexists _, c2, _. split; [exact Hge|exact Htail]. }
        unfold all_parts. cbn [head_parts omitted tail_parts].
        change (length [tail_r]) with 1%nat.
        destruct (Nat.ltb_spec (k + 1) (length (e :: obj)));
          destruct (Z.ltb_spec 0 (n - Z.of_nat k - 1)); try lia.
        replace (n - Z.of_nat (k + 1)) with (n - Z.of_nat k - 1) by lia.
        reflexivity.
      * apply ret_inv in Hl as [-> ->]. exact Hplain.
    + apply ret_inv in Hl as [-> ->]. exact Hplain.
  - apply ret_inv in Hl as [-> ->]. exact Hplain.
Qed.

Lemma X10_sequence_shows_prefix_witness :
  _render_sequence (render_child heap_range10 ∅ 1) false
      (List.map N.of_nat (seq 0 10)) 40 {| _seen := Some ∅; _policy := greedy |}
    = (Ok (lit "[0, 1, 2, 3, 4, ...5 more]"), {| _seen := Some ∅; _policy := greedy |})
  /\ len (count_tag (lit "[") (lit "]") (len (List.map N.of_nat (seq 0 10)))) < 40
  /\ exists (k : nat) heads tail,
       (k + length tail <= length (List.map N.of_nat (seq 0 10)))%nat
       /\ Forall2 (rendered_as (render_child heap_range10 ∅ 1) MIN_CHILD_BUDGET)
            (take k (List.map N.of_nat (seq 0 10))) heads
       /\ (tail = []
           \/ exists item t,
                last (List.map N.of_nat (seq 0 10)) = Some item /\ tail = [t]
                /\ rendered_as (render_child heap_range10 ∅ 1) MIN_CHILD_BUDGET item t
                /\ (k + 2 <= length (List.map N.of_nat (seq 0 10)))%nat)
       /\ lit "[0, 1, 2, 3, 4, ...5 more]"
          = lit "["
              ++ join (lit ", ")
                   (heads
                    ++ (if (k + length tail <? length (List.map N.of_nat (seq 0 10)))%nat
                        then [more (len (List.map N.of_nat (seq 0 10))
                                    - Z.of_nat (k + length tail))]
                        else [])
                    ++ tail)
              ++ lit "]".
Proof.
  assert (H1 : _render_sequence (render_child heap_range10 ∅ 1) false
                 (List.map N.of_nat (seq 0 10)) 40
                 {| _seen := Some ∅; _policy := greedy |}
               = (Ok (lit "[0, 1, 2, 3, 4, ...5 more]"),
                  {| _seen := Some ∅; _policy := greedy |}))
    by (vm_compute; reflexivity).
  assert (H2 : len (count_tag (lit "[") (lit "]")
                      (len (List.map N.of_nat (seq 0 10)))) < 40)
    by (vm_compute; reflexivity).
  split; [exact H1|]. split; [exact H2|].
  exact (X10_sequence_shows_prefix (render_child heap_range10 ∅ 1) false
           (List.map N.of_nat (seq 0 10)) 40 _ _ _ H1 H2).
Defined.

Lemma dict_loop_prefix rc n items remaining parts shown c ps c' :
  _render_dict_loop rc n items remaining parts shown c = (Ok ps, c') ->
  exists (k : nat) entries,
    (k <= length items)%nat
    /\ ps.1 = parts ++ entries
    /\ ps.2 = shown + Z.of_nat k
    /\ Forall2 (entry_part rc) (take k items) entries.
Proof.
  revert remaining parts shown c.
  induction items as [|[key value] items IH]; intros remaining parts shown c H;
    simpl in H.
  - apply ret_inv in H as [-> ->]. exists 0%nat, []. simpl.
    rewrite app_nil_r. split; [lia|]. split; [reflexivity|].
    split; [lia|constructor].
  - apply bind_inv_ok in H as (key_r & c1 & Hkey & H).
    match type of H with context [?X <? MIN_CHILD_BUDGET] =>
      destruct (Z.ltb_spec X MIN_CHILD_BUDGET) as [Hlt|Hge] end.
    + apply ret_inv in H as [-> ->]. exists 0%nat, []. simpl.
      rewrite app_nil_r. split; [lia|]. split; [reflexivity|].
      split; [lia|constructor].
    + apply bind_inv_ok in H as (val_r & c2 & Hval & H).
      apply IH in H as (k & entries & Hk & Hparts & Hidx & Hall).
      exists (S k), (((key_r ++ lit ": ") ++ val_r) :: entries). simpl.
      split; [lia|].
      split; [rewrite Hparts, <- app_assoc; reflexivity|].
      split; [lia|]. constructor; [|exact Hall].
      eexists key_r, val_r, _, c, c1. split; [apply Z.le_min_r|].
      split; [exact Hkey|]. split.
      * eexists _, c1, c2. split; [exact Hge|exact Hval].
      * simpl. rewrite <- app_assoc. reflexivity.
Qed.

(** X11. Past its count tag, a dict is rendered as its first [k] entries in
    insertion order, each as [key: value] with the key rendered in a
    budget of at most 40 and the value in one of at least 15, followed by
    the count of the entries left out when there are any. *)
Theorem X11_dict_shows_prefix :
  forall rc obj budget c s c',
    _render_dict rc obj budget c = (Ok s, c') ->
    len (count_tag (lit "{") (lit "}") (len obj)) < budget ->
    exists (k : nat) entries,
      (k <= length obj)%nat
      /\ Forall2 (entry_part rc) (take k obj) entries
      /\ s = lit "{"
               ++ join (lit ", ")
                    (entries
                     ++ (if (k <? length obj)%nat
                         then [more (len obj - Z.of_nat k)] else []))
               ++ lit "}".
Proof.
  intros rc obj budget c s c' H Htag. unfold _render_dict in H.
  destruct obj as [|e obj].
  { apply ret_inv in H as [-> ->]. exists 0%nat, []. simpl.
    split; [lia|]. split; [constructor|reflexivity]. }
  unfold count_tag in Htag.
  match type of H with context [budget <? ?X] =>
    destruct (Z.ltb_spec budget X) as [Hlt|_];
      [exfalso; rewrite !len_app in *; len_norm; lia|] end.
  match type of H with context [budget <=? ?X] =>
    destruct (Z.leb_spec budget X) as [Hle|_];
      [exfalso; rewrite !len_app in *; len_norm; lia|] end.
  apply bind_inv_ok in H as (l & c1 & Hl & Hret); apply ret_inv in Hret as [-> ->].
  unfold _render_dict_layout in Hl.
  apply bind_inv_ok in Hl as (ps & c2 & Hloop & Hret); apply ret_inv in Hret as [-> ->].
  apply dict_loop_prefix in Hloop as (k & entries & Hk & Hparts & Hidx & Hall).
  simpl app in Hparts. rewrite Z.add_0_l in Hidx.
  exists k, entries. split; [exact Hk|]. split; [exact Hall|].
  unfold all_parts. cbn [head_parts omitted tail_parts]. rewrite Hparts, Hidx.
  rewrite app_nil_r.
  assert (Hn : len (e :: obj) = Z.of_nat (length (e :: obj))) by reflexivity.
  destruct (Nat.ltb_spec k (length (e :: obj)));
    destruct (Z.ltb_spec 0 (len (e :: obj) - Z.of_nat k)); try lia; reflexivity.
Qed.

Lemma X11_dict_shows_prefix_witness :
  _render_dict (render_child heap_ages ∅ 1) [(1%N, 2%N); (3%N, 4%N)] 100
      {| _seen := Some ∅; _policy := greedy |}
    = (Ok (lit "{'a': 1, 'b': 2}"), {| _seen := Some ∅; _policy := greedy |})
  /\ len (count_tag (lit "{") (lit "}") (len [(1%N, 2%N); (3%N, 4%N)])) < 100
  /\ exists (k : nat) entries,
       (k <= length [(1%N, 2%N); (3%N, 4%N)])%nat
       /\ Forall2 (entry_part (render_child heap_ages ∅ 1))
            (take k [(1%N, 2%N); (3%N, 4%N)]) entries
       /\ lit "{'a': 1, 'b': 2}"
          = lit "{"
              ++ join (lit ", ")
                   (entries
                    ++ (if (k <? length [(1%N, 2%N); (3%N, 4%N)])%nat
                        then [more (len [(1%N, 2%N); (3%N, 4%N)] - Z.of_nat k)]
                        else []))
              ++ lit "}".
Proof.
  assert (H1 : _render_dict (render_child heap_ages ∅ 1) [(1%N, 2%N); (3%N, 4%N)] 100
                 {| _seen := Some ∅; _policy := greedy |}
               = (Ok (lit "{'a': 1, 'b': 2}"),
                  {| _seen := Some ∅; _policy := greedy |}))
    by (vm_compute; reflexivity).
  assert (H2 : len (count_tag (lit "{") (lit "}")
                      (len [(1%N, 2%N); (3%N, 4%N)])) < 100)
    by (vm_compute; reflexivity).
  split; [exact H1|]. split; [exact H2|].
  exact (X11_dict_shows_prefix (render_child heap_ages ∅ 1)
           [(1%N, 2%N); (3%N, 4%N)] 100 _ _ _ H1 H2).
Defined.

(** ** How much room a sequence needs *)




(** [render([1, 2, 3], budget)]: the repr has nine characters and is
    shown from budget 31. *)
Example min_room_examples :
  (render heap_dag ∅ 5 1%N 27 greedy ctx0).1 = Ok (lit "[...3 more]") /\
  (render heap_dag ∅ 5 1%N 28 greedy ctx0).1 = Ok (lit "[1, ...2 more]") /\
  (render heap_dag ∅ 5 1%N 30 greedy ctx0).1 = Ok (lit "[1, ...2 more]") /\
  (render heap_dag ∅ 5 1%N 31 greedy ctx0).1 = Ok (lit "[1, 2, 3]").
Proof. repeat split; vm_compute; reflexivity. Qed.

(** ** A flat container with room is its repr *)

Lemma render_child_scalar h reg fuel item b c r :
  generic h reg item -> repr_scalar (deref h item) = Some r ->
  len r <= b -> MIN_BUDGET <= b ->
  render_child h reg (S fuel) item b c = (Ok r, c).
Proof.
  intros Hg Hr Hfit Hb. rewrite render_child_S by exact Hb.
  unfold render_child_guarded.
  assert (Hex : is_exempt (deref h item) = true).
  { unfold repr_scalar in Hr. unfold is_exempt.
    destruct (ob_payload (deref h item)); try discriminate; reflexivity. }
  rewrite Hex. cbn [negb]. rewrite _render_inner_generic by exact Hg.
  unfold _render_generic. unfold repr_scalar in Hr.
  destruct (ob_payload (deref h item)) eqn:Hp; try discriminate;
    injection Hr as <-;
    unfold _render_primitive, _render_str, _render_bytes;
    match goal with |- context [?a <=? b] =>
      destruct (Z.leb_spec a b) as [_|Hgt]; [reflexivity|] end;
    exfalso; cbn [repr_primitive] in *; lia.
Qed.

Lemma join_cons_cons sep (p q : pystr) rest :
  join sep (p :: q :: rest) = p ++ sep ++ join sep (q :: rest).
Proof. reflexivity. Qed.

Lemma joined_cost_cons parts r rs :
  joined_cost parts (r :: rs)
    = sep_cost_of parts + len r + joined_cost (parts ++ [r]) rs.
Proof.
  unfold joined_cost. destruct rs as [|r' rs]; [simpl join; lia|].
  rewrite join_cons_cons, sep_cost_of_snoc, !len_app. len_norm. lia.
Qed.

Lemma joined_cost_nonneg parts reprs : 0 <= joined_cost parts reprs.
Proof.
  unfold joined_cost. destruct reprs as [|r reprs]; [lia|].
  pose proof (sep_cost_of_nonneg parts).
  pose proof (len_nonneg (join (lit ", ") (r :: reprs))). lia.
Qed.

Lemma sequence_head_scalars h reg fuel c n :
  forall items reprs remaining parts idx,
    Forall2 (fun item r => generic h reg item
                           /\ repr_scalar (deref h item) = Some r) items reprs ->
    0 <= idx -> idx + len items <= n ->
    joined_cost parts reprs + n + 26 <= remaining ->
    exists rem',
      _render_sequence_head (render_child h reg (S fuel)) n items remaining parts idx c
        = (Ok (rem', parts ++ reprs, idx + len items), c).
Proof.
  intros items reprs remaining parts idx Hall.
  revert remaining parts idx.
  induction Hall as [|item r items reprs [Hg Hr] Hall IH];
    intros remaining parts idx Hidx Hn Hroom.
  - exists remaining. simpl. rewrite app_nil_r, len_nil, Z.add_0_r. reflexivity.
  - rewrite joined_cost_cons in Hroom. rewrite len_cons in Hn.
    pose proof (len_nonneg items) as Hitems.
    pose proof (joined_cost_nonneg (parts ++ [r]) reprs) as Hcost.
    pose proof (len_nonneg r) as Hlr.
    assert (Hres : reserve_of (n - idx - 0) <= n + 11)
      by (apply reserve_of_le; lia).
    cbn [_render_sequence_head].
    set (available := remaining - sep_cost_of parts - reserve_of (n - idx - 0)) in *.
    destruct (Z.ltb_spec available MIN_CHILD_BUDGET) as [Hlt|Hge];
      [unfold MIN_CHILD_BUDGET in Hlt; lia|].
    rewrite (bind_ok _ _ c r c).
    2:{ unfold MIN_CHILD_BUDGET in Hge.
        apply render_child_scalar; try assumption; unfold MIN_BUDGET; lia. }
    destruct (IH (remaining - (len r + sep_cost_of parts)) (parts ++ [r]) (idx + 1))
      as [rem' Hloop]; [lia|lia|lia|].
    exists rem'. rewrite Hloop. rewrite <- app_assoc, len_cons.
    do 3 f_equal. lia.
Qed.

(** X13. In the generic fallback, with [n + 26] characters to spare
    beyond its repr a list or a tuple without [_fields] whose [n] entries
    are scalars ([None], booleans, numbers, strings, bytes) is rendered
    as the reprs of its entries joined by [", "] inside its brackets: no
    entry is cut, none is left out. (A one-entry tuple has no trailing
    comma.) *)
Theorem X13_flat_sequence_repr :
  forall h reg fuel obj budget policy c (is_tuple : bool) items reprs,
    let open_b := if is_tuple then lit "(" else lit "[" in
    let close_b := if is_tuple then lit ")" else lit "]" in
    generic h reg obj ->
    ob_payload (deref h obj) = (if is_tuple then PTuple items else PList items) ->
    ty_fields (ob_type (deref h obj)) = None ->
    Forall2 (fun item r => generic h reg item
                           /\ repr_scalar (deref h item) = Some r) items reprs ->
    len (open_b ++ join (lit ", ") reprs ++ close_b) + len items + 26 <= budget ->
    render h reg (S (S fuel)) obj budget policy c
      = (Ok (open_b ++ join (lit ", ") reprs ++ close_b), c).
Proof.
  intros h reg fuel obj budget policy c is_tuple items reprs open_b close_b
    Hg Hp Hf Hall Hroom.
  pose proof (len_nonneg items) as Hitems.
  pose proof (len_nonneg (join (lit ", ") reprs)) as Hjoin.
  assert (Hbr : len open_b = 1 /\ len close_b = 1)
    by (subst open_b close_b; destruct is_tuple; split; reflexivity).
  rewrite !len_app in Hroom.
  apply render_generic_container; try assumption.
  { unfold MIN_BUDGET. lia. }
  { unfold is_exempt. rewrite Hp. destruct is_tuple; reflexivity. }
  intros c'.
  assert (Hseq : _render_generic h (render_child h reg (S fuel)) obj budget
                 = _render_sequence (render_child h reg (S fuel)) is_tuple items budget).
  { unfold _render_generic. rewrite Hp. destruct is_tuple; [rewrite Hf|]; reflexivity. }
  rewrite Hseq. unfold _render_sequence. fold open_b close_b.
  destruct items as [|e items].
  { apply Forall2_nil_inv_l in Hall. subst reprs. reflexivity. }
  set (n := len (e :: items)) in *.
  pose proof (len_str_of_Z n Hitems) as Hdigits.
  match goal with |- context [budget <=? ?X] =>
    destruct (Z.leb_spec budget X) as [Hle|_];
      [exfalso; rewrite !len_app in Hle; len_norm; lia|] end.
  unfold _render_sequence_layout. fold n.
  destruct (sequence_head_scalars h reg fuel c' n (e :: items) reprs (budget - 2) [] 0 Hall)
    as [rem' Hloop]; [lia|fold n; lia| |].
  { unfold joined_cost. destruct reprs; simpl sep_cost_of; lia. }
  rewrite bind_assoc_at, (bind_ok _ _ _ _ _ Hloop). cbn [fst snd]. fold n.
  rewrite Z.add_0_l.
  destruct (Z.ltb_spec 1 (n - n)) as [Hbad|_]; [lia|]. cbn [andb].
  rewrite bind_ret_l. unfold all_parts. cbn [head_parts omitted tail_parts].
  destruct (Z.ltb_spec 0 (n - n)) as [Hbad|_]; [lia|].
  simpl app. rewrite app_nil_r. reflexivity.
Qed.

Lemma X13_flat_sequence_repr_witness :
  generic heap_dag ∅ 1%N /\
  ob_payload (deref heap_dag 1%N) = PList [2%N; 3%N; 4%N] /\
  Forall2 (fun item r => generic heap_dag ∅ item
                         /\ repr_scalar (deref heap_dag item) = Some r)
    [2%N; 3%N; 4%N] [lit "1"; lit "2"; lit "3"] /\
  len (lit "[" ++ join (lit ", ") [lit "1"; lit "2"; lit "3"] ++ lit "]")
    + len [2%N; 3%N; 4%N] + 26 <= 38 /\
  render heap_dag ∅ 2 1%N 38 greedy ctx0
    = (Ok (lit "[" ++ join (lit ", ") [lit "1"; lit "2"; lit "3"] ++ lit "]"), ctx0).
Proof.
  assert (H1 : generic heap_dag ∅ 1%N) by (split; reflexivity).
  assert (H2 : ob_payload (deref heap_dag 1%N) = PList [2%N; 3%N; 4%N]) by reflexivity.
  assert (H3 : Forall2 (fun item r => generic heap_dag ∅ item
                                      /\ repr_scalar (deref heap_dag item) = Some r)
                 [2%N; 3%N; 4%N] [lit "1"; lit "2"; lit "3"]).
  { repeat (constructor; [split; [split; reflexivity|reflexivity]|]). constructor. }
  assert (H4 : len (lit "[" ++ join (lit ", ") [lit "1"; lit "2"; lit "3"] ++ lit "]")
               + len [2%N; 3%N; 4%N] + 26 <= 38) by (vm_compute; discriminate).
  split; [exact H1|]. split; [exact H2|]. split; [exact H3|]. split; [exact H4|].
  exact (X13_flat_sequence_repr heap_dag ∅ 0%nat 1%N 38 greedy ctx0 false
           [2%N; 3%N; 4%N] [lit "1"; lit "2"; lit "3"] H1 H2 eq_refl H3 H4).
Defined.

(** ** The budget is kept up to one character *)

Lemma _render_bytes_within_one obj budget :
  0 <= budget -> len (_render_bytes obj budget) <= budget + 1.
Proof.
  intros Hb. unfold _render_bytes.
  destruct (Z.leb_spec (len (repr_bytes obj)) budget); [lia|].
  destruct (Z.ltb_spec budget 6).
  { pose proof (len_slice_to (repr_bytes obj) budget Hb). lia. }
  rewrite !len_app, len_decode_ascii_replace.
  pose proof (len_slice_to obj (budget - 5)). len_norm. lia.
Qed.

Section WithinOne.

Variable h : gmap oid object.
Variable rc : oid -> Z -> M pystr.
Hypothesis rc_within_one : within_one rc.

Lemma dict_loop_within_one n items remaining parts shown c ps c' :
  _render_dict_loop rc n items remaining parts shown c = (Ok ps, c') ->
  closing parts (n - shown) <= remaining + 1 ->
  len (join (lit ", ") ps.1) + closing ps.1 (n - ps.2)
    <= len (join (lit ", ") parts) + remaining + 1.
Proof.
  revert remaining parts shown c.
  induction items as [|[key value] items IH]; intros remaining parts shown c H Hinv;
    simpl in H.
  - apply ret_inv in H as [-> ->]. simpl. lia.
  - apply bind_inv_ok in H as (key_r & c1 & _ & H).
    set (available := remaining - sep_cost_of parts - reserve_of (n - shown)) in *.
    destruct (Z.ltb_spec (available - len (key_r ++ lit ": ")) MIN_CHILD_BUDGET)
      as [Hlt|Hge].
    + apply ret_inv in H as [-> ->]. simpl. lia.
    + apply bind_inv_ok in H as (val_r & c2 & Hval & H).
      apply rc_within_one in Hval; [|unfold MIN_CHILD_BUDGET in Hge; lia].
      apply IH in H.
      * rewrite len_join_snoc in H. rewrite len_app in *. subst available. lia.
      * replace (n - (shown + 1)) with (n - shown - 1) by lia.
        rewrite closing_snoc. rewrite len_app. subst available. lia.
Qed.

Lemma dict_within_one obj budget c s c' :
  2 <= budget ->
  _render_dict rc obj budget c = (Ok s, c') -> len s <= budget + 1.
Proof.
  intros Hb H. unfold _render_dict in H.
  destruct obj as [|e obj]; [apply ret_inv in H as [-> ->]; vm_compute (len _); lia|].
  match type of H with context [budget <? ?X] =>
    destruct (Z.ltb_spec budget X) as [Hlt|Hge] end.
  { apply ret_inv in H as [-> ->].
    assert (forall t : pystr, len (slice_to t budget) <= budget + 1)
      by (intros t; pose proof (len_slice_to t budget); lia).
    destruct (2 <=? budget); auto. }
  match type of H with context [budget <=? ?X] =>
    destruct (Z.leb_spec budget X) as [Hle|Hgt] end.
  { apply ret_inv in H as [-> ->]. lia. }
  apply bind_inv_ok in H as (l & c1 & Hl & Hret); apply ret_inv in Hret as [-> ->].
  unfold _render_dict_layout in Hl.
  apply bind_inv_ok in Hl as (ps & c2 & Hloop & Hret); apply ret_inv in Hret as [-> ->].
  apply dict_loop_within_one in Hloop.
  - rewrite !len_app, len_all_parts_no_tail. simpl join in Hloop.
    len_norm. lia.
  - unfold closing. simpl sep_cost_of. rewrite len_more, Z.sub_0_r.
    destruct (0 <? _); len_norm; lia.
Qed.

Lemma sequence_head_within_one n items remaining head_parts head_idx c hd c' :
  _render_sequence_head rc n items remaining head_parts head_idx c = (Ok hd, c') ->
  closing head_parts (n - head_idx) <= remaining + 1 ->
  len (join (lit ", ") hd.1.2) + hd.1.1
    = len (join (lit ", ") head_parts) + remaining
  /\ closing hd.1.2 (n - hd.2) <= hd.1.1 + 1.
Proof.
  revert remaining head_parts head_idx c.
  induction items as [|item items IH];
    intros remaining head_parts head_idx c H Hinv; simpl in H.
  - apply ret_inv in H as [-> ->]. simpl. lia.
  - set (available := remaining - sep_cost_of head_parts
                        - reserve_of (n - head_idx - 0)) in *.
    destruct (Z.ltb_spec available MIN_CHILD_BUDGET) as [Hlt|Hge].
    + apply ret_inv in H as [-> ->]. simpl. lia.
    + apply bind_inv_ok in H as (part & c1 & Hpart & H).
      apply rc_within_one in Hpart; [|unfold MIN_CHILD_BUDGET in Hge; lia].
      apply IH in H.
      * rewrite len_join_snoc in H. lia.
      * replace (n - (head_idx + 1)) with (n - head_idx - 1) by lia.
        rewrite closing_snoc. subst available.
        replace (n - head_idx - 0) with (n - head_idx) in * by lia. lia.
Qed.

Lemma sequence_within_one is_tuple obj budget c s c' :
  2 <= budget ->
  _render_sequence rc is_tuple obj budget c = (Ok s, c') -> len s <= budget + 1.
Proof.
  intros Hb H. unfold _render_sequence in H.
  destruct obj as [|e obj].
  { apply ret_inv in H as [-> ->]. destruct is_tuple; vm_compute (len _); lia. }
  match type of H with context [budget <=? ?X] =>
    destruct (Z.leb_spec budget X) as [Hle|Hgt] end.
  { apply ret_inv in H as [-> ->].
    match goal with |- len (slice_to ?t budget) <= _ =>
      pose proof (len_slice_to t budget) end. lia. }
  apply bind_inv_ok in H as (l & c1 & Hl & Hret); apply ret_inv in Hret as [-> ->].
  unfold _render_sequence_layout in Hl.
  apply bind_inv_ok in Hl as (hd & c2 & Hloop & Hl).
  apply sequence_head_within_one in Hloop.
  2:{ unfold closing. simpl sep_cost_of. rewrite len_more, Z.sub_0_r.
      destruct (0 <? _); [|lia]. destruct is_tuple; len_norm; lia. }
  destruct Hloop as [Hsum Hclose]. simpl join in Hsum. rewrite len_nil in Hsum.
  assert (Hplain :
    len ((if is_tuple then lit "(" else lit "[")
           ++ join (lit ", ")
                (all_parts {| head_parts := hd.1.2;
                              omitted := len (e :: obj) - hd.2;
                              tail_parts := [] |})
           ++ (if is_tuple then lit ")" else lit "]")) <= budget + 1).
  { rewrite !len_app, len_all_parts_no_tail. destruct is_tuple; len_norm; lia. }
  destruct (Z.ltb_spec 1 (len (e :: obj) - hd.2)) as [Hom|Hom]; cbn [andb] in Hl.
  - destruct (MIN_CHILD_BUDGET + 15 <? hd.1.1).
    + match type of Hl with context [MIN_CHILD_BUDGET <=? ?X] =>
        destruct (Z.leb_spec MIN_CHILD_BUDGET X) as [Hge|Hlt] end.
      * destruct (last (e :: obj)) as [item|]; [|discriminate].
        apply bind_inv_ok in Hl as (tail_r & c3 & Htail & Hret); apply ret_inv in Hret as [-> ->].
        apply rc_within_one in Htail; [|unfold MIN_CHILD_BUDGET in Hge; lia].
        unfold all_parts. simpl head_parts. simpl omitted. simpl tail_parts.
        destruct (Z.ltb_spec 0 (len (e :: obj) - hd.2 - 1)); [|lia].
        rewrite !len_app.
        replace (hd.1.2 ++ [more (len (e :: obj) - hd.2 - 1)] ++ [tail_r])
          with ((hd.1.2 ++ [more (len (e :: obj) - hd.2 - 1)]) ++ [tail_r])
          by (rewrite <- app_assoc; reflexivity).
        rewrite !len_join_snoc, sep_cost_of_snoc.
        pose proof (sep_cost_of_nonneg hd.1.2).
        assert (sep_cost_of hd.1.2 <= 2) by (destruct hd.1.2; simpl; lia).
        rewrite !len_app in Htail. clear Hplain Hgt Hge.
        destruct is_tuple; len_norm; lia.
      * apply ret_inv in Hl as [-> ->]. exact Hplain.
    + apply ret_inv in Hl as [-> ->]. exact Hplain.
  - apply ret_inv in Hl as [-> ->]. exact Hplain.
Qed.

Lemma set_loop_within_one n items remaining parts shown c ps c' :
  _render_set_loop rc n items remaining parts shown c = (Ok ps, c') ->
  closing parts (n - shown) <= remaining + 1 ->
  len (join (lit ", ") ps.1) + closing ps.1 (n - ps.2)
    <= len (join (lit ", ") parts) + remaining + 1.
Proof.
  revert remaining parts shown c.
  induction items as [|item items IH]; intros remaining parts shown c H Hinv;
    simpl in H.
  - apply ret_inv in H as [-> ->]. simpl. lia.
  - set (available := remaining - sep_cost_of parts - reserve_of (n - shown)) in *.
    destruct (Z.ltb_spec available MIN_CHILD_BUDGET) as [Hlt|Hge].
    + apply ret_inv in H as [-> ->]. simpl. lia.
    + apply bind_inv_ok in H as (part & c1 & Hpart & H).
      apply rc_within_one in Hpart; [|unfold MIN_CHILD_BUDGET in Hge; lia].
      apply IH in H.
      * rewrite len_join_snoc in H. lia.
      * replace (n - (shown + 1)) with (n - shown - 1) by lia.
        rewrite closing_snoc. subst available. lia.
Qed.

Lemma set_within_one is_frozenset obj budget c s c' :
  0 <= budget ->
  _render_set rc is_frozenset obj budget c = (Ok s, c') -> len s <= budget + 1.
Proof.
  intros Hb H. unfold _render_set in H.
  assert (Hclip : forall t : pystr, len (slice_to t budget) <= budget + 1)
    by (intros t; pose proof (len_slice_to t budget); lia).
  destruct obj as [|e obj].
  { destruct is_frozenset; apply ret_inv in H as [-> ->]; apply Hclip. }
  match type of H with context [budget <=? ?X] =>
    destruct (Z.leb_spec budget X) as [Hle|Hgt] end.
  { apply ret_inv in H as [-> ->]. apply Hclip. }
  apply bind_inv_ok in H as (l & c1 & Hl & Hret); apply ret_inv in Hret as [-> ->].
  unfold _render_set_layout in Hl.
  apply bind_inv_ok in Hl as (ps & c2 & Hloop & Hret); apply ret_inv in Hret as [-> ->].
  apply set_loop_within_one in Hloop.
  - rewrite !len_app, len_all_parts_no_tail. simpl join in Hloop.
    clear Hgt. destruct is_frozenset; len_norm; lia.
  - unfold closing. simpl sep_cost_of. rewrite len_more, Z.sub_0_r.
    pose proof (len_nonneg (str_of_Z (len (e :: obj)))).
    destruct (0 <? _); destruct is_frozenset; len_norm; lia.
Qed.

Lemma generic_within_one obj budget c s c' :
  MIN_BUDGET <= budget ->
  _render_generic h rc obj budget c = (Ok s, c') -> len s <= budget + 1.
Proof.
  intros Hb H. unfold MIN_BUDGET in Hb. unfold _render_generic in H.
  assert (Hclip : forall t : pystr, len (slice_to t budget) <= budget + 1)
    by (intros t; pose proof (len_slice_to t budget); lia).
  destruct (ob_payload (deref h obj)) as
    [| | | | |b|factory items|mc srt|items|items|items|items|items|items|o] eqn:Hp.
  1-4: apply ret_inv in H as [-> ->];
       match goal with |- len (_render_primitive ?p ?bb) <= _ =>
         pose proof (_render_primitive_within p bb) end; lia.
  - apply ret_inv in H as [-> ->].
    pose proof (_render_str_within s0 budget). lia.
  - apply ret_inv in H as [-> ->]. apply _render_bytes_within_one. lia.
  - unfold _render_defaultdict in H.
    apply of_sum_bind_inv in H as (name & _ & H).
    destruct (budget <=? _); [apply ret_inv in H as [-> ->]; apply Hclip|].
    match type of H with context [?X <? MIN_BUDGET] =>
      destruct (Z.ltb_spec X MIN_BUDGET) as [Hlt|Hge] end;
      [apply ret_inv in H as [-> ->]; apply Hclip|].
    apply bind_inv_ok in H as (inner & c1 & Hinner & Hret); apply ret_inv in Hret as [-> ->].
    apply dict_within_one in Hinner; [|unfold MIN_BUDGET in Hge; lia].
    rewrite !len_app in *. lia.
  - unfold _render_counter in H.
    destruct mc as [|e mc]; [apply ret_inv in H as [-> ->]; apply Hclip|].
    destruct (budget <=? _); [apply ret_inv in H as [-> ->]; apply Hclip|].
    match type of H with context [?X <? MIN_BUDGET] =>
      destruct (Z.ltb_spec X MIN_BUDGET) as [Hlt|Hge] end;
      [apply ret_inv in H as [-> ->]; apply Hclip|].
    apply of_sum_bind_inv in H as (pairs & _ & H).
    apply bind_inv_ok in H as (inner & c1 & Hinner & Hret); apply ret_inv in Hret as [-> ->].
    apply dict_within_one in Hinner; [|unfold MIN_BUDGET in Hge; lia].
    rewrite !len_app in *. lia.
  - eapply dict_within_one; [|exact H]. lia.
  - destruct (ty_fields _).
    + eapply render_attrs_within in H; lia.
    + eapply sequence_within_one; [|exact H]. lia.
  - eapply sequence_within_one; [|exact H]. lia.
  - eapply set_within_one; [|exact H]. lia.
  - eapply set_within_one; [|exact H]. lia.
  - unfold _render_deque in H.
    destruct items as [|e items]; [apply ret_inv in H as [-> ->]; apply Hclip|].
    destruct (budget <=? _); [apply ret_inv in H as [-> ->]; apply Hclip|].
    match type of H with context [?X <? MIN_BUDGET] =>
      destruct (Z.ltb_spec X MIN_BUDGET) as [Hlt|Hge] end;
      [apply ret_inv in H as [-> ->]; apply Hclip|].
    apply bind_inv_ok in H as (inner & c1 & Hinner & Hret); apply ret_inv in Hret as [-> ->].
    apply sequence_within_one in Hinner; [|unfold MIN_BUDGET in Hge; lia].
    rewrite !len_app in *. lia.
  - unfold _render_object in H. destruct (fitting_repr o budget) as [r|] eqn:Hr.
    + apply ret_inv in H as [-> ->].
      apply fitting_repr_Some in Hr as (_ & _ & _ & Hfit). lia.
    + apply of_sum_bind_inv in H as (attrs & _ & H).
      eapply render_attrs_within in H; lia.
Qed.

Lemma guarded_within_one reg obj budget c s c' :
  MIN_BUDGET <= budget ->
  render_child_guarded h reg rc obj budget c = (Ok s, c') -> len s <= budget + 1.
Proof.
  intros Hb H.
  assert (Hclip : forall t : pystr, len (slice_to t budget) <= budget + 1)
    by (intros t; pose proof (len_slice_to t budget); unfold MIN_BUDGET in Hb; lia).
  assert (Hinner : forall c0 c1,
    _render_inner h reg rc obj budget c0 = (Ok s, c1) -> len s <= budget + 1).
  { intros c0 c1 Hin. unfold _render_inner in Hin.
    destruct (ty_budget_repr _).
    { apply bind_inv_ok in Hin as (s0 & c2 & _ & Hret);
        apply ret_inv in Hret as [-> ->]. apply Hclip. }
    destruct (get_renderer _ _).
    { apply bind_inv_ok in Hin as (s0 & c2 & _ & Hret);
        apply ret_inv in Hret as [-> ->]. apply Hclip. }
    eapply generic_within_one; eassumption. }
  unfold render_child_guarded in H.
  destruct (negb _); [|eapply Hinner; eassumption].
  apply bind_inv_ok in H as (seen & c1 & _ & H).
  destruct (bool_decide _).
  { apply ret_inv in H as [-> ->]. apply Hclip. }
  apply bind_inv_ok in H as (u & c2 & _ & H).
  unfold try_finally in H.
  destruct (_render_inner h reg rc obj budget c2) as [r c3] eqn:Hin.
  simpl in H. injection H as -> <-.
  eapply Hinner; eassumption.
Qed.

End WithinOne.

Lemma render_child_within_one h reg fuel : within_one (render_child h reg fuel).
Proof.
  induction fuel as [|fuel IH]; intros obj b c s c' Hb H.
  - simpl in H. destruct (b <? MIN_BUDGET); [|discriminate].
    apply ret_inv in H as [-> ->]. pose proof (len_slice_to (lit "...") b Hb). lia.
  - destruct (Z.lt_ge_cases b MIN_BUDGET) as [Hlt|Hge].
    + rewrite render_child_floor in H by exact Hlt.
      apply ret_inv in H as [-> ->]. pose proof (len_slice_to (lit "...") b Hb). lia.
    + rewrite render_child_S in H by lia.
      eapply guarded_within_one; eassumption.
Qed.

(** X14. For every store, registry and hook, the text [render] returns for a
    non-negative budget is at most one character longer than the budget:
    the slip of [_render_bytes] is never compounded by the containers
    around it. Without a [bytes] value in the store the budget is
    kept. *)
Theorem X14_budget_plus_one :
  forall h reg fuel obj budget policy c s c',
    0 <= budget ->
    render h reg fuel obj budget policy c = (Ok s, c') ->
    len s <= budget + 1 /\ (bytes_free h -> len s <= budget).
Proof.
  intros h reg fuel obj budget policy c s c' Hb H. split.
  - unfold render in H. rewrite render_session_eq in H.
    destruct (render_child h reg fuel obj budget _) as [r c1] eqn:Hr.
    simpl in H. injection H as -> _.
    eapply render_child_within_one; eassumption.
  - intros Hbf. eapply render_within; eassumption.
Qed.

Lemma X14_budget_plus_one_witness :
  0 <= 40 /\
  render heap_cycle_bytes ∅ 100 0%N 40 greedy ctx0
    = (Ok (lit "[<...>, b'aaaaaaaaaaaaaaaaaaaaaaaaaa...']"), ctx0) /\
  len (lit "[<...>, b'aaaaaaaaaaaaaaaaaaaaaaaaaa...']") <= 40 + 1.
Proof.
  assert (H1 : 0 <= 40) by lia.
  assert (H2 : render heap_cycle_bytes ∅ 100 0%N 40 greedy ctx0
               = (Ok (lit "[<...>, b'aaaaaaaaaaaaaaaaaaaaaaaaaa...']"), ctx0))
    by (vm_compute; reflexivity).
  split; [exact H1|]. split; [exact H2|].
  exact (proj1 (X14_budget_plus_one heap_cycle_bytes ∅ 100%nat 0%N 40 greedy ctx0
                  _ _ H1 H2)).
Defined.

(** ** The output of a finite store is bounded *)

(** X15. On a store rendered by the generic fallback, the length of what
    [render] returns is bounded by a number that depends on the store
    alone: no budget, however large, and no cycle makes the text
    longer. *)
Theorem X15_output_bounded :
  forall h reg,
    (forall obj, generic h reg obj) ->
    exists L,
      forall fuel obj budget policy c s c',
        render h reg fuel obj budget policy c = (Ok s, c') -> len s <= L.
Proof.
  intros h reg Hgen.
  destruct (render_child_bounded h reg Hgen) as (L & _ & Hbound).
  exists L. intros fuel obj budget policy c s c' H.
  unfold render in H. rewrite render_session_eq in H.
  destruct (render_child h reg fuel obj budget _) as [r c1] eqn:Hr.
  simpl in H. injection H as -> _.
  eapply Hbound, Hr.
Qed.

Lemma X15_output_bounded_witness :
  (forall obj, generic heap_cycles ∅ obj) /\
  exists L,
    forall fuel obj budget policy c s c',
      render heap_cycles ∅ fuel obj budget policy c = (Ok s, c') -> len s <= L.
Proof.
  split; [exact heap_cycles_generic|].
  exact (X15_output_bounded heap_cycles ∅ heap_cycles_generic).
Defined.

(** ** The policy matters to attribute decomposition only *)

Lemma policy_blind_ret {A} (a : A) : policy_blind (ret a).
Proof. intros s p1 p2. reflexivity. Qed.

Lemma policy_blind_raise {A} (e : exn) : policy_blind (@raise A e).
Proof. intros s p1 p2. reflexivity. Qed.

Lemma policy_blind_bind {A B} (m : M A) (k : A -> M B) :
  preserves m -> policy_blind m -> (forall a, policy_blind (k a)) ->
  policy_blind (bind m k).
Proof.
  intros Hpres Hm Hk s p1 p2. unfold bind.
  pose proof (Hm s p1 p2) as Heq.
  pose proof (Hpres {| _seen := s; _policy := p1 |}) as H1.
  pose proof (Hpres {| _seen := s; _policy := p2 |}) as H2.
  destruct (m {| _seen := s; _policy := p1 |}) as [r1 c1].
  destruct (m {| _seen := s; _policy := p2 |}) as [r2 c2].
  simpl in *. subst r2 c1 c2. destruct r1 as [a|e|]; [apply Hk|reflexivity..].
Qed.

Section PolicyBlind.

Variable h : gmap oid object.
Variable rc : oid -> Z -> M pystr.
Hypothesis rc_preserves : forall obj budget, preserves (rc obj budget).
Hypothesis rc_blind : forall obj budget, policy_blind (rc obj budget).
Hypothesis h_attr_free : attr_free h.

Lemma blind_dict_loop n items remaining parts shown :
  policy_blind (_render_dict_loop rc n items remaining parts shown).
Proof.
  revert remaining parts shown.
  induction items as [|[key value] items IH]; intros; simpl;
    [apply policy_blind_ret|].
  apply policy_blind_bind; [apply rc_preserves|apply rc_blind|]. intros key_r.
  destruct (_ <? MIN_CHILD_BUDGET); [apply policy_blind_ret|].
  apply policy_blind_bind; [apply rc_preserves|apply rc_blind|]. intros val_r.
  apply IH.
Qed.

Lemma blind_dict obj budget : policy_blind (_render_dict rc obj budget).
Proof.
  unfold _render_dict, _render_dict_layout.
  destruct obj; [apply policy_blind_ret|].
  destruct (budget <? _); [apply policy_blind_ret|].
  destruct (budget <=? _); [apply policy_blind_ret|].
  apply policy_blind_bind.
  - apply preserves_bind; [by apply preserves_dict_loop|]. intros. apply preserves_ret.
  - apply policy_blind_bind;
      [by apply preserves_dict_loop|apply blind_dict_loop|].
    intros. apply policy_blind_ret.
  - intros. apply policy_blind_ret.
Qed.

Lemma blind_sequence_head n items remaining head_parts head_idx :
  policy_blind (_render_sequence_head rc n items remaining head_parts head_idx).
Proof.
  revert remaining head_parts head_idx.
  induction items as [|item items IH]; intros; simpl; [apply policy_blind_ret|].
  destruct (_ <? MIN_CHILD_BUDGET); [apply policy_blind_ret|].
  apply policy_blind_bind; [apply rc_preserves|apply rc_blind|]. intros part.
  apply IH.
Qed.

Lemma blind_sequence is_tuple obj budget :
  policy_blind (_render_sequence rc is_tuple obj budget).
Proof.
  unfold _render_sequence.
  destruct obj as [|e obj]; [apply policy_blind_ret|].
  destruct (budget <=? _); [apply policy_blind_ret|].
  assert (Hpres : preserves (_render_sequence rc is_tuple (e :: obj) budget))
    by (by apply preserves_sequence).
  apply policy_blind_bind; [| |intros; apply policy_blind_ret].
  - unfold _render_sequence_layout.
    apply preserves_bind; [by apply preserves_sequence_head|]. intros hd.
    destruct (_ && _); [|apply preserves_ret].
    destruct (MIN_CHILD_BUDGET <=? _); [|apply preserves_ret].
    destruct (last _); [|apply preserves_raise].
    apply preserves_bind; [apply rc_preserves|]. intros. apply preserves_ret.
  - unfold _render_sequence_layout.
    apply policy_blind_bind;
      [by apply preserves_sequence_head|apply blind_sequence_head|].
    intros hd.
    destruct (_ && _); [|apply policy_blind_ret].
    destruct (MIN_CHILD_BUDGET <=? _); [|apply policy_blind_ret].
    destruct (last _); [|apply policy_blind_raise].
    apply policy_blind_bind; [apply rc_preserves|apply rc_blind|].
    intros. apply policy_blind_ret.
Qed.

Lemma blind_set_loop n items remaining parts shown :
  policy_blind (_render_set_loop rc n items remaining parts shown).
Proof.
  revert remaining parts shown.
  induction items as [|item items IH]; intros; simpl; [apply policy_blind_ret|].
  destruct (_ <? MIN_CHILD_BUDGET); [apply policy_blind_ret|].
  apply policy_blind_bind; [apply rc_preserves|apply rc_blind|]. intros part.
  apply IH.
Qed.

Lemma blind_set is_frozenset obj budget :
  policy_blind (_render_set rc is_frozenset obj budget).
Proof.
  unfold _render_set, _render_set_layout.
  destruct obj; [destruct is_frozenset; apply policy_blind_ret|].
  destruct (budget <=? _); [apply policy_blind_ret|].
  apply policy_blind_bind.
  - apply preserves_bind; [by apply preserves_set_loop|]. intros. apply preserves_ret.
  - apply policy_blind_bind;
      [by apply preserves_set_loop|apply blind_set_loop|].
    intros. apply policy_blind_ret.
  - intros. apply policy_blind_ret.
Qed.

Lemma blind_generic obj budget : policy_blind (_render_generic h rc obj budget).
Proof.
  unfold _render_generic. pose proof (h_attr_free obj) as Hfree.
  unfold attr_free_b in Hfree.
  destruct (ob_payload (deref h obj)) as
    [| | | | | |factory items|mc srt|items|items|items|items|items|items|o];
    try apply policy_blind_ret; try apply blind_dict; try apply blind_sequence;
    try apply blind_set; try discriminate.
  - unfold _render_defaultdict.
    apply policy_blind_bind;
      [apply preserves_of_sum
      |intros s p1 p2; destruct (factory_name factory); reflexivity|].
    intros name.
    destruct (budget <=? _); [apply policy_blind_ret|].
    destruct (_ <? MIN_BUDGET); [apply policy_blind_ret|].
    apply policy_blind_bind; [by apply preserves_dict|apply blind_dict|].
    intros. apply policy_blind_ret.
  - unfold _render_counter. destruct mc; [apply policy_blind_ret|].
    destruct (budget <=? _); [apply policy_blind_ret|].
    destruct (_ <? MIN_BUDGET); [apply policy_blind_ret|].
    apply policy_blind_bind;
      [apply preserves_of_sum
      |intros s p1 p2; destruct (most_common _ _); reflexivity|].
    intros pairs.
    apply policy_blind_bind; [by apply preserves_dict|apply blind_dict|].
    intros. apply policy_blind_ret.
  - destruct (ty_fields _); [discriminate|]. apply blind_sequence.
  - unfold _render_deque. destruct items; [apply policy_blind_ret|].
    destruct (budget <=? _); [apply policy_blind_ret|].
    destruct (_ <? MIN_BUDGET); [apply policy_blind_ret|].
    apply policy_blind_bind; [by apply preserves_sequence|apply blind_sequence|].
    intros. apply policy_blind_ret.
Qed.

End PolicyBlind.

Lemma blind_render_child h reg :
  (forall obj, generic h reg obj) -> attr_free h ->
  forall fuel obj budget, policy_blind (render_child h reg fuel obj budget).
Proof.
  intros Hgen Hfree fuel.
  induction fuel as [|fuel IH]; intros obj budget s p1 p2.
  - simpl. destruct (budget <? MIN_BUDGET); reflexivity.
  - destruct (Z.lt_ge_cases budget MIN_BUDGET) as [Hlt|Hge].
    { rewrite render_child_floor by exact Hlt. reflexivity. }
    rewrite render_child_S by exact Hge.
    assert (Hblind : forall o b,
      policy_blind (_render_generic h (render_child h reg fuel) o b)).
    { intros o b. apply blind_generic; [|exact IH|exact Hfree].
      intros o' b'. apply preserves_render_child. }
    destruct (is_exempt (deref h obj)) eqn:Hex.
    + unfold render_child_guarded. rewrite Hex. cbn [negb].
      rewrite _render_inner_generic by apply Hgen. apply Hblind.
    + destruct s as [s0|].
      * destruct (decide (obj ∈ s0)) as [Hin|Hnot].
        -- rewrite !render_child_guarded_seen by assumption. reflexivity.
        -- rewrite !render_child_guarded_fresh by assumption.
           rewrite !_render_inner_generic by apply Hgen. cbn [fst]. apply Hblind.
      * unfold render_child_guarded. rewrite Hex. reflexivity.
Qed.

(** X16. The policy is read by [render_attrs] alone: on a store rendered by
    the generic fallback that holds no object to decompose and no named
    tuple, [render] returns the same under ["greedy"] and ["even"]. *)
Theorem X16_policy_only_for_attrs :
  forall h reg,
    (forall obj, generic h reg obj) -> attr_free h ->
    forall fuel obj budget c,
      render h reg fuel obj budget greedy c = render h reg fuel obj budget even c.
Proof.
  intros h reg Hgen Hfree fuel obj budget c. unfold render.
  rewrite !render_session_eq. f_equal.
  apply blind_render_child; assumption.
Qed.

Lemma attr_free_store (h : gmap oid object) :
  map_Forall (fun _ o => attr_free_b o = true) h -> attr_free h.
Proof.
  intros Hall obj. unfold deref. destruct (h !! obj) as [o|] eqn:Ho; [|reflexivity].
  exact (Hall obj o Ho).
Qed.

Lemma X16_policy_only_for_attrs_witness :
  (forall obj, generic heap_range10 ∅ obj) /\ attr_free heap_range10 /\
  render heap_range10 ∅ 5 100%N 40 greedy ctx0
    = render heap_range10 ∅ 5 100%N 40 even ctx0.
Proof.
  assert (H1 : forall obj, generic heap_range10 ∅ obj).
  { apply generic_empty_registry. apply (bool_decide_unpack _). vm_compute. reflexivity. }
  assert (H2 : attr_free heap_range10).
  { apply attr_free_store. apply (bool_decide_unpack _). vm_compute. reflexivity. }
  split; [exact H1|]. split; [exact H2|].
  exact (X16_policy_only_for_attrs heap_range10 ∅ H1 H2 5%nat 100%N 40 ctx0).
Defined.

(** Where attributes are decomposed the two policies part ways. *)
Example policy_examples :
  (render heap_pair ∅ 5 0%N 60 greedy ctx0).1
    = Ok (lit "Pair(left='aaaaaaaaaaaaaaaaaaaaaaaaaaaaaaaaa...', ...1 more)") /\
  (render heap_pair ∅ 5 0%N 60 even ctx0).1
    = Ok (lit "Pair(left='aaaaaaaaaaaaaaaa...', right='bbbbbbbbbbbbbbb...')").
Proof. split; vm_compute; reflexivity. Qed.

(** ** The even policy *)

Lemma len_pos {A} (l : list A) : l <> [] -> 1 <= len l.
Proof.
  destruct l as [|x l]; [done|]. intros _. rewrite len_cons.
  pose proof (len_nonneg l). lia.
Qed.

Section EvenShare.

Variable rc : oid -> Z -> M pystr.
Hypothesis rc_within : within rc.
Variables A P : Z.
Hypothesis A_nonneg : 0 <= A.
Hypothesis P_large : A + 29 <= P.

Lemma attrs_full_even items remaining parts c p1 c' :
  render_attrs_full rc true items remaining parts c = (Ok p1, c') ->
  Forall (fun kv : pystr * oid => len kv.1 <= A) items ->
  0 <= remaining ->
  (items <> [] -> len items * P + (len items - 1) * 2 <= remaining) ->
  exists fulls,
    p1.2 = [] /\ p1.1.2 = parts ++ fulls
    /\ Forall2 (shared_part rc P) items fulls
    /\ len (join (lit ", ") p1.1.2) + p1.1.1
         = len (join (lit ", ") parts) + remaining
    /\ 0 <= p1.1.1.
Proof.
  revert remaining parts c.
  induction items as [|[name val] items IH]; intros remaining parts c H HA Hrem Hroom.
  - simpl in H. apply ret_inv in H as [-> ->]. exists []. simpl.
    rewrite app_nil_r. repeat split; [constructor|lia].
  - apply Forall_cons in HA as [Hname HA]. simpl in Hname.
    specialize (Hroom ltac:(discriminate)).
    pose proof (len_nonneg items) as Hlen.
    pose proof (len_nonneg name) as Hname0.
    pose proof (sep_cost_of_le parts) as Hsep.
    pose proof (sep_cost_of_nonneg parts) as Hsep0.
    simpl in H.
    set (rest := len ((name, val) :: items)) in *.
    assert (Hrest : rest = 1 + len items) by (subst rest; apply len_cons).
    pose proof (reserve_of_le rest rest ltac:(lia) ltac:(lia)) as Hres.
    pose proof (reserve_of_nonneg rest) as Hres0.
    set (available0 := remaining - sep_cost_of parts - reserve_of rest) in *.
    set (per_attr := (remaining - (rest - 1) * 2) / rest) in *.
    assert (Hper : P <= per_attr).
    { subst per_attr. apply Z.div_le_lower_bound; lia. }
    assert (Hfloor : rest * per_attr <= remaining - (rest - 1) * 2).
    { subst per_attr. apply Z.mul_div_le. lia. }
    set (available := if 1 <? rest
                      then Z.min available0 per_attr else available0) in *.
    assert (Hav : P - 2 <= available <= available0
                  /\ (1 < rest -> available <= per_attr)).
    { subst available available0.
      destruct (Z.ltb_spec 1 rest) as [Hgt|Hle].
      - assert (2 * P <= rest * P) by (apply Z.mul_le_mono_nonneg_r; lia). lia.
      - assert (Hone : reserve_of rest = 0)
          by (unfold reserve_of; destruct (Z.ltb_spec 1 rest); [lia|reflexivity]).
        assert (Hone' : rest * P = P) by (assert (rest = 1) as -> by lia; lia).
        lia. }
    assert (Hpre : len (name ++ lit "=") = len name + 1)
      by (rewrite len_app; reflexivity).
    destruct (Z.ltb_spec (available - len (name ++ lit "=")) MIN_CHILD_BUDGET)
      as [Hlt|_]; [unfold MIN_CHILD_BUDGET in Hlt; lia|].
    apply bind_inv_ok in H as (val_r & c1 & Hval & H).
    assert (Hlv : len val_r <= available - len (name ++ lit "="))
      by (eapply rc_within; [|exact Hval]; lia).
    pose proof (len_nonneg val_r) as Hlv0.
    assert (Hpart : len ((name ++ lit "=") ++ val_r) = len name + 1 + len val_r)
      by (rewrite len_app, Hpre; reflexivity).
    apply IH in H as (fulls & Hnone & Hparts & Hall & Hsum & Hpos);
      [|exact HA|subst available0; lia|].
    + exists (((name ++ lit "=") ++ val_r) :: fulls).
      split; [exact Hnone|]. split; [rewrite Hparts, <- app_assoc; reflexivity|].
      split; [|split; [|exact Hpos]].
      * constructor; [|exact Hall]. exists val_r. split.
        -- eexists _, c, c1. split; [|exact Hval]. simpl. lia.
        -- simpl. rewrite <- app_assoc. reflexivity.
      * rewrite len_join_snoc in Hsum. lia.
    + intros Hne.
      pose proof (len_pos items Hne).
      destruct Hav as [Hav Hq]. specialize (Hq ltac:(lia)).
      assert ((rest - 1) * P <= (rest - 1) * per_attr)
        by (apply Z.mul_le_mono_nonneg_l; lia).
      replace (len items) with (rest - 1) by lia. lia.
Qed.

End EvenShare.

(** X17. Under the ["even"] policy no attribute is starved. When the values
    keep their budgets and the equal share
    [(budget - len(TypeName) - 2 - 2 * (n - 1)) // n] is at least the
    longest attribute name plus 29, [render_attrs] renders every one of
    the [n] attributes in full, in order, each value with a budget of at
    least the share less its name and three characters: nothing is
    stubbed or counted as left out. *)
Theorem X17_even_share :
  forall h rc attrs type_name budget s0 s c' A,
    within rc ->
    0 <= A ->
    Forall (fun kv : pystr * oid => len kv.1 <= A) attrs ->
    attrs <> [] ->
    let share := (budget - len type_name - 2 - 2 * (len attrs - 1)) / len attrs in
    A + 29 <= share ->
    render_attrs h rc attrs type_name budget {| _seen := s0; _policy := even |}
      = (Ok s, c') ->
    exists fulls,
      Forall2 (shared_part rc share) attrs fulls
      /\ s = type_name ++ lit "(" ++ join (lit ", ") fulls ++ lit ")".
Proof.
  intros h rc attrs type_name budget s0 s c' A Hrc HA0 HA Hne share Hshare H.
  unfold render_attrs in H.
  destruct attrs as [|a attrs]; [done|].
  set (n := len (a :: attrs)) in *.
  assert (Hn : 1 <= n) by (subst n; rewrite len_cons; pose proof (len_nonneg attrs); lia).
  pose proof (len_nonneg type_name) as Htn.
  assert (Hfloor : n * share <= budget - len type_name - 2 - 2 * (n - 1)).
  { subst share. apply Z.mul_div_le. lia. }
  assert (Hbig : n * (A + 29) <= n * share)
    by (apply Z.mul_le_mono_nonneg_l; lia).
  match type of H with context [budget <=? ?X] =>
    destruct (Z.leb_spec budget X) as [Hle|_];
      [exfalso; rewrite len_app in Hle; len_norm; nia|] end.
  rewrite (bind_ok _policy_get _ _ even _) in H by reflexivity.
  apply bind_inv_ok in H as (p1 & c2 & Hfull & H).
  eapply (attrs_full_even rc Hrc A share HA0 Hshare) in Hfull;
    [|exact HA|nia|intros _; fold n; nia].
  destruct Hfull as (fulls & Hnone & Hparts & Hall & Hsum & Hpos).
  simpl app in Hparts. simpl join in Hsum. rewrite (len_nil N) in Hsum.
  destruct p1 as [[rem1 parts1] rest1]. cbn [fst snd] in *. subst rest1 parts1.
  change (render_attrs_stubs h [] rem1 fulls) with (fulls, @nil (pystr * oid)) in H.
  cbn [fst snd] in H. change (0 <? len (@nil (pystr * oid))) with false in H.
  cbv iota in H.
  match type of H with context [budget <? ?X] =>
    destruct (Z.ltb_spec budget X) as [Hlt|_];
      [exfalso; rewrite !len_app in Hlt; len_norm; lia|] end.
  apply ret_inv in H as [-> _]. exists fulls. split; [exact Hall|reflexivity].
Qed.

Lemma bytes_free_store (h : gmap oid object) :
  map_Forall (fun _ o => match ob_payload o with PBytes _ => false | _ => true end = true) h ->
  bytes_free h.
Proof.
  intros Hall obj b Hp. unfold deref in Hp.
  destruct (h !! obj) as [o|] eqn:Ho; [|discriminate].
  specialize (Hall obj o Ho). simpl in *. rewrite Hp in Hall. discriminate.
Qed.

Lemma X17_even_share_witness :
  within (render_child heap_pair ∅ 5) /\
  0 <= 5 /\
  Forall (fun kv : pystr * oid => len kv.1 <= 5) [(lit "left", 1%N); (lit "right", 2%N)] /\
  [(lit "left", 1%N); (lit "right", 2%N)] <> [] /\
  5 + 29 <= (120 - len (lit "Pair") - 2
             - 2 * (len [(lit "left", 1%N); (lit "right", 2%N)] - 1))
            / len [(lit "left", 1%N); (lit "right", 2%N)] /\
  render_attrs heap_pair (render_child heap_pair ∅ 5)
      [(lit "left", 1%N); (lit "right", 2%N)] (lit "Pair") 120
      {| _seen := Some ∅; _policy := even |}
    = (Ok (lit "Pair(left='aaaaaaaaaaaaaaaaaaaaaaaaaaaaaaaaaaaaaaaa', right='bbbbbbbbbbbbbbbbbbbbbbbbbbbbbbbbbbbbbbbb')"),
       {| _seen := Some ∅; _policy := even |}) /\
  exists fulls,
    Forall2 (shared_part (render_child heap_pair ∅ 5)
               ((120 - len (lit "Pair") - 2
                 - 2 * (len [(lit "left", 1%N); (lit "right", 2%N)] - 1))
                / len [(lit "left", 1%N); (lit "right", 2%N)]))
      [(lit "left", 1%N); (lit "right", 2%N)] fulls
    /\ lit "Pair(left='aaaaaaaaaaaaaaaaaaaaaaaaaaaaaaaaaaaaaaaa', right='bbbbbbbbbbbbbbbbbbbbbbbbbbbbbbbbbbbbbbbb')"
       = lit "Pair" ++ lit "(" ++ join (lit ", ") fulls ++ lit ")".
Proof.
  assert (H1 : within (render_child heap_pair ∅ 5)).
  { apply render_child_within, bytes_free_store.
    apply (bool_decide_unpack _). vm_compute. reflexivity. }
  assert (H2 : 0 <= 5) by lia.
  assert (H3 : Forall (fun kv : pystr * oid => len kv.1 <= 5)
                 [(lit "left", 1%N); (lit "right", 2%N)]).
  { repeat (constructor; [vm_compute; discriminate|]). constructor. }
  assert (H4 : [(lit "left", 1%N); (lit "right", 2%N)] <> @nil (pystr * oid))
    by discriminate.
  assert (H5 : 5 + 29 <= (120 - len (lit "Pair") - 2
                          - 2 * (len [(lit "left", 1%N); (lit "right", 2%N)] - 1))
                         / len [(lit "left", 1%N); (lit "right", 2%N)])
    by (vm_compute; discriminate).
  assert (H6 : render_attrs heap_pair (render_child heap_pair ∅ 5)
                 [(lit "left", 1%N); (lit "right", 2%N)] (lit "Pair") 120
                 {| _seen := Some ∅; _policy := even |}
               = (Ok (lit "Pair(left='aaaaaaaaaaaaaaaaaaaaaaaaaaaaaaaaaaaaaaaa', right='bbbbbbbbbbbbbbbbbbbbbbbbbbbbbbbbbbbbbbbb')"),
                  {| _seen := Some ∅; _policy := even |}))
    by (vm_compute; reflexivity).
  split; [exact H1|]. split; [exact H2|]. split; [exact H3|]. split; [exact H4|].
  split; [exact H5|]. split; [exact H6|].
  exact (X17_even_share heap_pair (render_child heap_pair ∅ 5)
           [(lit "left", 1%N); (lit "right", 2%N)] (lit "Pair") 120 _ _ _ 5
           H1 H2 H3 H4 H5 H6).
Defined.

(** ** The optional renderers *)

Lemma peek_loop_shows h rc min_avail n finish :
  forall items i remaining used parts c s c',
    run_prog h rc (peek_loop min_avail n items i remaining used parts finish) c
      = (Ok s, c') ->
    exists (k : nat) shown c1,
      (k <= length items)%nat
      /\ Forall2 (peeked rc min_avail) (take k items) shown
      /\ run_prog h rc (finish (parts ++ shown)) c1 = (Ok s, c').
Proof.
  induction items as [|item items IH]; intros i remaining used parts c s c' H.
  - simpl in H. exists 0%nat, [], c. rewrite app_nil_r.
    split; [simpl; lia|]. split; [constructor|exact H].
  - cbn [peek_loop run_prog] in H. unfold resume in H.
    set (avail := remaining - used - sep_cost_of parts
                    - (if 0 <? n - i - 1 then len (lit ", " ++ more (n - i - 1)) else 0))
      in *.
    destruct (rc item avail c) as [[r|e|] c1] eqn:Hrc; [| |discriminate].
    + cbn [or_raise] in H.
      destruct (Z.ltb_spec avail (len r)) as [Hlong|Hfit]; cbn [orb] in H.
      { exists 0%nat, [], c1. rewrite app_nil_r.
        split; [simpl; lia|]. split; [constructor|exact H]. }
      destruct (Z.ltb_spec avail min_avail) as [Hsmall|Hroom].
      { exists 0%nat, [], c1. rewrite app_nil_r.
        split; [simpl; lia|]. split; [constructor|exact H]. }
      apply IH in H as (k & shown & c2 & Hk & Hall & Hfin).
      exists (S k), (r :: shown), c2. split; [simpl; lia|]. split.
      * simpl. constructor; [|exact Hall].
        exists avail, c, c1. split; [exact Hroom|]. split; [exact Hrc|exact Hfit].
      * rewrite <- app_assoc in Hfin. exact Hfin.
    + cbn [or_raise run_prog] in H. discriminate.
Qed.

Lemma peek_finish_preview h rc min_avail (cap : nat) header items shown c s c' :
  (length shown <= cap)%nat ->
  (length shown <= length items)%nat ->
  Forall2 (peeked rc min_avail) (take (length shown) items) shown ->
  run_prog h rc (peek_finish header (len items) ([] ++ shown)) c = (Ok s, c') ->
  preview rc min_avail cap header items s.
Proof.
  intros Hcap Hlen Hall H. simpl app in H. unfold peek_finish in H.
  cbn [run_prog] in H. apply ret_inv in H as [-> _].
  exists shown. split; [exact Hcap|]. split; [exact Hlen|]. split; [exact Hall|].
  destruct (Z.ltb_spec 0 (len items - len shown));
    destruct (Nat.ltb_spec (length shown) (length items));
    unfold len in *; try lia; [reflexivity|].
  rewrite app_nil_r. reflexivity.
Qed.

Lemma peek_preview h rc min_avail (limit cap : nat) header items remaining used c s c' :
  (limit <= cap)%nat ->
  run_prog h rc
    (peek_loop min_avail (len items) (take limit items) 0 remaining used []
       (peek_finish header (len items))) c = (Ok s, c') ->
  preview rc min_avail cap header items s.
Proof.
  intros Hcap H.
  apply peek_loop_shows in H as (k & shown & c1 & Hk & Hall & Hfin).
  rewrite length_take in Hk. rewrite take_take in Hall.
  replace (k `min` limit)%nat with k in Hall by lia.
  pose proof (Forall2_length _ _ _ Hall) as Hlen. rewrite length_take in Hlen.
  assert (Hks : length shown = k) by lia.
  eapply peek_finish_preview; [| | |exact Hfin]; rewrite ?Hks; [lia|lia|exact Hall].
Qed.

Lemma take_all {A} (l : list A) : take (length l) l = l.
Proof. apply take_ge. lia. Qed.

(** X18. The previews of [render_ndarray], [render_tensor] and
    [render_array]. What each returns is a short form clipped to the
    budget (the name with the shape alone, or the header closed), or the
    header followed by the first [k] values in order, [k] at most 20,
    each rendered by [render_child] in a budget of at least 5 that its
    text fits, and by the count [...K more] of the values not shown,
    [K = n - k], present exactly when [K > 0]. *)
Theorem X18_array_previews :
  forall h rc budget c s c',
    (forall obj : ndarray,
       let shape := shape_text (nd_shape obj) in
       let header := lit "ndarray(" ++ shape ++ lit ", " ++ nd_dtype obj in
       run_prog h rc (render_ndarray obj budget) c = (Ok s, c') ->
       s = slice_to (lit "ndarray(" ++ shape ++ lit ")") budget
       \/ s = slice_to (header ++ lit ")") budget
       \/ preview rc 5 20 header (nd_flat obj) s)
    /\ (forall obj : tensor,
          let shape := shape_text (t_shape obj) in
          run_prog h rc (render_tensor obj budget) c = (Ok s, c') ->
          s = slice_to (lit "Tensor(" ++ shape ++ lit ")") budget
          \/ s = slice_to (tensor_header obj ++ lit ")") budget
          \/ preview rc 5 20 (tensor_header obj) (t_flat obj) s)
    /\ (forall obj : arrow_array,
          let header :=
            lit "Array(" ++ str_of_Z (len (aa_values obj)) ++ lit ", " ++ aa_type obj in
          run_prog h rc (render_array obj budget) c = (Ok s, c') ->
          s = slice_to (header ++ lit ")") budget
          \/ preview rc 5 20 header (aa_values obj) s).
Proof.
  intros h rc budget c s c'.
  assert (Hlimit : forall n : Z, (Z.to_nat (Z.min n 20) <= 20)%nat) by (intros; lia).
  split; [|split].
  - intros obj shape header H. unfold render_ndarray in H. fold shape header in H.
    destruct (budget <=? len header + 1).
    { apply ret_inv in H as [-> _]. by left. }
    destruct (budget - len header - 2 <? 5).
    { apply ret_inv in H as [-> _]. right. by left. }
    right. right. eapply peek_preview; [apply Hlimit|exact H].
  - intros obj shape H. unfold render_tensor in H. fold shape in H.
    destruct (budget <=? len (tensor_header obj) + 1).
    { apply ret_inv in H as [-> _]. by left. }
    destruct (budget - len (tensor_header obj) - 2 <? 5).
    { apply ret_inv in H as [-> _]. right. by left. }
    right. right. eapply peek_preview; [apply Hlimit|exact H].
  - intros obj header H. unfold render_array in H. fold header in H.
    destruct (budget <=? len header + 1).
    { apply ret_inv in H as [-> _]. left.
      subst header. rewrite <- !app_assoc. reflexivity. }
    destruct (budget - len header - 5 <? 5).
    { apply ret_inv in H as [-> _]. by left. }
    right. eapply peek_preview; [apply Hlimit|exact H].
Qed.

Lemma X18_array_previews_witness :
  run_prog heap_floats (render_child heap_floats ∅ 1) (render_ndarray example_array 60)
      {| _seen := Some ∅; _policy := greedy |}
    = (Ok (lit "ndarray(30, float64, [0.0, 1.0, 2.0, 3.0, 4.0, ...25 more])"),
       {| _seen := Some ∅; _policy := greedy |})
  /\ (lit "ndarray(30, float64, [0.0, 1.0, 2.0, 3.0, 4.0, ...25 more])"
        = slice_to (lit "ndarray(" ++ shape_text (nd_shape example_array) ++ lit ")") 60
      \/ lit "ndarray(30, float64, [0.0, 1.0, 2.0, 3.0, 4.0, ...25 more])"
           = slice_to ((lit "ndarray(" ++ shape_text (nd_shape example_array)
                          ++ lit ", " ++ nd_dtype example_array) ++ lit ")") 60
      \/ preview (render_child heap_floats ∅ 1) 5 20
           (lit "ndarray(" ++ shape_text (nd_shape example_array)
              ++ lit ", " ++ nd_dtype example_array)
           (nd_flat example_array)
           (lit "ndarray(30, float64, [0.0, 1.0, 2.0, 3.0, 4.0, ...25 more])")).
Proof.
  assert (H1 : run_prog heap_floats (render_child heap_floats ∅ 1)
                 (render_ndarray example_array 60)
                 {| _seen := Some ∅; _policy := greedy |}
               = (Ok (lit "ndarray(30, float64, [0.0, 1.0, 2.0, 3.0, 4.0, ...25 more])"),
                  {| _seen := Some ∅; _policy := greedy |}))
    by (vm_compute; reflexivity).
  split; [exact H1|].
  exact (proj1 (X18_array_previews heap_floats (render_child heap_floats ∅ 1) 60 _ _ _)
           example_array H1).
Defined.

(** X19. The previews of the column names in the two [render_dataframe] and
    in [render_table]. What each returns is the repr of the value when
    it does not raise and fits the budget, or the header closed and
    clipped to the budget, or the header followed by the first [k]
    column names in order, each rendered by [render_child] in a budget of
    at least 3 that its text fits, and by the count [...K more] of the
    columns not shown, present exactly when [K > 0]. *)
Theorem X19_column_previews :
  forall h rc budget c s c' (obj : frame),
    let shape := str_of_Z (f_rows obj) ++ lit "x" ++ str_of_Z (f_cols obj) in
    (run_prog h rc (render_dataframe_pandas obj budget) c = (Ok s, c') ->
       (f_repr obj = Some s /\ len s <= budget)
       \/ s = slice_to (lit "DataFrame(" ++ shape ++ lit ")") budget
       \/ preview rc 3 (length (f_columns obj)) (lit "DataFrame(" ++ shape)
            (f_columns obj) s)
    /\ (run_prog h rc (render_dataframe_polars obj budget) c = (Ok s, c') ->
          (f_repr obj = Some s /\ len s <= budget)
          \/ s = slice_to (lit "DataFrame(" ++ shape ++ lit ")") budget
          \/ preview rc 3 (length (f_columns obj)) (lit "DataFrame(" ++ shape)
               (f_columns obj) s)
    /\ (run_prog h rc (render_table obj budget) c = (Ok s, c') ->
          (f_repr obj = Some s /\ len s <= budget)
          \/ s = slice_to (lit "Table(" ++ shape ++ lit ")") budget
          \/ preview rc 3 (length (f_columns obj)) (lit "Table(" ++ shape)
               (f_columns obj) s).
Proof.
  intros h rc budget c s c' obj shape.
  assert (Hrepr : forall r, repr_if_fits (f_repr obj) budget = Some r ->
            f_repr obj = Some r /\ len r <= budget).
  { intros r Hr. unfold repr_if_fits in Hr. destruct (f_repr obj) as [r0|]; [|discriminate].
    destruct (Z.leb_spec (len r0) budget); [|discriminate].
    injection Hr as <-. by split. }
  assert (Hnamed : forall name,
    run_prog h rc (render_table_named name obj budget) c = (Ok s, c') ->
    (f_repr obj = Some s /\ len s <= budget)
    \/ s = slice_to (name ++ lit "(" ++ shape ++ lit ")") budget
    \/ preview rc 3 (length (f_columns obj)) (name ++ lit "(" ++ shape)
         (f_columns obj) s).
  { intros name H. unfold render_table_named in H.
    destruct (repr_if_fits (f_repr obj) budget) as [r|] eqn:Hr.
    { apply ret_inv in H as [-> _]. left. by apply Hrepr. }
    right. destruct (budget <=? _).
    { apply ret_inv in H as [-> _]. left. subst shape.
      rewrite <- ?app_assoc. reflexivity. }
    destruct (_ <? 5).
    { apply ret_inv in H as [-> _]. left. subst shape.
      rewrite <- ?app_assoc. reflexivity. }
    right. rewrite <- (take_all (f_columns obj)) in H at 2.
    subst shape. rewrite <- ?app_assoc.
    eapply peek_preview; [|exact H]. lia. }
  split; [|split].
  - intros H. unfold render_dataframe_pandas in H.
    destruct (repr_if_fits (f_repr obj) budget) as [r|] eqn:Hr.
    { apply ret_inv in H as [-> _]. left. by apply Hrepr. }
    right. destruct (budget <=? _).
    { apply ret_inv in H as [-> _]. left. subst shape.
      rewrite <- ?app_assoc. reflexivity. }
    destruct (_ <? 5).
    { apply ret_inv in H as [-> _]. left. subst shape.
      rewrite <- ?app_assoc. reflexivity. }
    right. rewrite <- (take_all (f_columns obj)) in H at 2.
    subst shape. rewrite <- ?app_assoc.
    eapply peek_preview; [|exact H]. lia.
  - intros H. apply (Hnamed (lit "DataFrame")). exact H.
  - intros H. apply (Hnamed (lit "Table")). exact H.
Qed.

Lemma X19_column_previews_witness :
  run_prog heap_columns (render_child heap_columns ∅ 1)
      (render_dataframe_polars example_frame 40)
      {| _seen := Some ∅; _policy := greedy |}
    = (Ok (lit "DataFrame(1000x3, ['id', ...2 more])"),
       {| _seen := Some ∅; _policy := greedy |})
  /\ ((f_repr example_frame = Some (lit "DataFrame(1000x3, ['id', ...2 more])")
       /\ len (lit "DataFrame(1000x3, ['id', ...2 more])") <= 40)
      \/ lit "DataFrame(1000x3, ['id', ...2 more])"
           = slice_to (lit "DataFrame("
                         ++ (str_of_Z (f_rows example_frame) ++ lit "x"
                               ++ str_of_Z (f_cols example_frame))
                         ++ lit ")") 40
      \/ preview (render_child heap_columns ∅ 1) 3 (length (f_columns example_frame))
           (lit "DataFrame("
              ++ (str_of_Z (f_rows example_frame) ++ lit "x"
                    ++ str_of_Z (f_cols example_frame)))
           (f_columns example_frame)
           (lit "DataFrame(1000x3, ['id', ...2 more])")).
Proof.
  assert (H1 : run_prog heap_columns (render_child heap_columns ∅ 1)
                 (render_dataframe_polars example_frame 40)
                 {| _seen := Some ∅; _policy := greedy |}
               = (Ok (lit "DataFrame(1000x3, ['id', ...2 more])"),
                  {| _seen := Some ∅; _policy := greedy |}))
    by (vm_compute; reflexivity).
  split; [exact H1|].
  exact (proj1 (proj2 (X19_column_previews heap_columns (render_child heap_columns ∅ 1)
                         40 _ _ _ example_frame)) H1).
Defined.

(** The column preview lets the placeholder of the budget floor through:
    with three or four characters left a column shows as ["..."]. *)
Example column_placeholder :
  (run_prog heap_columns (render_child heap_columns ∅ 1)
     (render_dataframe_pandas example_frame 40)
     {| _seen := Some ∅; _policy := greedy |}).1
    = Ok (lit "DataFrame(1000x3, ['id', ..., 'score'])").
Proof. vm_compute. reflexivity. Qed.

(** *** How far a preview overruns its budget *)

Lemma peek_loop_room h rc min_avail n finish used0 :
  forall items i remaining used parts c s c',
    run_prog h rc (peek_loop min_avail n items i remaining used parts finish) c
      = (Ok s, c') ->
    i = len parts ->
    used = used0 + len (join (lit ", ") parts) ->
    (parts <> [] -> used + peek_reserve (n - i) <= remaining) ->
    exists shown c1,
      run_prog h rc (finish (parts ++ shown)) c1 = (Ok s, c')
      /\ (parts ++ shown <> [] ->
          used0 + len (join (lit ", ") (parts ++ shown))
            + peek_reserve (n - len (parts ++ shown)) <= remaining).
Proof.
  induction items as [|item items IH];
    intros i remaining used parts c s c' H Hi Hused Hinv.
  - simpl in H. exists [], c. rewrite app_nil_r. split; [exact H|].
    intros Hne. specialize (Hinv Hne). subst i. lia.
  - cbn [peek_loop run_prog] in H. unfold resume in H.
    fold (peek_reserve (n - i - 1)) in H.
    set (avail := remaining - used - sep_cost_of parts - peek_reserve (n - i - 1)) in *.
    assert (Hstop : forall c1,
      run_prog h rc (finish parts) c1 = (Ok s, c') ->
      exists shown c2,
        run_prog h rc (finish (parts ++ shown)) c2 = (Ok s, c')
        /\ (parts ++ shown <> [] ->
            used0 + len (join (lit ", ") (parts ++ shown))
              + peek_reserve (n - len (parts ++ shown)) <= remaining)).
    { intros c1 Hfin. exists [], c1. rewrite app_nil_r. split; [exact Hfin|].
      intros Hne. specialize (Hinv Hne). subst i. lia. }
    destruct (rc item avail c) as [[r|e|] c1] eqn:Hrc; [| |discriminate].
    + cbn [or_raise] in H.
      destruct (Z.ltb_spec avail (len r)) as [Hlong|Hfit]; cbn [orb] in H;
        [by apply (Hstop c1)|].
      destruct (Z.ltb_spec avail min_avail) as [Hsmall|Hroom];
        [by apply (Hstop c1)|].
      apply (IH (i + 1) remaining _ (parts ++ [r])) in H.
      * destruct H as (shown & c2 & Hfin & Hbound).
        exists (r :: shown), c2.
        replace (parts ++ r :: shown) with ((parts ++ [r]) ++ shown)
          by (rewrite <- app_assoc; reflexivity).
        split; [exact Hfin|]. intros _. apply Hbound.
        intros Hnil. apply app_eq_nil in Hnil as [Hnil _].
        apply app_eq_nil in Hnil as [_ Hnil]. discriminate.
      * rewrite len_app. subst i. reflexivity.
      * rewrite len_join_snoc. lia.
      * intros _. replace (n - (i + 1)) with (n - i - 1) by lia.
        subst avail. lia.
    + cbn [or_raise run_prog] in H. discriminate.
Qed.

Lemma peek_room h rc min_avail header items shown0 remaining used0 c s c' :
  0 <= used0 ->
  run_prog h rc
    (peek_loop min_avail (len items) shown0 0 remaining used0 []
       (peek_finish header (len items))) c = (Ok s, c') ->
  nothing_shown header items s
  \/ len s <= len header + 5 + remaining - used0.
Proof.
  intros Hused0 H.
  apply (peek_loop_room h rc min_avail (len items) _ used0) in H;
    [|reflexivity|simpl; rewrite (len_nil N); lia|done].
  destruct H as (shown & c1 & Hfin & Hbound). simpl app in *.
  unfold peek_finish in Hfin. cbn [run_prog] in Hfin. apply ret_inv in Hfin as [-> _].
  destruct shown as [|r shown].
  - left. unfold nothing_shown. rewrite (len_nil pystr), Z.sub_0_r.
    destruct (0 <? len items); reflexivity.
  - right. specialize (Hbound ltac:(discriminate)).
    set (parts := r :: shown) in *. unfold peek_reserve in Hbound.
    rewrite !len_app.
    destruct (Z.ltb_spec 0 (len items - len parts)).
    + rewrite len_join_snoc. rewrite len_app in Hbound.
      change (sep_cost_of parts) with 2. len_norm. lia.
    + len_norm. lia.
Qed.

Lemma repr_if_fits_fits r0 budget r :
  repr_if_fits r0 budget = Some r -> len r <= budget.
Proof.
  unfold repr_if_fits. destruct r0 as [r1|]; [|discriminate].
  destruct (Z.leb_spec (len r1) budget); [|discriminate].
  intros [= <-]. assumption.
Qed.

(** X20. A preview that shows at least one value is at most three
    characters longer than the budget in [render_ndarray] and
    [render_tensor], which set aside two characters for the five of
    [", ["] and ["])"], and at most one longer in the [render_dataframe]
    of pandas, which sets aside two more: the clip of the dispatcher can
    cut their closing brackets. *)
Theorem X20_preview_overrun :
  forall h rc budget c s c',
    0 <= budget ->
    (forall obj : ndarray,
       run_prog h rc (render_ndarray obj budget) c = (Ok s, c') ->
       nothing_shown (lit "ndarray(" ++ shape_text (nd_shape obj) ++ lit ", "
                        ++ nd_dtype obj) (nd_flat obj) s
       \/ len s <= budget + 3)
    /\ (forall obj : tensor,
          run_prog h rc (render_tensor obj budget) c = (Ok s, c') ->
          nothing_shown (tensor_header obj) (t_flat obj) s
          \/ len s <= budget + 3)
    /\ (forall obj : frame,
          run_prog h rc (render_dataframe_pandas obj budget) c = (Ok s, c') ->
          nothing_shown (lit "DataFrame(" ++ str_of_Z (f_rows obj) ++ lit "x"
                           ++ str_of_Z (f_cols obj)) (f_columns obj) s
          \/ len s <= budget + 1).
Proof.
  intros h rc budget c s c' Hb.
  assert (Hclip : forall t : pystr, len (slice_to t budget) <= budget)
    by (intros t; by apply len_slice_to).
  split; [|split].
  - intros obj H. unfold render_ndarray in H.
    destruct (budget <=? _).
    { apply ret_inv in H as [-> _]. right.
      match goal with |- len (slice_to ?t _) <= _ => specialize (Hclip t) end. lia. }
    destruct (_ <? 5).
    { apply ret_inv in H as [-> _]. right.
      match goal with |- len (slice_to ?t _) <= _ => specialize (Hclip t) end. lia. }
    apply peek_room in H; [|lia]. destruct H as [H|H]; [by left|right; lia].
  - intros obj H. unfold render_tensor in H.
    destruct (budget <=? _).
    { apply ret_inv in H as [-> _]. right.
      match goal with |- len (slice_to ?t _) <= _ => specialize (Hclip t) end. lia. }
    destruct (_ <? 5).
    { apply ret_inv in H as [-> _]. right.
      match goal with |- len (slice_to ?t _) <= _ => specialize (Hclip t) end. lia. }
    apply peek_room in H; [|lia]. destruct H as [H|H]; [by left|right; lia].
  - intros obj H. unfold render_dataframe_pandas in H.
    destruct (repr_if_fits (f_repr obj) budget) as [r|] eqn:Hr.
    { apply ret_inv in H as [-> _]. right.
      apply (repr_if_fits_fits _ _ _) in Hr. lia. }
    destruct (budget <=? _).
    { apply ret_inv in H as [-> _]. right.
      match goal with |- len (slice_to ?t _) <= _ => specialize (Hclip t) end. lia. }
    destruct (_ <? 5).
    { apply ret_inv in H as [-> _]. right.
      match goal with |- len (slice_to ?t _) <= _ => specialize (Hclip t) end. lia. }
    apply peek_room in H; [|lia]. destruct H as [H|H]; [by left|right; lia].
Qed.

Lemma X20_preview_overrun_witness :
  0 <= 100 /\
  run_prog heap_floats (render_child heap_floats ∅ 1) (render_ndarray example_array 100)
      {| _seen := Some ∅; _policy := greedy |}
    = (Ok (lit "ndarray(30, float64, [0.0, 1.0, 2.0, 3.0, 4.0, 5.0, 6.0, 7.0, 8.0, 9.0, 10.0, 11.0, 12.0, ...17 more])"),
       {| _seen := Some ∅; _policy := greedy |})
  /\ (nothing_shown (lit "ndarray(" ++ shape_text (nd_shape example_array) ++ lit ", "
                       ++ nd_dtype example_array) (nd_flat example_array)
        (lit "ndarray(30, float64, [0.0, 1.0, 2.0, 3.0, 4.0, 5.0, 6.0, 7.0, 8.0, 9.0, 10.0, 11.0, 12.0, ...17 more])")
      \/ len (lit "ndarray(30, float64, [0.0, 1.0, 2.0, 3.0, 4.0, 5.0, 6.0, 7.0, 8.0, 9.0, 10.0, 11.0, 12.0, ...17 more])")
           <= 100 + 3).
Proof.
  assert (H1 : 0 <= 100) by lia.
  assert (H2 : run_prog heap_floats (render_child heap_floats ∅ 1)
                 (render_ndarray example_array 100)
                 {| _seen := Some ∅; _policy := greedy |}
               = (Ok (lit "ndarray(30, float64, [0.0, 1.0, 2.0, 3.0, 4.0, 5.0, 6.0, 7.0, 8.0, 9.0, 10.0, 11.0, 12.0, ...17 more])"),
                  {| _seen := Some ∅; _policy := greedy |}))
    by (vm_compute; reflexivity).
  split; [exact H1|]. split; [exact H2|].
  exact (proj1 (X20_preview_overrun heap_floats (render_child heap_floats ∅ 1) 100 _ _ _ H1)
           example_array H2).
Defined.

(** X21. [render_array], the [render_dataframe] of polars and
    [render_table] set aside all five characters of [", ["] and ["])"]:
    whatever [render_child] answers, what they return keeps every
    non-negative budget, unless the preview shows no value at all and is
    the header with the bare count. *)
Theorem X21_preview_kept :
  forall h rc budget c s c',
    0 <= budget ->
    (forall obj : arrow_array,
       run_prog h rc (render_array obj budget) c = (Ok s, c') ->
       nothing_shown (lit "Array(" ++ str_of_Z (len (aa_values obj)) ++ lit ", "
                        ++ aa_type obj) (aa_values obj) s
       \/ len s <= budget)
    /\ (forall obj : frame,
          run_prog h rc (render_dataframe_polars obj budget) c = (Ok s, c') ->
          nothing_shown (lit "DataFrame(" ++ str_of_Z (f_rows obj) ++ lit "x"
                           ++ str_of_Z (f_cols obj)) (f_columns obj) s
          \/ len s <= budget)
    /\ (forall obj : frame,
          run_prog h rc (render_table obj budget) c = (Ok s, c') ->
          nothing_shown (lit "Table(" ++ str_of_Z (f_rows obj) ++ lit "x"
                           ++ str_of_Z (f_cols obj)) (f_columns obj) s
          \/ len s <= budget).
Proof.
  intros h rc budget c s c' Hb.
  assert (Hclip : forall t : pystr, len (slice_to t budget) <= budget)
    by (intros t; by apply len_slice_to).
  assert (Hnamed : forall (name : pystr) (obj : frame),
            run_prog h rc (render_table_named name obj budget) c = (Ok s, c') ->
            nothing_shown (name ++ lit "(" ++ str_of_Z (f_rows obj) ++ lit "x"
                             ++ str_of_Z (f_cols obj)) (f_columns obj) s
            \/ len s <= budget).
  { intros name obj H. unfold render_table_named in H.
    destruct (repr_if_fits (f_repr obj) budget) as [r|] eqn:Hr.
    { apply ret_inv in H as [-> _]. right. by apply repr_if_fits_fits in Hr. }
    destruct (budget <=? _).
    { apply ret_inv in H as [-> _]. right. apply Hclip. }
    destruct (_ <? 5).
    { apply ret_inv in H as [-> _]. right. apply Hclip. }
    apply peek_room in H; [|lia]. destruct H as [H|H]; [by left|right; lia]. }
  split; [|split].
  - intros obj H. unfold render_array in H.
    destruct (budget <=? _).
    { apply ret_inv in H as [-> _]. right. apply Hclip. }
    destruct (_ <? 5).
    { apply ret_inv in H as [-> _]. right. apply Hclip. }
    apply peek_room in H; [|lia]. destruct H as [H|H]; [by left|right; lia].
  - intros obj H. exact (Hnamed (lit "DataFrame") obj H).
  - intros obj H. exact (Hnamed (lit "Table") obj H).
Qed.

Lemma X21_preview_kept_witness :
  0 <= 40 /\
  run_prog heap_columns (render_child heap_columns ∅ 1)
      (render_dataframe_polars example_frame 40)
      {| _seen := Some ∅; _policy := greedy |}
    = (Ok (lit "DataFrame(1000x3, ['id', ...2 more])"),
       {| _seen := Some ∅; _policy := greedy |})
  /\ (nothing_shown (lit "DataFrame(" ++ str_of_Z (f_rows example_frame) ++ lit "x"
                       ++ str_of_Z (f_cols example_frame)) (f_columns example_frame)
        (lit "DataFrame(1000x3, ['id', ...2 more])")
      \/ len (lit "DataFrame(1000x3, ['id', ...2 more])") <= 40).
Proof.
  assert (H1 : 0 <= 40) by lia.
  assert (H2 : run_prog heap_columns (render_child heap_columns ∅ 1)
                 (render_dataframe_polars example_frame 40)
                 {| _seen := Some ∅; _policy := greedy |}
               = (Ok (lit "DataFrame(1000x3, ['id', ...2 more])"),
                  {| _seen := Some ∅; _policy := greedy |}))
    by (vm_compute; reflexivity).
  split; [exact H1|]. split; [exact H2|].
  exact (proj1 (proj2 (X21_preview_kept heap_columns (render_child heap_columns ∅ 1)
                         40 _ _ _ H1)) example_frame H2).
Defined.

(** [render(np.arange(30.0), 100)]: the preview has 102 characters and
    the dispatcher cuts its closing brackets. *)
Example numpy_clipped :
  (render heap_numpy registry_numpy 5 1000%N 100 greedy ctx0).1
    = Ok (lit "ndarray(30, float64, [0.0, 1.0, 2.0, 3.0, 4.0, 5.0, 6.0, 7.0, 8.0, 9.0, 10.0, 11.0, 12.0, ...17 more")
  /\ (render heap_numpy registry_numpy 5 1000%N 60 greedy ctx0).1
       = Ok (lit "ndarray(30, float64, [0.0, 1.0, 2.0, 3.0, 4.0, ...25 more])").
Proof. split; vm_compute; reflexivity. Qed.

(** *** pydantic models *)

(** X22. A pydantic model whose class has no [__budget_repr__] and inherits
    the renderer registered for [BaseModel] is rendered as [render_attrs]
    renders its declared fields under the name of its class, with the
    model itself on the cycle guard: the dispatcher's clip changes
    nothing, an exception of a field's rendering reaches the caller, and
    the [__repr__] of the model is not consulted. *)
Theorem X22_pydantic_decomposed :
  forall h reg fuel obj budget policy c (fields_of : oid -> list (pystr * oid)) pre post,
    let ty := ob_type (deref h obj) in
    is_exempt (deref h obj) = false ->
    ty_budget_repr ty = None ->
    ty_mro ty = pre ++ cid_BaseModel :: post ->
    (forall k, k ∈ pre -> reg !! k = None) ->
    reg !! cid_BaseModel
      = Some (fun o b => render_basemodel (ty_name (ob_type (deref h o))) (fields_of o) b) ->
    MIN_BUDGET <= budget ->
    render h reg (S fuel) obj budget policy c
      = ((render_attrs h (render_child h reg fuel) (py_dict (fields_of obj))
            (ty_name ty) budget {| _seen := Some {[obj]}; _policy := policy |}).1, c).
Proof.
  intros h reg fuel obj budget policy c fields_of pre post ty
    Hex Hhook Hmro Hpre Hreg Hb.
  unfold render. rewrite render_session_eq. f_equal.
  rewrite render_child_S by exact Hb.
  rewrite render_child_guarded_fresh by (try exact Hex; apply not_elem_of_empty).
  cbn [fst]. rewrite (left_id_L ∅ (∪)).
  unfold _render_inner. fold ty. rewrite Hhook.
  unfold get_renderer. rewrite Hmro.
  rewrite (get_renderer_mro_nearest reg pre cid_BaseModel post _ Hpre Hreg).
  unfold render_basemodel, bind. cbn [run_prog]. unfold resume. fold ty.
  destruct (render_attrs h (render_child h reg fuel) (py_dict (fields_of obj))
              (ty_name ty) budget {| _seen := Some {[obj]}; _policy := policy |})
    as [[s|e|] c1] eqn:Hattrs; cbn [or_raise run_prog fst]; try reflexivity.
  unfold ret. cbn [fst]. f_equal. apply slice_to_all.
  eapply render_attrs_within; [|exact Hattrs]. unfold MIN_BUDGET in Hb. lia.
Qed.

Lemma X22_pydantic_decomposed_witness :
  is_exempt (deref heap_user 0%N) = false /\
  ty_budget_repr (ob_type (deref heap_user 0%N)) = None /\
  ty_mro (ob_type (deref heap_user 0%N)) = [301%N] ++ cid_BaseModel :: [cid_object] /\
  (forall k, k ∈ [301%N] -> registry_pydantic !! k = None) /\
  MIN_BUDGET <= 100 /\
  render heap_user registry_pydantic 2 0%N 100 greedy ctx0
    = ((render_attrs heap_user (render_child heap_user registry_pydantic 1)
          (py_dict (user_fields 0%N)) (lit "User") 100
          {| _seen := Some {[0%N]}; _policy := greedy |}).1, ctx0).
Proof.
  assert (H1 : is_exempt (deref heap_user 0%N) = false) by reflexivity.
  assert (H2 : ty_budget_repr (ob_type (deref heap_user 0%N)) = None) by reflexivity.
  assert (H3 : ty_mro (ob_type (deref heap_user 0%N))
               = [301%N] ++ cid_BaseModel :: [cid_object]) by reflexivity.
  assert (H4 : forall k, k ∈ [301%N] -> registry_pydantic !! k = None).
  { intros k Hin. apply list_elem_of_singleton in Hin. subst k. reflexivity. }
  assert (H5 : MIN_BUDGET <= 100) by (unfold MIN_BUDGET; lia).
  split; [exact H1|]. split; [exact H2|]. split; [exact H3|]. split; [exact H4|].
  split; [exact H5|].
  exact (X22_pydantic_decomposed heap_user registry_pydantic 1%nat 0%N 100 greedy ctx0
           user_fields [301%N] [cid_object] H1 H2 H3 H4 eq_refl H5).
Defined.

Example pydantic_example :
  (render heap_user registry_pydantic 5 0%N 100 greedy ctx0).1
    = Ok (lit "User(id=7, name='ann')")
  /\ (render heap_user registry_pydantic 5 0%N 18 greedy ctx0).1
       = Ok (lit "User(...2 more)").
Proof. split; vm_compute; reflexivity. Qed.
